(** * Notification delivery core: dispatcher, stream listener and store

    A shallow embedding of [src/utils/notificationService.ts] (module
    [Service]) and of the [useNotifications] hook (module [Hook]), with
    the JavaScript string and number primitives they rely on (module
    [Js]).

    Conventions of the embedding.
    - A JavaScript string is a [string]; [charCodeAt] is the code of the
      8-bit character, so texts are those whose code units are below 256.
    - [Date.now()] is a natural number of milliseconds ([N]); every
      handler receives the clock reading of the event it processes.
    - [Math.random().toString(36).substring(2, 8)] is a string argument.
    - Asynchronous functions run to completion when they are called; the
      host answers (does the bridge exist, does a promise reject, ...) are
      read from a [host] record.
    - React state updaters are applied in the order of the [setState]
      calls. An updater that reads only its argument is applied at the
      point of the call, which gives the same store as applying it at
      the render. The one updater that reads a ref, the flush of the
      buffer, is applied when React runs it: at the call or at the
      render that follows the handler ([Hook.updater_run]), before the
      next event. *)

From Stdlib Require Import ZArith NArith Lia Bool Ascii String List.
From Stdlib Require Import DecimalString DecimalN DecimalZ.
From stdpp Require Import base option list strings gmap.
Import ListNotations.

Local Open Scope string_scope.
Local Open Scope list_scope.
Local Open Scope Z_scope.

(** ** JavaScript primitives *)

Module Js.

(** [s.split(sep)] for a one-character separator. *)
Fixpoint split (sep : ascii) (s : string) : list string :=
  match s with
  | EmptyString => [EmptyString]
  | String c rest =>
      if Ascii.eqb c sep then EmptyString :: split sep rest
      else match split sep rest with
           | [] => [String c EmptyString]
           | part :: parts => String c part :: parts
           end
  end.

(** [parts.join(sep)]. *)
Fixpoint join (sep : string) (parts : list string) : string :=
  match parts with
  | [] => EmptyString
  | [part] => part
  | part :: rest => part +:+ sep +:+ join sep rest
  end.

(** [parts.pop()], as far as the array is concerned. *)
Definition pop {A} (parts : list A) : list A := removelast parts.

(** Truthiness of a string: only the empty string is falsy. *)
Definition truthy (s : string) : bool :=
  match s with EmptyString => false | String _ _ => true end.

(** [a || b] on strings. *)
Definition or_else (a b : string) : string := if truthy a then a else b.

(** Template rendering of a non-negative integer, [`${n}`]. *)
Definition of_N (n : N) : string := NilZero.string_of_uint (N.to_uint n).

(** Template rendering of an integer, [`${z}`]. *)
Definition of_Z (z : Z) : string :=
  if z <? 0 then String "-" (of_N (Z.to_N (- z))) else of_N (Z.to_N z).

(** [x | 0]: the 32-bit two's complement reading of an integer. *)
Definition to_int32 (z : Z) : Z := (z + 2 ^ 31) mod 2 ^ 32 - 2 ^ 31.

(** [x << k] on an integer. *)
Definition shl32 (z : Z) (k : Z) : Z := to_int32 (Z.shiftl (to_int32 z) k).

(** [s.charCodeAt(i)] of the head character. *)
Definition char_code (c : ascii) : Z := Z.of_N (N_of_ascii c).

(** [s.includes(c)] for one character. *)
Fixpoint contains (c : ascii) (s : string) : bool :=
  match s with
  | EmptyString => false
  | String d rest => Ascii.eqb d c || contains c rest
  end.

(** [s.includes(sep)]. *)
Fixpoint includes (sep s : string) : bool :=
  match s with
  | EmptyString => String.prefix sep EmptyString
  | String _ rest => String.prefix sep s || includes sep rest
  end.

(** [s.split(sep)] for a separator of one character or more:
    [skip] counts the characters of a matched separator that are still
    to be passed over. *)
Fixpoint split_from (sep : string) (skip : nat) (s : string) : list string :=
  match s with
  | EmptyString => [EmptyString]
  | String c rest =>
      match skip with
      | S k => split_from sep k rest
      | O =>
          if String.prefix sep s
          then EmptyString :: split_from sep (String.length sep - 1) rest
          else match split_from sep 0 rest with
               | [] => [String c EmptyString]
               | part :: parts => String c part :: parts
               end
      end
  end.

Definition split_by (sep s : string) : list string := split_from sep 0 s.

(** White space as [parseInt] skips it, among 8-bit characters. *)
Definition is_space (c : ascii) : bool :=
  let n := N_of_ascii c in
  ((9 <=? n) && (n <=? 13) || (n =? 32) || (n =? 160))%N.

Fixpoint skip_spaces (s : string) : string :=
  match s with
  | String c rest => if is_space c then skip_spaces rest else s
  | EmptyString => s
  end.

(** The value of a character as a digit, letters counting from ten. *)
Definition digit_value (c : ascii) : option Z :=
  let n := Z.of_N (N_of_ascii c) in
  if (48 <=? n) && (n <=? 57) then Some (n - 48)
  else if (97 <=? n) && (n <=? 122) then Some (n - 87)
  else if (65 <=? n) && (n <=? 90) then Some (n - 55)
  else None.

(** The longest run of digits of the radix; [None] when there is none. *)
Fixpoint parse_digits (radix : Z) (acc : option Z) (s : string) : option Z :=
  match s with
  | EmptyString => acc
  | String c rest =>
      match digit_value c with
      | Some d =>
          if d <? radix
          then parse_digits radix
                 (Some (match acc with Some a => a | None => 0 end * radix + d))
                 rest
          else acc
      | None => acc
      end
  end.

(** [parseInt(s)]; [None] is [NaN]. Values stay within the integers
    that a JavaScript number holds exactly. *)
Definition parseInt (s : string) : option Z :=
  let s1 := skip_spaces s in
  let '(negative, s2) :=
    match s1 with
    | String "-" rest => (true, rest)
    | String "+" rest => (false, rest)
    | _ => (false, s1)
    end in
  let '(radix, s3) :=
    match s2 with
    | String "0" (String "x" rest) => (16, rest)
    | String "0" (String "X" rest) => (16, rest)
    | _ => (10, s2)
    end in
  match parse_digits radix None s3 with
  | Some n => Some (if negative : bool then - n else n)
  | None => None
  end.

End Js.

Definition dash : ascii := "-"%char.

(** ** Tasks: state, trace and exceptions

    The handlers of both source files read and write module or hook
    state, call into the host, and use [try]/[catch]. A task is a
    function from the state before to the completion, the state after
    and the effects performed, in order. *)

Module Task.

(** How a call completes: it returns, or it throws (a promise that
    rejects under [await] counts as a throw). *)
Inductive outcome (A : Type) :=
| Returns (a : A)
| Throws.
Arguments Returns {A} a.
Arguments Throws {A}.

Section Monad.
Variables S E : Type.

Definition M (A : Type) : Type := S -> outcome A * S * list E.

Definition ret {A} (a : A) : M A := fun s => (Returns a, s, []).
Definition throw {A} : M A := fun s => (Throws, s, []).
Definition bind {A B} (m : M A) (k : A -> M B) : M B :=
  fun s =>
    match m s with
    | (Returns a, s1, t1) =>
        match k a s1 with (r, s2, t2) => (r, s2, t1 ++ t2) end
    | (Throws, s1, t1) => (Throws, s1, t1)
    end.
Definition try_catch {A} (m : M A) (handler : M A) : M A :=
  fun s =>
    match m s with
    | (Returns a, s1, t1) => (Returns a, s1, t1)
    | (Throws, s1, t1) =>
        match handler s1 with (r, s2, t2) => (r, s2, t1 ++ t2) end
    end.
Definition emit (e : E) : M unit := fun s => (Returns tt, s, [e]).
Definition get : M S := fun s => (Returns s, s, []).
Definition put (s' : S) : M unit := fun _ => (Returns tt, s', []).
Definition call {A} (o : outcome A) : M A :=
  match o with Returns a => ret a | Throws => throw end.

(** A promise nobody awaits: its rejection does not reach the caller. *)
Definition detached (m : M unit) : M unit := try_catch m (ret tt).

Definition result_of {A} (r : outcome A * S * list E) : outcome A := fst (fst r).
Definition state_of {A} (r : outcome A * S * list E) : S := snd (fst r).
Definition trace_of {A} (r : outcome A * S * list E) : list E := snd r.
End Monad.

Arguments ret {S E A} a.
Arguments throw {S E A}.
Arguments bind {S E A B} m k.
Arguments try_catch {S E A} m handler.
Arguments emit {S E} e.
Arguments get {S E}.
Arguments put {S E} s'.
Arguments call {S E A} o.
Arguments detached {S E} m.
Arguments result_of {S E A} r.
Arguments state_of {S E A} r.
Arguments trace_of {S E A} r.

Declare Scope js_scope.
Delimit Scope js_scope with js.
Notation "x <- m ;; k" := (bind m (fun x => k))
  (at level 90, m at next level, right associativity) : js_scope.
Notation "m ;;; k" := (bind m (fun _ => k))
  (at level 90, right associativity) : js_scope.

End Task.

(** ** notificationService.ts *)

Module Service.
Import Task.
Local Open Scope js_scope.

Record NotificationData := {
  title : string;
  message : string;
  icon : option string;
  duration : option Z;
}.

(** [Notification.permission]. *)
Inductive permission := granted | denied | default.

(** The three audio elements [attemptPlay] can start. *)
Inductive audio := preloaded_clone | fallback_mp3 | fallback_wav.

(** The host at the time of one call. [sound_ready] is
    [notificationSoundLoaded && notificationSound] as the load handlers
    have left it when retry number [k] runs. [play] tells, for the retry
    number and for the two elements started inside the [try] block,
    whether [play()] resolves ([Returns true]), rejects ([Returns false])
    or the block throws. The WAV element is started inside a promise
    callback by the calls that have just returned for the MP3 element;
    [play_wav] is whether its promise resolves. Every promise settles. *)
Record host := {
  bridge : option (outcome unit);
  notification_api : bool;
  current_permission : permission;
  requestPermission : outcome permission;
  construct_notification : outcome unit;
  sound_ready : nat -> bool;
  play : nat -> audio -> outcome bool;
  play_wav : bool;
}.

Inductive timer :=
| sound_retry
| close_notification
| auto_retry (notificationId : string) (data : NotificationData).

(** What the dispatcher does to the outside world, in order. *)
Inductive effect :=
| play_audio (a : audio)
| bridge_show (t m : string)
| ask_permission
| os_notification (t body icon : string)
| set_timeout (delay : Z) (what : timer)
| preload_assets.

(** The module-level variables. [failedNotifications] is a JavaScript
    [Set], kept in insertion order. *)
Record state := {
  activeNotifications : list NotificationData;
  failedNotifications : list string;
}.

Definition MAX_RETRIES : nat := 3.

Definition set_has (x : string) (s : list string) : bool :=
  existsb (String.eqb x) s.
Definition set_add (x : string) (s : list string) : list string :=
  if set_has x s then s else s ++ [x].
Definition set_delete (x : string) (s : list string) : list string :=
  List.filter (fun y => negb (String.eqb x y)) s.

Definition M (A : Type) : Type := Task.M state effect A.

Definition failed_has (x : string) : M bool :=
  s <- get ;; ret (set_has x (failedNotifications s)).
Definition failed_add (x : string) : M unit :=
  s <- get ;;
  put {| activeNotifications := activeNotifications s;
         failedNotifications := set_add x (failedNotifications s) |}.
Definition failed_delete (x : string) : M unit :=
  s <- get ;;
  put {| activeNotifications := activeNotifications s;
         failedNotifications := set_delete x (failedNotifications s) |}.
Definition failed_clear : M unit :=
  s <- get ;;
  put {| activeNotifications := activeNotifications s;
         failedNotifications := [] |}.
Definition active_push (d : NotificationData) : M unit :=
  s <- get ;;
  put {| activeNotifications := activeNotifications s ++ [d];
         failedNotifications := failedNotifications s |}.

(** *** areBrowserNotificationsSupported *)

Definition areBrowserNotificationsSupported (h : host) : M bool :=
  if negb (notification_api h) then ret false
  else match current_permission h with
       | granted => ret true
       | default =>
           emit ask_permission ;;;
           p <- call (requestPermission h) ;;
           ret (match p with granted => true | _ => false end)
       | denied => ret false
       end.

(** *** playNotificationSound

    [attemptPlay retryCount]; [fuel] bounds the chain of timers, and
    [None] is an exhausted bound (it never is, see
    [playNotificationSound_total]). The promise resolves to the
    boolean. *)
Fixpoint attemptPlay (h : host) (fuel : nat) (retryCount : nat)
  : option (bool * list effect) :=
  match fuel with
  | O => None
  | S fuel' =>
      let again :=
        if (retryCount <? MAX_RETRIES)%nat then
          match attemptPlay h fuel' (S retryCount) with
          | Some (b, t) => Some (b, set_timeout 500 sound_retry :: t)
          | None => None
          end
        else Some (false, []) in
      let prepend (e : list effect) (r : option (bool * list effect)) :=
        match r with
        | Some (b, t) => Some (b, e ++ t)
        | None => None
        end in
      if sound_ready h retryCount then
        match play h retryCount preloaded_clone with
        | Returns true => Some (true, [play_audio preloaded_clone])
        | Returns false => prepend [play_audio preloaded_clone] again
        | Throws => prepend [play_audio preloaded_clone] again
        end
      else
        match play h retryCount fallback_mp3 with
        | Returns true => Some (true, [play_audio fallback_mp3])
        | Returns false =>
            if (retryCount =? 0)%nat then
              if play_wav h then
                Some (true, [play_audio fallback_mp3; play_audio fallback_wav])
              else
                prepend [play_audio fallback_mp3; play_audio fallback_wav] again
            else prepend [play_audio fallback_mp3] again
        | Throws => prepend [play_audio fallback_mp3] again
        end
  end.

Definition playNotificationSound_fuel (h : host) (fuel : nat)
  : option (bool * list effect) := attemptPlay h fuel 0.

Definition playNotificationSound (h : host) : M bool :=
  fun s =>
    match playNotificationSound_fuel h (S (S MAX_RETRIES)) with
    | Some (b, t) => (Returns b, s, t)
    | None => (Throws, s, [])
    end.

(** *** generateNotificationId *)

Definition generateNotificationId (data : NotificationData) (now : N) : string :=
  title data +:+ "-" +:+ message data +:+ "-" +:+ Js.of_N now.

(** [data.duration || 5000] and [data.icon || '/notification-icon.png']. *)
Definition duration_or_default (data : NotificationData) : Z :=
  match duration data with
  | Some d => if d =? 0 then 5000 else d
  | None => 5000
  end.
Definition icon_or_default (data : NotificationData) : string :=
  match icon data with
  | Some i => Js.or_else i "/notification-icon.png"
  | None => "/notification-icon.png"
  end.

(** *** showNotification

    The early [return]s of the source are the [true] results of the
    two channel attempts. *)
Definition try_bridge (h : host) (data : NotificationData) (notificationId : string)
  : M bool :=
  match bridge h with
  | Some display =>
      try_catch
        (emit (bridge_show (title data) (message data)) ;;;
         call display ;;;
         failed_delete notificationId ;;;
         ret true)
        (ret false)
  | None => ret false
  end.

Definition try_browser (h : host) (data : NotificationData) (notificationId : string)
  : M bool :=
  canUseSystemNotifications <- areBrowserNotificationsSupported h ;;
  if canUseSystemNotifications then
    try_catch
      (emit (os_notification (title data) (message data) (icon_or_default data)) ;;;
       call (construct_notification h) ;;;
       emit (set_timeout (duration_or_default data) close_notification) ;;;
       failed_delete notificationId ;;;
       ret true)
      (ret false)
  else ret false.

Definition visual_channels (h : host) (data : NotificationData)
  (notificationId : string) (wasFailedPreviously : bool) : M unit :=
  try_catch
    (shown <- try_bridge h data notificationId ;;
     if shown then ret tt
     else
       shown' <- try_browser h data notificationId ;;
       if shown' then ret tt
       else failed_delete notificationId)
    (if negb wasFailedPreviously then
       failed_add notificationId ;;;
       emit (set_timeout 1000 (auto_retry notificationId data))
     else ret tt).

Definition showNotification (h : host) (now : N) (data : NotificationData) : M unit :=
  let notificationId := generateNotificationId data now in
  wasFailedPreviously <- failed_has notificationId ;;
  active_push data ;;;
  _soundPlayed <- playNotificationSound h ;;
  visual_channels h data notificationId wasFailedPreviously.

(** The body of the timer set by the failure branch. *)
Definition fire_auto_retry (h : host) (now : N) (notificationId : string)
  (data : NotificationData) : M unit :=
  stillFailed <- failed_has notificationId ;;
  if stillFailed then try_catch (showNotification h now data) (ret tt)
  else ret tt.

(** *** retryFailedNotifications *)

(** [const [title, ...messageParts] = notificationId.split('-');
    messageParts.pop(); message = messageParts.join('-')]. *)
Definition parse_notification_id (notificationId : string) : string * string :=
  match Js.split dash notificationId with
  | [] => (EmptyString, EmptyString)
  | t :: messageParts => (t, Js.join "-" (Js.pop messageParts))
  end.

Fixpoint retry_each (h : host) (now : N) (failed : list string) : M unit :=
  match failed with
  | [] => ret tt
  | notificationId :: rest =>
      let '(t, m) := parse_notification_id notificationId in
      (if Js.truthy t && Js.truthy m then
         try_catch
           (showNotification h now
              {| title := t; message := m; icon := None; duration := None |})
           (ret tt)
       else ret tt) ;;;
      retry_each h now rest
  end.

Definition retryFailedNotifications (h : host) (now : N) : M unit :=
  s <- get ;;
  let failed := failedNotifications s in
  failed_clear ;;;
  retry_each h now failed.

(** *** ensureNotificationsReady, testNotification

    [sound_ready h 0] stands for [notificationSoundLoaded] when the
    function is entered. *)

Definition ensureNotificationsReady (h : host) (now : N) : M unit :=
  (if negb (sound_ready h 0) then emit preload_assets else ret tt) ;;;
  retryFailedNotifications h now.

Definition testNotification (h : host) (now : N) : M bool :=
  try_catch
    (showNotification h now
       {| title := "Test Notification";
          message := "Notification system is working";
          icon := None; duration := Some 3000 |} ;;;
     ret true)
    (ret false).

(** *** Observations on traces *)

(** The effects of the sound path of one call. *)
Definition sound_trace (h : host) : list effect :=
  match playNotificationSound_fuel h (S (S MAX_RETRIES)) with
  | Some (_, t) => t
  | None => []
  end.

Definition is_sound_effect (e : effect) : bool :=
  match e with
  | play_audio _ => true
  | set_timeout _ sound_retry => true
  | _ => false
  end.

(** The auto-retry timers a call has set. *)
Definition pending_auto_retries (t : list effect)
  : list (string * NotificationData) :=
  flat_map (fun e => match e with
                     | set_timeout _ (auto_retry i d) => [(i, d)]
                     | _ => []
                     end) t.

(** A delivery at [now] followed by the timers it sets, each firing
    1000 ms after the call that set it, for at most [budget] timers:
    the number of automatic retries that ran. *)
Fixpoint auto_retries (h : host) (budget : nat) (now : N)
  (data : NotificationData) (s : state) : nat :=
  match showNotification h now data s with
  | (_, s', t) =>
      match budget, pending_auto_retries t with
      | S budget', (notificationId, d) :: _ =>
          if set_has notificationId (failedNotifications s')
          then S (auto_retries h budget' (now + 1000) d s')
          else O
      | _, _ => O
      end
  end.

(** Every id of the failed set was made for [data] before [now]. *)
Definition failed_before (data : NotificationData) (now : N)
  (s : state) : Prop :=
  forall i, In i (failedNotifications s) ->
            exists t, (t < now)%N /\ i = generateNotificationId data t.

(** What the visual part of a delivery does on its way past the
    bridge: the bridge call, when there is a bridge, and the permission
    prompt, when the permission is still undecided. *)
Definition channel_probes (h : host) (data : NotificationData) : list effect :=
  match bridge h with
  | Some _ => [bridge_show (title data) (message data)]
  | None => []
  end ++
  (if notification_api h then
     match current_permission h with
     | default => [ask_permission]
     | _ => []
     end
   else []).

(** Two hosts that differ at most in what the audio elements do. *)
Definition same_channels (h h' : host) : Prop :=
  bridge h = bridge h' /\ notification_api h = notification_api h' /\
  current_permission h = current_permission h' /\
  requestPermission h = requestPermission h' /\
  construct_notification h = construct_notification h'.

(** *** getActiveNotifications, clearNotification, clearAllNotifications *)

Definition getActiveNotifications : M (list NotificationData) :=
  s <- get ;; ret (activeNotifications s).

(** [array.splice(index, 1)] for an index of the array. *)
Definition splice_one {A} (index : nat) (l : list A) : list A :=
  firstn index l ++ skipn (S index) l.

Definition clearNotification (index : Z) : M unit :=
  s <- get ;;
  if (0 <=? index) && (index <? Z.of_nat (length (activeNotifications s))) then
    put {| activeNotifications :=
             splice_one (Z.to_nat index) (activeNotifications s);
           failedNotifications := failedNotifications s |}
  else ret tt.

Definition clearAllNotifications : M unit :=
  s <- get ;;
  put {| activeNotifications := [];
         failedNotifications := failedNotifications s |}.

(** *** preloadNotificationAssets

    What happens to the [Audio] element that attempt [k] creates: its
    [canplaythrough] handler runs, its [error] handler runs, the [try]
    block throws, or neither handler ever runs. *)
Inductive load_outcome :=
| can_play_through
| load_error
| load_throws
| load_silent.

(** [notificationSoundLoaded] and [notificationSound] (the number of
    the attempt that created the element, or [null]). *)
Record sound_vars := {
  notificationSoundLoaded : bool;
  notificationSound : option nat;
}.

(** [loadSound retryCount]: the variables when the chain of attempts
    has ended, and the delays of the timers it has set. *)
Fixpoint loadSound (outcome : nat -> load_outcome) (fuel : nat)
  (retryCount : nat) (v : sound_vars) : option (sound_vars * list Z) :=
  match fuel with
  | O => None
  | S fuel' =>
      let created :=
        {| notificationSoundLoaded := notificationSoundLoaded v;
           notificationSound := Some retryCount |} in
      let unavailable :=
        {| notificationSoundLoaded := false; notificationSound := None |} in
      let delay := 2 ^ Z.of_nat retryCount * 1000 in
      let again (v' : sound_vars) :=
        match loadSound outcome fuel' (S retryCount) v' with
        | Some (v'', delays) => Some (v'', delay :: delays)
        | None => None
        end in
      match outcome retryCount with
      | can_play_through =>
          Some ({| notificationSoundLoaded := true;
                   notificationSound := Some retryCount |}, [])
      | load_silent => Some (created, [])
      | load_error =>
          if (retryCount <? MAX_RETRIES)%nat then again created
          else Some (unavailable, [])
      | load_throws =>
          if (retryCount <? MAX_RETRIES)%nat then again unavailable
          else Some (unavailable, [])
      end
  end.

Definition preloadNotificationAssets (outcome : nat -> load_outcome)
  (v : sound_vars) : option (sound_vars * list Z) :=
  loadSound outcome (S (S MAX_RETRIES)) 0 v.

(** *** More observations *)

(** The retry timers and the [play()] calls of a sound trace. *)
Definition sound_timers (t : list effect) : nat :=
  length (List.filter
            (fun e => match e with set_timeout _ sound_retry => true | _ => false end)
            t).
Definition play_attempts (t : list effect) : nat :=
  length (List.filter
            (fun e => match e with play_audio _ => true | _ => false end) t).

(** The hosts on which a call ends in the [catch] of "All notification
    methods failed": the bridge does not deliver, and the permission
    prompt, which is reached, rejects. *)
Definition ends_in_failure (h : host) : bool :=
  match bridge h with
  | Some (Returns _) => false
  | _ =>
      notification_api h &&
      match current_permission h, requestPermission h with
      | default, Throws => true
      | _, _ => false
      end
  end.

(** What the retry loop does with one id: whether it passes the guard
    [if (title && message)], and the data it delivers then. *)
Definition retryable (notificationId : string) : bool :=
  Js.truthy (fst (parse_notification_id notificationId))
  && Js.truthy (snd (parse_notification_id notificationId)).
Definition redelivered (notificationId : string) : NotificationData :=
  {| title := fst (parse_notification_id notificationId);
     message := snd (parse_notification_id notificationId);
     icon := None; duration := None |}.

(** The data of [testNotification]. *)
Definition test_data : NotificationData :=
  {| title := "Test Notification";
     message := "Notification system is working";
     icon := None; duration := Some 3000 |}.

End Service.

(** ** The useNotifications hook

    The hook of [components/study/advanced-tools/ToolsTabContent.tsx]
    that owns the store, the stream subscription and the background
    queue. *)

Module MessageInfo.
(** The record the push source hands to the [onMessage] callback. *)
Record t := {
  chatId : string;
  sender : string;
  text : string;
  isGroup : bool;
  groupName : option string;
  senderName : option string;
}.
End MessageInfo.

Module Hook.
Import Task.
Local Open Scope js_scope.

Inductive kind := kind_group | kind_message | kind_system.

Record Notification := {
  id : string;
  title : string;
  message : string;
  read : bool;
  timestamp : Z;
  type : option kind;
  groupId : option string;
  chatId : option string;
  senderName : option string;
  isRead : option bool;
}.

(** The argument of [addNotification]: a [Notification] whose [id],
    [timestamp] and [read] may be missing. *)
Record NotificationInput := {
  in_id : option string;
  in_title : string;
  in_message : string;
  in_read : option bool;
  in_timestamp : option Z;
  in_type : option kind;
  in_groupId : option string;
  in_chatId : option string;
  in_senderName : option string;
  in_isRead : option bool;
}.

Definition kind_eqb (a b : option kind) : bool :=
  match a, b with
  | None, None => true
  | Some kind_group, Some kind_group => true
  | Some kind_message, Some kind_message => true
  | Some kind_system, Some kind_system => true
  | _, _ => false
  end.

(** The refs and state cells of one mounted hook. [playSoundAtMount]
    is the value of [playSound] in the first render: the callback given
    to [onMessage] is built from the [setupMessageListener] of that
    render (its dependency [generateMessageId] never changes), and so
    keeps the [addNotification] of that render. *)
Record state := {
  notifications : list Notification;
  playSound : bool;
  playSoundAtMount : bool;
  unsubscribeRef : option nat;
  retryTimeoutRef : option Z;
  processedMessageIds : gset string;
  reconnectCount : Z;
  pendingNotifications : list Notification;
  isAppVisible : bool;
}.

(** The hook together with the dispatcher module it imports. *)
Record world := {
  hook : state;
  service : Service.state;
}.

Inductive effect :=
| dispatcher (e : Service.effect)
| unsubscribe_call (handle : nat)
| subscribe_call
| schedule_reconnect (delay : Z)
| start_health_check (period : Z)
| direct_audio.

Definition M (A : Type) : Type := Task.M world effect A.

(** Running a dispatcher function from the hook. *)
Definition lift {A} (m : Service.M A) : M A :=
  fun w =>
    match m (service w) with
    | (r, s', t) => (r, {| hook := hook w; service := s' |}, map dispatcher t)
    end.

Definition get_hook : M state := w <- get ;; ret (hook w).
Definition put_hook (s : state) : M unit :=
  w <- get ;; put {| hook := s; service := service w |}.

Definition set_notifications (l : list Notification) (s : state) : state :=
  {| notifications := l; playSound := playSound s;
     playSoundAtMount := playSoundAtMount s;
     unsubscribeRef := unsubscribeRef s; retryTimeoutRef := retryTimeoutRef s;
     processedMessageIds := processedMessageIds s;
     reconnectCount := reconnectCount s;
     pendingNotifications := pendingNotifications s;
     isAppVisible := isAppVisible s |}.
Definition set_unsubscribeRef (u : option nat) (s : state) : state :=
  {| notifications := notifications s; playSound := playSound s;
     playSoundAtMount := playSoundAtMount s;
     unsubscribeRef := u; retryTimeoutRef := retryTimeoutRef s;
     processedMessageIds := processedMessageIds s;
     reconnectCount := reconnectCount s;
     pendingNotifications := pendingNotifications s;
     isAppVisible := isAppVisible s |}.
Definition set_retryTimeoutRef (t : option Z) (s : state) : state :=
  {| notifications := notifications s; playSound := playSound s;
     playSoundAtMount := playSoundAtMount s;
     unsubscribeRef := unsubscribeRef s; retryTimeoutRef := t;
     processedMessageIds := processedMessageIds s;
     reconnectCount := reconnectCount s;
     pendingNotifications := pendingNotifications s;
     isAppVisible := isAppVisible s |}.
Definition set_processedMessageIds (p : gset string) (s : state) : state :=
  {| notifications := notifications s; playSound := playSound s;
     playSoundAtMount := playSoundAtMount s;
     unsubscribeRef := unsubscribeRef s; retryTimeoutRef := retryTimeoutRef s;
     processedMessageIds := p;
     reconnectCount := reconnectCount s;
     pendingNotifications := pendingNotifications s;
     isAppVisible := isAppVisible s |}.
Definition set_reconnectCount (c : Z) (s : state) : state :=
  {| notifications := notifications s; playSound := playSound s;
     playSoundAtMount := playSoundAtMount s;
     unsubscribeRef := unsubscribeRef s; retryTimeoutRef := retryTimeoutRef s;
     processedMessageIds := processedMessageIds s;
     reconnectCount := c;
     pendingNotifications := pendingNotifications s;
     isAppVisible := isAppVisible s |}.
Definition set_pendingNotifications (l : list Notification) (s : state) : state :=
  {| notifications := notifications s; playSound := playSound s;
     playSoundAtMount := playSoundAtMount s;
     unsubscribeRef := unsubscribeRef s; retryTimeoutRef := retryTimeoutRef s;
     processedMessageIds := processedMessageIds s;
     reconnectCount := reconnectCount s;
     pendingNotifications := l;
     isAppVisible := isAppVisible s |}.
Definition set_isAppVisible (b : bool) (s : state) : state :=
  {| notifications := notifications s; playSound := playSound s;
     playSoundAtMount := playSoundAtMount s;
     unsubscribeRef := unsubscribeRef s; retryTimeoutRef := retryTimeoutRef s;
     processedMessageIds := processedMessageIds s;
     reconnectCount := reconnectCount s;
     pendingNotifications := pendingNotifications s;
     isAppVisible := b |}.
Definition set_playSound (b : bool) (s : state) : state :=
  {| notifications := notifications s; playSound := b;
     playSoundAtMount := playSoundAtMount s;
     unsubscribeRef := unsubscribeRef s; retryTimeoutRef := retryTimeoutRef s;
     processedMessageIds := processedMessageIds s;
     reconnectCount := reconnectCount s;
     pendingNotifications := pendingNotifications s;
     isAppVisible := isAppVisible s |}.

Definition modify (f : state -> state) : M unit :=
  s <- get_hook ;; put_hook (f s).

(** [setNotifications(updater)]. *)
Definition setNotifications (updater : list Notification -> list Notification)
  : M unit :=
  modify (fun s => set_notifications (updater (notifications s)) s).

(** *** generateMessageId *)

(** The loop over [messageInfo.text]: [hash = ((hash << 5) - hash) +
    charCode; hash |= 0]. *)
Fixpoint text_hash (hash : Z) (text : string) : Z :=
  match text with
  | EmptyString => hash
  | String c rest =>
      text_hash (Js.to_int32 ((Js.shl32 hash 5 - hash) + Js.char_code c)) rest
  end.

Definition generateMessageId (messageInfo : MessageInfo.t) (now : N) : string :=
  let baseString :=
    MessageInfo.chatId messageInfo +:+ "-" +:+ MessageInfo.sender messageInfo
      +:+ "-" +:+ MessageInfo.text messageInfo in
  let hash := text_hash 0 (MessageInfo.text messageInfo) in
  baseString +:+ "-" +:+ Js.of_Z hash +:+ "-time-" +:+ Js.of_N now.

(** *** addNotification *)

Definition opt_or_else (o : option string) (d : string) : string :=
  match o with Some s => Js.or_else s d | None => d end.

(** The object literal that opens [addNotification]: the generated id
    is overridden by the spread when the argument carries an id. *)
Definition make_notification (now : N) (rnd : string)
  (notification : NotificationInput) : Notification :=
  {| id := match in_id notification with
           | Some i => i
           | None => "manual_" +:+ Js.of_N now +:+ rnd
           end;
     title := in_title notification;
     message := in_message notification;
     read := match in_read notification with Some b => b | None => false end;
     timestamp := match in_timestamp notification with
                  | Some t => if t =? 0 then Z.of_N now else t
                  | None => Z.of_N now
                  end;
     type := in_type notification;
     groupId := in_groupId notification;
     chatId := in_chatId notification;
     senderName := in_senderName notification;
     isRead := in_isRead notification |}.

(** The predicate of [prev.some(...)]. *)
Definition duplicates (newNotification n : Notification) : bool :=
  String.eqb (message n) (message newNotification)
  && kind_eqb (type n) (type newNotification)
  && ((timestamp newNotification - 5000 <? timestamp n)
      || String.eqb (id n) (id newNotification)).

Definition add_updater (newNotification : Notification)
  (prev : list Notification) : list Notification :=
  let isDuplicate := existsb (duplicates newNotification) prev in
  if isDuplicate then prev else newNotification :: prev.

(** The [addNotification] of a render in which [playSound] held
    [sound]. *)
Definition addNotification_of (sound : bool) (h : Service.host) (now : N)
  (rnd : string) (notification : NotificationInput) : M string :=
  let newNotification := make_notification now rnd notification in
  setNotifications (add_updater newNotification) ;;;
  (if sound then
     try_catch
       (let data :=
          {| Service.title := Js.or_else (in_title notification) "Notification";
             Service.message := in_message notification;
             Service.icon := None; Service.duration := None |} in
        try_catch (lift (Service.showNotification h now data))
                  (emit direct_audio))
       (ret tt)
   else ret tt) ;;;
  ret (id newNotification).

(** [addNotification] as the hook returns it: that of the latest
    render. *)
Definition addNotification (h : Service.host) (now : N) (rnd : string)
  (notification : NotificationInput) : M string :=
  s <- get_hook ;;
  addNotification_of (playSound s) h now rnd notification.

(** *** setupMessageListener and its callback *)

Definition notification_of_message (now : N) (rnd : string)
  (messageInfo : MessageInfo.t) : Notification :=
  let someone := opt_or_else (MessageInfo.senderName messageInfo) "Someone" in
  {| id := "msg_" +:+ Js.of_N now +:+ rnd;
     title := if MessageInfo.isGroup messageInfo
              then opt_or_else (MessageInfo.groupName messageInfo) "Group"
                     +:+ ": " +:+ someone
              else someone;
     message := MessageInfo.text messageInfo;
     read := false;
     timestamp := Z.of_N now;
     type := Some (if MessageInfo.isGroup messageInfo
                   then kind_group else kind_message);
     groupId := if MessageInfo.isGroup messageInfo
                then Some (MessageInfo.chatId messageInfo) else None;
     chatId := if MessageInfo.isGroup messageInfo
               then None else Some (MessageInfo.chatId messageInfo);
     senderName := MessageInfo.senderName messageInfo;
     isRead := None |}.

Definition as_input (n : Notification) : NotificationInput :=
  {| in_id := Some (id n); in_title := title n; in_message := message n;
     in_read := Some (read n); in_timestamp := Some (timestamp n);
     in_type := type n; in_groupId := groupId n; in_chatId := chatId n;
     in_senderName := senderName n; in_isRead := isRead n |}.

(** The callback registered with [onMessage]; the [addNotification] it
    calls is that of the first render. *)
Definition on_message (h : Service.host) (now : N) (rnd : string)
  (messageInfo : MessageInfo.t) : M unit :=
  let uniqueId := generateMessageId messageInfo now in
  s <- get_hook ;;
  if bool_decide (uniqueId ∈ processedMessageIds s) then ret tt
  else
    modify (fun s => set_processedMessageIds
                       ({[uniqueId]} ∪ processedMessageIds s) s) ;;;
    let newNotification := notification_of_message now rnd messageInfo in
    s <- get_hook ;;
    (if isAppVisible s then
       _ <- addNotification_of (playSoundAtMount s) h now rnd
              (as_input newNotification) ;;
       ret tt
     else
       modify (fun s => set_pendingNotifications
                          (pendingNotifications s ++ [newNotification]) s)) ;;;
    modify (set_reconnectCount 0).

(** The push source at the time of one subscription attempt: what
    [onMessage(callback)] does, and what calling the handle held in
    [unsubscribeRef] does. *)
Record subscription := {
  onMessage : outcome (option nat);
  unsubscribe : outcome unit;
}.

Definition setupMessageListener (sub : subscription) : M (option nat) :=
  try_catch
    (s <- get_hook ;;
     (match unsubscribeRef s with
      | Some held =>
          emit (unsubscribe_call held) ;;;
          call (unsubscribe sub) ;;;
          modify (set_unsubscribeRef None)
      | None => ret tt
      end) ;;;
     emit subscribe_call ;;;
     handle <- call (onMessage sub) ;;
     modify (set_unsubscribeRef handle) ;;;
     ret handle)
    (ret None).

(** *** setupListener *)

Definition setupListener (sub : subscription) : M unit :=
  try_catch
    (handle <- setupMessageListener sub ;;
     match handle with
     | None =>
         s <- get_hook ;;
         if reconnectCount s <? 5 then
           let delay := Z.min 30000 (2 ^ reconnectCount s * 1000) in
           modify (set_reconnectCount (reconnectCount s + 1)) ;;;
           emit (schedule_reconnect delay) ;;;
           modify (set_retryTimeoutRef (Some delay))
         else
           modify (set_reconnectCount 0) ;;;
           emit (schedule_reconnect 60000) ;;;
           modify (set_retryTimeoutRef (Some 60000))
     | Some _ =>
         modify (set_reconnectCount 0) ;;;
         emit (start_health_check (5 * 60 * 1000))
     end)
    (ret tt).

(** *** handleVisibilityChange *)

(** When React runs the updater given to [setNotifications]: at the
    call, when the update queue of the component is empty and the next
    state is computed eagerly, or else at the render that follows the
    handler. For an updater that reads only its argument the two give
    the same store; the updater of the flush reads a ref. *)
Inductive updater_run := at_call | at_render.

(** The updater of the flush,
    [prev => [...pendingNotificationsRef.current, ...prev]], run on the
    hook as it is at that time. *)
Definition flush_updater : M unit :=
  s <- get_hook ;;
  setNotifications (fun prev => pendingNotifications s ++ prev).

(** The handler, followed by the render it has asked for. *)
Definition handleVisibilityChange (h : Service.host) (now : N)
  (react : updater_run) (isVisible : bool) : M unit :=
  s <- get_hook ;;
  queued <-
    (if isVisible && negb (isAppVisible s) then
       detached (lift (Service.ensureNotificationsReady h now)) ;;;
       s <- get_hook ;;
       if (0 <? length (pendingNotifications s))%nat then
         queued <- match react with
                   | at_call => flush_updater ;;; ret false
                   | at_render => ret true
                   end ;;
         modify (set_pendingNotifications []) ;;;
         ret queued
       else ret false
     else ret false) ;;
  modify (set_isAppVisible isVisible) ;;;
  if queued : bool then flush_updater else ret tt.

(** *** The four mutations of the store *)

Definition mark_read (n : Notification) : Notification :=
  {| id := id n; title := title n; message := message n; read := true;
     timestamp := timestamp n; type := type n; groupId := groupId n;
     chatId := chatId n; senderName := senderName n; isRead := isRead n |}.

Definition markAsRead (i : string) : M unit :=
  setNotifications
    (map (fun notification =>
            if String.eqb (id notification) i then mark_read notification
            else notification)).

Definition markAllAsRead : M unit :=
  setNotifications (map mark_read).

Definition removeNotification (i : string) : M unit :=
  setNotifications
    (List.filter (fun notification => negb (String.eqb (id notification) i))).

Definition clearNotifications : M unit :=
  setNotifications (fun _ => []).

(** *** The hook as a reactive system *)

Inductive event :=
| ev_setup (sub : subscription)
| ev_message (h : Service.host) (now : N) (rnd : string) (m : MessageInfo.t)
| ev_visibility (h : Service.host) (now : N) (react : updater_run)
    (isVisible : bool)
| ev_add (h : Service.host) (now : N) (rnd : string) (n : NotificationInput)
| ev_mark_read (i : string)
| ev_mark_all_read
| ev_remove (i : string)
| ev_clear
| ev_set_play_sound (b : bool).

Definition handle_event (e : event) : M unit :=
  match e with
  | ev_setup sub => setupListener sub
  | ev_message h now rnd m => on_message h now rnd m
  | ev_visibility h now react v => handleVisibilityChange h now react v
  | ev_add h now rnd n => _ <- addNotification h now rnd n ;; ret tt
  | ev_mark_read i => markAsRead i
  | ev_mark_all_read => markAllAsRead
  | ev_remove i => removeNotification i
  | ev_clear => clearNotifications
  | ev_set_play_sound b => modify (set_playSound b)
  end.

Fixpoint run (es : list event) : M unit :=
  match es with
  | [] => ret tt
  | e :: rest => detached (handle_event e) ;;; run rest
  end.

(** The hook when it mounts, with the store and the sound flag as
    read from storage. *)
Definition mounted (stored : list Notification) (sound : bool) : state :=
  {| notifications := stored; playSound := sound;
     playSoundAtMount := sound;
     unsubscribeRef := None; retryTimeoutRef := None;
     processedMessageIds := ∅; reconnectCount := 0;
     pendingNotifications := []; isAppVisible := true |}.

Definition scheduled_delays (t : list effect) : list Z :=
  flat_map (fun e => match e with schedule_reconnect d => [d] | _ => [] end) t.

(** A subscription attempt that yields no handle: [onMessage] returns
    nothing or throws. *)
Definition no_handle (sub : subscription) : bool :=
  match onMessage sub with
  | Returns (Some _) => false
  | _ => true
  end.

(** The counter and the delays of [n] subscription attempts in a row
    that yield no handle, from a counter at [count]. *)
Definition next_count (count : Z) : Z :=
  if count <? 5 then count + 1 else 0.
Definition next_delay (count : Z) : Z :=
  if count <? 5 then Z.min 30000 (2 ^ count * 1000) else 60000.
Fixpoint backoff_delays (count : Z) (n : nat) : list Z :=
  match n with
  | O => []
  | S k => next_delay count :: backoff_delays (next_count count) k
  end.
Fixpoint backoff_count (count : Z) (n : nat) : Z :=
  match n with
  | O => count
  | S k => backoff_count (next_count count) k
  end.

(** One delivery of the push source: the host and the clock when the
    callback runs, the random suffix it draws, and the message. *)
Definition arrival : Type := Service.host * N * string * MessageInfo.t.
Definition arrival_event (a : arrival) : event :=
  match a with (h, now, rnd, m) => ev_message h now rnd m end.
Definition arrival_id (a : arrival) : string :=
  match a with (_, now, _, m) => generateMessageId m now end.
Definition arrival_record (a : arrival) : Notification :=
  match a with (_, now, rnd, m) => notification_of_message now rnd m end.

(** The records that a run of arrivals appends to the buffer while the
    surface is hidden: those of the arrivals that the processed-id check
    of the callback lets through. *)
Fixpoint buffered_records (processed : gset string) (arrivals : list arrival)
  : list Notification :=
  match arrivals with
  | [] => []
  | a :: rest =>
      if bool_decide (arrival_id a ∈ processed)
      then buffered_records processed rest
      else arrival_record a ::
           buffered_records ({[arrival_id a]} ∪ processed) rest
  end.

(** [notifications.some(n => n.id === i)]. *)
Definition names_record (i : string) (l : list Notification) : bool :=
  existsb (fun n => String.eqb (id n) i) l.

(** *** The periodic health check

    The body of the interval that a successful [setupListener] starts:
    [testNotification().then(success => { if (!success) setupListener() })
    .catch(() => setupListener())]. *)
Definition health_check (h : Service.host) (now : N) (sub : subscription)
  : M unit :=
  try_catch
    (success <- lift (Service.testNotification h now) ;;
     if success : bool then ret tt else setupListener sub)
    (setupListener sub).

(** *** The sweep of the processed ids *)

Definition time_marker : string := "-time-".

(** The filter of the sweep: [const [, timestamp] = id.split('-time-');
    return parseInt(timestamp) < fiveMinutesAgo]. Without a second part
    [timestamp] is [undefined], and [parseInt] of it is [NaN]. *)
Definition is_old (now : N) (i : string) : bool :=
  let fiveMinutesAgo := Z.of_N now - 5 * 60 * 1000 in
  match Js.split_by time_marker i with
  | _ :: timestamp :: _ =>
      match Js.parseInt timestamp with
      | Some n => n <? fiveMinutesAgo
      | None => false
      end
  | _ => false
  end.

(** The body of the 60000 ms interval. *)
Definition cleanup (now : N) : M unit :=
  modify (fun s =>
            set_processedMessageIds
              (filter (fun i => is_old now i = false) (processedMessageIds s)) s).

(** The id of a message without its time part. *)
Definition id_stem (messageInfo : MessageInfo.t) : string :=
  (MessageInfo.chatId messageInfo +:+ "-" +:+ MessageInfo.sender messageInfo
     +:+ "-" +:+ MessageInfo.text messageInfo)
  +:+ "-" +:+ Js.of_Z (text_hash 0 (MessageInfo.text messageInfo)).

(** *** testNotificationSystem *)

Definition test_input (now : N) : NotificationInput :=
  {| in_id := Some ("test_" +:+ Js.of_N now);
     in_title := "Notification Test";
     in_message := "This is a test notification to verify the system is working.";
     in_read := Some false;
     in_timestamp := Some (Z.of_N now);
     in_type := Some kind_system;
     in_groupId := None; in_chatId := None; in_senderName := None;
     in_isRead := None |}.

Definition testNotificationSystem (h : Service.host) (now : N) (rnd : string)
  : M string :=
  _ <- addNotification h now rnd (test_input now) ;;
  ret ("test_" +:+ Js.of_N now).

(** *** More observations *)

(** Runs in which the surface is never reported hidden. *)
Definition never_hidden (es : list event) : bool :=
  forallb (fun e => match e with
                    | ev_visibility _ _ _ false => false
                    | _ => true
                    end) es.

(** No record of the list is, by the test of [addNotification], a
    duplicate of a record behind it. *)
Fixpoint no_duplicate_behind (l : list Notification) : bool :=
  match l with
  | [] => true
  | n :: rest => negb (existsb (duplicates n) rest) && no_duplicate_behind rest
  end.

End Hook.

(** ** The notification context

    The provider of [NotificationContext]: a state cell that mirrors
    the dispatcher's list of active notifications, and the operations it
    hands to the components. In the comparison of the poll,
    [JSON.stringify] of two lists is the same text when the lists hold
    the same field values. *)

Module Context.
Import Task.
Local Open Scope js_scope.

#[global] Instance NotificationData_eq_dec : EqDecision Service.NotificationData.
Proof. solve_decision. Defined.

(** The state cell [notifications] and the dispatcher module. *)
Record world := {
  notifications : list Service.NotificationData;
  service : Service.state;
}.

Definition M (A : Type) : Type := Task.M world Service.effect A.

Definition lift {A} (m : Service.M A) : M A :=
  fun w =>
    match m (service w) with
    | (r, s', t) => (r, {| notifications := notifications w; service := s' |}, t)
    end.

Definition setNotifications (l : list Service.NotificationData) : M unit :=
  w <- get ;; put {| notifications := l; service := service w |}.

(** The body of the 500 ms interval. *)
Definition poll : M unit :=
  activeNotifications <- lift Service.getActiveNotifications ;;
  w <- get ;;
  if bool_decide (activeNotifications = notifications w) then ret tt
  else setNotifications activeNotifications.

Definition showNotification (h : Service.host) (now : N)
  (data : Service.NotificationData) : M unit :=
  lift (Service.showNotification h now data).

(** [l.filter((_, i) => keep(i))], the first index being [i]. *)
Fixpoint filter_index {A} (keep : Z -> bool) (i : Z) (l : list A) : list A :=
  match l with
  | [] => []
  | x :: rest =>
      if keep i then x :: filter_index keep (i + 1) rest
      else filter_index keep (i + 1) rest
  end.

Definition without_index {A} (index : Z) (l : list A) : list A :=
  filter_index (fun i => negb (i =? index)) 0 l.

(** [dismissNotification(index)], as created by the render in which the
    state cell held [rendered]. *)
Definition dismissNotification (rendered : list Service.NotificationData)
  (index : Z) : M unit :=
  lift (Service.clearNotification index) ;;;
  setNotifications (without_index index rendered).

Definition dismissAllNotifications : M unit := setNotifications [].

Definition testNotificationSystem (h : Service.host) (now : N) : M bool :=
  try_catch
    (showNotification h now
       {| Service.title := "Test Notification";
          Service.message := "Testing the notification system";
          Service.icon := None; Service.duration := Some 3000 |} ;;;
     ret true)
    (ret false).

(** [l.forEach((x, index) => f(x, index))], the first index being [i]. *)
Fixpoint forEach_from {A} (f : A -> Z -> M unit) (i : Z) (l : list A) : M unit :=
  match l with
  | [] => ret tt
  | x :: rest => f x i ;;; forEach_from f (i + 1) rest
  end.

(** [markAllAsRead] of the notification bell, in the render in which
    the context held [rendered]. *)
Definition markAllAsRead (rendered : list Service.NotificationData) : M unit :=
  forEach_from (fun _ index => dismissNotification rendered index) 0 rendered.

(** The entries at the odd positions of a list. *)
Fixpoint every_other {A} (l : list A) : list A :=
  match l with
  | _ :: x :: rest => x :: every_other rest
  | _ => []
  end.

End Context.

(** ** Sample hosts and inputs *)

Module Samples.
Import Task.

(** No bridge, system notifications refused, audio plays. *)
Definition host_denied : Service.host :=
  {| Service.bridge := None;
     Service.notification_api := true;
     Service.current_permission := Service.denied;
     Service.requestPermission := Returns Service.denied;
     Service.construct_notification := Returns tt;
     Service.sound_ready := fun _ => true;
     Service.play := fun _ _ => Returns true;
     Service.play_wav := true |}.

(** No bridge, and the permission prompt rejects. *)
Definition host_prompt_rejects : Service.host :=
  {| Service.bridge := None;
     Service.notification_api := true;
     Service.current_permission := Service.default;
     Service.requestPermission := Throws;
     Service.construct_notification := Returns tt;
     Service.sound_ready := fun _ => true;
     Service.play := fun _ _ => Returns true;
     Service.play_wav := true |}.

(** A working bridge, and no audio at all. *)
Definition host_bridge_mute : Service.host :=
  {| Service.bridge := Some (Returns tt);
     Service.notification_api := true;
     Service.current_permission := Service.granted;
     Service.requestPermission := Returns Service.granted;
     Service.construct_notification := Returns tt;
     Service.sound_ready := fun _ => false;
     Service.play := fun _ _ => Returns false;
     Service.play_wav := false |}.

(** A bridge that throws, permission still to be asked and granted. *)
Definition host_ask_granted : Service.host :=
  {| Service.bridge := Some Throws;
     Service.notification_api := true;
     Service.current_permission := Service.default;
     Service.requestPermission := Returns Service.granted;
     Service.construct_notification := Returns tt;
     Service.sound_ready := fun _ => false;
     Service.play := fun _ _ => Returns false;
     Service.play_wav := true |}.

Definition data_TM : Service.NotificationData :=
  {| Service.title := "T"; Service.message := "M";
     Service.icon := None; Service.duration := None |}.

Definition data_untitled : Service.NotificationData :=
  {| Service.title := ""; Service.message := "M";
     Service.icon := None; Service.duration := None |}.

Definition data_dashed : Service.NotificationData :=
  {| Service.title := "a-b"; Service.message := "c";
     Service.icon := None; Service.duration := None |}.

Definition service_idle : Service.state :=
  {| Service.activeNotifications := []; Service.failedNotifications := [] |}.

Definition hello : MessageInfo.t :=
  {| MessageInfo.chatId := "c1"; MessageInfo.sender := "u1";
     MessageInfo.text := "hi"; MessageInfo.isGroup := false;
     MessageInfo.groupName := None; MessageInfo.senderName := Some "Ann" |}.

Definition fresh_world : Hook.world :=
  {| Hook.hook := Hook.mounted [] true; Hook.service := service_idle |}.

Definition hidden_world : Hook.world :=
  {| Hook.hook := Hook.set_isAppVisible false (Hook.mounted [] true);
     Hook.service := service_idle |}.

Definition stored_x : Hook.Notification :=
  {| Hook.id := "x"; Hook.title := "Old"; Hook.message := "m";
     Hook.read := false; Hook.timestamp := 0;
     Hook.type := Some Hook.kind_system; Hook.groupId := None;
     Hook.chatId := None; Hook.senderName := None; Hook.isRead := None |}.

Definition again_x : Hook.NotificationInput :=
  {| Hook.in_id := Some "x"; Hook.in_title := "New"; Hook.in_message := "m";
     Hook.in_read := None; Hook.in_timestamp := Some 10000;
     Hook.in_type := Some Hook.kind_system; Hook.in_groupId := None;
     Hook.in_chatId := None; Hook.in_senderName := None;
     Hook.in_isRead := None |}.

Definition world_with_x : Hook.world :=
  {| Hook.hook := Hook.mounted [stored_x] true; Hook.service := service_idle |}.

Definition dead_source : Hook.subscription :=
  {| Hook.onMessage := Returns None; Hook.unsubscribe := Returns tt |}.

End Samples.

(** * Properties *)

(** ** Strings *)

Section StringFacts.
Variable sep : ascii.

Lemma split_nonempty (s : string) : Js.split sep s <> [].
Proof.
  destruct s as [|c s]; simpl; [discriminate|].
  destruct (Ascii.eqb c sep); [discriminate|].
  destruct (Js.split sep s); discriminate.
Qed.

Lemma split_without_sep (s : string) :
  Js.contains sep s = false -> Js.split sep s = [s].
Proof.
  induction s as [|c s IH]; simpl; [reflexivity|].
  intros H. apply orb_false_iff in H as [Hc Hs].
  rewrite Hc, (IH Hs). reflexivity.
Qed.

Lemma split_at_sep (a b : string) :
  Js.split sep (a +:+ String sep b) = Js.split sep a ++ Js.split sep b.
Proof.
  induction a as [|c a IH]; simpl.
  - rewrite Ascii.eqb_refl. reflexivity.
  - destruct (Ascii.eqb c sep); rewrite IH; [reflexivity|].
    pose proof (split_nonempty a) as Hne.
    destruct (Js.split sep a); [congruence|reflexivity].
Qed.

Lemma join_split (s : string) :
  Js.join (String sep EmptyString) (Js.split sep s) = s.
Proof.
  induction s as [|c s IH]; simpl; [reflexivity|].
  pose proof (split_nonempty s) as Hne.
  destruct (Ascii.eqb c sep) eqn:Hc.
  - apply Ascii.eqb_eq in Hc. subst c.
    destruct (Js.split sep s) as [|p ps]; [congruence|].
    simpl in *. rewrite IH. reflexivity.
  - destruct (Js.split sep s) as [|p ps]; [congruence|].
    destruct ps; simpl in *; rewrite <- IH; reflexivity.
Qed.
End StringFacts.

Lemma digits_without_dash (d : Decimal.uint) :
  Js.contains dash (NilEmpty.string_of_uint d) = false.
Proof. induction d; simpl; auto. Qed.

Lemma to_uint_not_nil (n : N) : N.to_uint n <> Decimal.Nil.
Proof.
  intros H. pose proof (DecimalN.Unsigned.of_to n) as Hn.
  rewrite H in Hn. simpl in Hn. subst n. discriminate.
Qed.

Lemma of_N_without_dash (n : N) : Js.contains dash (Js.of_N n) = false.
Proof.
  unfold Js.of_N, NilZero.string_of_uint.
  destruct (N.to_uint n) eqn:E; try (rewrite <- E; apply digits_without_dash).
  reflexivity.
Qed.

Lemma of_N_inj (a b : N) : Js.of_N a = Js.of_N b -> a = b.
Proof.
  unfold Js.of_N. intros H.
  apply (f_equal NilZero.uint_of_string) in H.
  rewrite !NilZero.usu in H by apply to_uint_not_nil.
  injection H as H. now apply DecimalN.Unsigned.to_uint_inj.
Qed.

Lemma string_app_assoc (a b c : string) : (a +:+ b) +:+ c = a +:+ b +:+ c.
Proof.
  induction a as [|x a IH]; [reflexivity|].
  change (String x ((a +:+ b) +:+ c) = String x (a +:+ b +:+ c)).
  now rewrite IH.
Qed.

Lemma string_app_length (a b : string) :
  String.length (a +:+ b) = (String.length a + String.length b)%nat.
Proof.
  induction a as [|x a IH]; [reflexivity|].
  change (S (String.length (a +:+ b)) =
          S (String.length a + String.length b)).
  now rewrite IH.
Qed.

Lemma truthy_nonempty (s : string) : s <> EmptyString -> Js.truthy s = true.
Proof. destruct s; [congruence|reflexivity]. Qed.

(** ** The primitives on sample values *)

Example split_sample :
  Js.split dash "a-b--c" = ["a"; "b"; ""; "c"] /\
  Js.split dash "" = [""] /\
  Js.join "-" ["a"; "b"; ""; "c"] = "a-b--c" /\
  Js.join "-" [] = "".
Proof. repeat split. Qed.

Example of_Z_sample :
  Js.of_Z 0 = "0" /\ Js.of_Z 1730000000000 = "1730000000000" /\
  Js.of_Z (-42) = "-42".
Proof. repeat split. Qed.

Example to_int32_sample :
  Js.to_int32 (2 ^ 31) = - 2 ^ 31 /\ Js.to_int32 (2 ^ 32 + 5) = 5 /\
  Js.to_int32 (-1) = -1 /\ Js.shl32 (2 ^ 30) 5 = 0.
Proof. repeat split. Qed.

Example text_hash_sample :
  Hook.text_hash 0 "hi" = 3329 /\
  Hook.text_hash 0 "The quick brown fox jumps over the lazy dog" = -609428141.
Proof. split; vm_compute; reflexivity. Qed.

Example generateMessageId_sample :
  Hook.generateMessageId Samples.hello 1000 = "c1-u1-hi-3329-time-1000".
Proof. vm_compute. reflexivity. Qed.

Example generateNotificationId_sample :
  Service.generateNotificationId Samples.data_TM 5 = "T-M-5".
Proof. reflexivity. Qed.

(** ** The retry id of the dispatcher *)

Lemma generateNotificationId_shape (data : Service.NotificationData) (now : N) :
  Service.generateNotificationId data now =
  Service.title data +:+
    String dash (Service.message data +:+ String dash (Js.of_N now)).
Proof. reflexivity. Qed.

Lemma parse_generated (data : Service.NotificationData) (now : N) :
  Js.contains dash (Service.title data) = false ->
  Service.parse_notification_id (Service.generateNotificationId data now) =
  (Service.title data, Service.message data).
Proof.
  intros Ht. unfold Service.parse_notification_id.
  rewrite generateNotificationId_shape, !split_at_sep.
  rewrite (split_without_sep dash _ Ht).
  rewrite (split_without_sep dash _ (of_N_without_dash now)).
  cbn [app]. unfold Js.pop. rewrite removelast_last.
  change "-" with (String dash EmptyString). rewrite join_split. reflexivity.
Qed.

(** C9 fails as stated: with an empty title the id parses back to the
    title and message it was made from, but the guard
    [if (title && message)] of the retry loop skips the delivery: the
    retry does nothing, where a delivery would have played the sound and
    registered the notification. *)
Lemma retry_skips_empty_title :
  let failed :=
    {| Service.activeNotifications := [];
       Service.failedNotifications :=
         [Service.generateNotificationId Samples.data_untitled 5] |} in
  Js.contains dash (Service.title Samples.data_untitled) = false /\
  Service.message Samples.data_untitled <> EmptyString /\
  Service.parse_notification_id
    (Service.generateNotificationId Samples.data_untitled 5) =
    (EmptyString, "M") /\
  Service.retryFailedNotifications Samples.host_denied 2000 failed =
    (Task.Returns tt, Samples.service_idle, []) /\
  Service.showNotification Samples.host_denied 2000 Samples.data_untitled
    Samples.service_idle =
    (Task.Returns tt,
     {| Service.activeNotifications := [Samples.data_untitled];
        Service.failedNotifications := [] |},
     [Service.play_audio Service.preloaded_clone]).
Proof. repeat split; try discriminate; vm_compute; reflexivity. Qed.

(** ** The sound path *)

Lemma attemptPlay_runs (h : Service.host) (fuel retryCount : nat) :
  (S Service.MAX_RETRIES - retryCount <= fuel)%nat -> (1 <= fuel)%nat ->
  exists played t,
    Service.attemptPlay h fuel retryCount = Some (played, t) /\
    Forall (fun e => Service.is_sound_effect e = true) t /\
    exists a rest, t = Service.play_audio a :: rest.
Proof.
  revert retryCount.
  induction fuel as [|fuel IH]; intros retryCount Hle H1; [lia|].
  cbn [Service.attemptPlay].
  set (again := if (retryCount <? Service.MAX_RETRIES)%nat then _ else _).
  assert (Hagain : exists b t, again = Some (b, t) /\
                     Forall (fun e => Service.is_sound_effect e = true) t).
  { subst again. destruct (retryCount <? Service.MAX_RETRIES)%nat eqn:E.
    - apply Nat.ltb_lt in E. unfold Service.MAX_RETRIES in *.
      destruct (IH (S retryCount)) as (b & t & -> & Hs & _); [lia | lia |].
      eexists _, _. split; [reflexivity|]. constructor; [reflexivity|assumption].
    - eexists _, _. split; [reflexivity|constructor]. }
  destruct Hagain as (b & t & -> & Hs).
  repeat case_match; eexists _, _;
    (split; [reflexivity|]);
    (split; [repeat (constructor; [reflexivity|]); first [assumption | constructor]
            | eexists _, _; reflexivity]).
Qed.

Lemma playNotificationSound_total (h : Service.host) (s : Service.state) :
  exists played,
    Service.playNotificationSound h s = (Task.Returns played, s, Service.sound_trace h).
Proof.
  unfold Service.playNotificationSound, Service.sound_trace,
    Service.playNotificationSound_fuel.
  destruct (attemptPlay_runs h (S (S Service.MAX_RETRIES)) 0)
    as (b & t & -> & _); [unfold Service.MAX_RETRIES; lia | lia |].
  now exists b.
Qed.

Lemma sound_trace_shape (h : Service.host) :
  Forall (fun e => Service.is_sound_effect e = true) (Service.sound_trace h) /\
  exists a rest, Service.sound_trace h = Service.play_audio a :: rest.
Proof.
  unfold Service.sound_trace, Service.playNotificationSound_fuel.
  destruct (attemptPlay_runs h (S (S Service.MAX_RETRIES)) 0)
    as (b & t & -> & Hs & Hh); [unfold Service.MAX_RETRIES; lia | lia |].
  now split.
Qed.

(** The first attempt, when the preloaded element is not there: the
    one-shot MP3, and the WAV when its [play()] rejects. *)
Lemma attemptPlay_fallback (h : Service.host) (fuel : nat) (played : bool)
  (t : list Service.effect) :
  Service.sound_ready h 0 = false ->
  Service.attemptPlay h (S fuel) 0 = Some (played, t) ->
  (exists rest, t = Service.play_audio Service.fallback_mp3 :: rest) /\
  (Service.play h 0 Service.fallback_mp3 = Task.Returns false ->
   exists rest, t = Service.play_audio Service.fallback_mp3 ::
                    Service.play_audio Service.fallback_wav :: rest).
Proof.
  intros Hready. cbn [Service.attemptPlay]. rewrite Hready.
  cbn [Nat.eqb Nat.ltb Nat.leb Service.MAX_RETRIES].
  destruct (Service.attemptPlay h fuel 1) as [[b' t']|];
    destruct (Service.play h 0 Service.fallback_mp3) as [[|]|];
    destruct (Service.play_wav h);
    intros E; simplify_eq; (split; [|intros ?; simplify_eq]);
    eexists; reflexivity.
Qed.

Lemma sound_trace_fallback (h : Service.host) :
  Service.sound_ready h 0 = false ->
  (exists rest, Service.sound_trace h = Service.play_audio Service.fallback_mp3 :: rest) /\
  (Service.play h 0 Service.fallback_mp3 = Task.Returns false ->
   exists rest, Service.sound_trace h =
     Service.play_audio Service.fallback_mp3 ::
     Service.play_audio Service.fallback_wav :: rest).
Proof.
  intros Hready.
  unfold Service.sound_trace, Service.playNotificationSound_fuel.
  destruct (attemptPlay_runs h (S (S Service.MAX_RETRIES)) 0)
    as (b & t & E & _); [unfold Service.MAX_RETRIES; lia | lia |].
  rewrite E. exact (attemptPlay_fallback h _ b t Hready E).
Qed.

(** ** The dispatcher *)

Lemma showNotification_decompose (h : Service.host) (now : N)
  (data : Service.NotificationData) (s : Service.state) :
  Service.showNotification h now data s =
  let notificationId := Service.generateNotificationId data now in
  match Service.visual_channels h data notificationId
          (Service.set_has notificationId (Service.failedNotifications s))
          {| Service.activeNotifications := Service.activeNotifications s ++ [data];
             Service.failedNotifications := Service.failedNotifications s |}
  with
  | (r, s', visual) => (r, s', Service.sound_trace h ++ visual)
  end.
Proof.
  unfold Service.showNotification, Service.failed_has, Service.active_push,
    Task.bind, Task.get, Task.put, Task.ret.
  cbn zeta.
  match goal with
  | |- context [Service.playNotificationSound h ?s1] =>
      destruct (playNotificationSound_total h s1) as [played ->]
  end.
  destruct (Service.visual_channels _ _ _ _ _) as [[r s'] visual].
  reflexivity.
Qed.

Lemma visual_channels_cases (h : Service.host) (data : Service.NotificationData)
  (notificationId : string) (was : bool) (s : Service.state) :
  let r := Service.visual_channels h data notificationId was s in
  Task.result_of r = Task.Returns tt /\
  Forall (fun e => Service.is_sound_effect e = false) (Task.trace_of r) /\
  (Service.bridge h = Some (Task.Returns tt) ->
   Task.trace_of r =
     [Service.bridge_show (Service.title data) (Service.message data)]) /\
  (Service.bridge h <> Some (Task.Returns tt) ->
   Service.notification_api h = true ->
   Service.current_permission h = Service.granted \/
   (Service.current_permission h = Service.default /\
    Service.requestPermission h = Task.Returns Service.granted) ->
   Service.construct_notification h = Task.Returns tt ->
   Task.trace_of r =
     Service.channel_probes h data ++
     [Service.os_notification (Service.title data) (Service.message data)
        (Service.icon_or_default data);
      Service.set_timeout (Service.duration_or_default data)
        Service.close_notification]) /\
  (Service.bridge h <> Some (Task.Returns tt) ->
   Service.notification_api h = false \/
   Service.current_permission h = Service.denied \/
   (Service.current_permission h = Service.default /\
    exists p, Service.requestPermission h = Task.Returns p /\
              p <> Service.granted) ->
   r = (Task.Returns tt,
        {| Service.activeNotifications := Service.activeNotifications s;
           Service.failedNotifications :=
             Service.set_delete notificationId (Service.failedNotifications s) |},
        Service.channel_probes h data)).
Proof.
  destruct h as [br api perm req cons sr pl wav].
  unfold Service.channel_probes. cbn [Service.bridge Service.notification_api
    Service.current_permission Service.requestPermission
    Service.construct_notification].
  destruct br as [[[]|]|], api, perm, req as [[]|], cons as [[]|], was;
    cbn; (split; [reflexivity|]);
    (split; [repeat constructor|]);
    repeat split; intros; simplify_eq; try reflexivity; try tauto;
    repeat match goal with
           | H : _ \/ _ |- _ => destruct H
           | H : _ /\ _ |- _ => destruct H
           | H : exists _, _ |- _ => destruct H
           end; simplify_eq.
Qed.

Lemma same_channels_visual (h h' : Service.host) (data : Service.NotificationData)
  (notificationId : string) (was : bool) (s : Service.state) :
  Service.same_channels h h' ->
  Service.visual_channels h data notificationId was s =
  Service.visual_channels h' data notificationId was s.
Proof.
  destruct h, h'. unfold Service.same_channels. cbn.
  intros (-> & -> & -> & -> & ->). reflexivity.
Qed.

Lemma lift_keeps_hook {A} (m : Service.M A) (w : Hook.world) :
  Hook.hook (Task.state_of (Hook.lift m w)) = Hook.hook w.
Proof.
  unfold Hook.lift. destruct (m (Hook.service w)) as [[r s'] t]. reflexivity.
Qed.

(** C5: [showNotification] never raises and tries the channels in
    order, stopping at the first that works: the bridge when there is
    one (a throwing bridge is followed by the next channel); otherwise a
    system notification when permission is or gets granted (asked only
    when it is still undecided), closed after [duration] or 5000 ms;
    otherwise nothing is shown and the call returns. Without a bridge
    and with permission denied the call returns without any visual
    effect, the sound has been attempted, and the store of the hook is
    what it was. *)
Theorem deliver_channel_order (h : Service.host) (now : N)
  (data : Service.NotificationData) (s : Service.state) (w : Hook.world) :
  let notificationId := Service.generateNotificationId data now in
  let r := Service.showNotification h now data s in
  Task.result_of r = Task.Returns tt /\
  (exists visual,
     Task.trace_of r = Service.sound_trace h ++ visual /\
     Forall (fun e => Service.is_sound_effect e = false) visual /\
     (Service.bridge h = Some (Task.Returns tt) ->
      visual = [Service.bridge_show (Service.title data) (Service.message data)]) /\
     (Service.bridge h <> Some (Task.Returns tt) ->
      Service.notification_api h = true ->
      Service.current_permission h = Service.granted \/
      (Service.current_permission h = Service.default /\
       Service.requestPermission h = Task.Returns Service.granted) ->
      Service.construct_notification h = Task.Returns tt ->
      visual =
        Service.channel_probes h data ++
        [Service.os_notification (Service.title data) (Service.message data)
           (Service.icon_or_default data);
         Service.set_timeout (Service.duration_or_default data)
           Service.close_notification]) /\
     (Service.bridge h <> Some (Task.Returns tt) ->
      Service.notification_api h = false \/
      Service.current_permission h = Service.denied \/
      (Service.current_permission h = Service.default /\
       exists p, Service.requestPermission h = Task.Returns p /\
                 p <> Service.granted) ->
      visual = Service.channel_probes h data /\
      Service.failedNotifications (Task.state_of r) =
        Service.set_delete notificationId (Service.failedNotifications s)) /\
     (Service.bridge h = None ->
      Service.current_permission h = Service.denied ->
      visual = [])) /\
  (exists a rest, Service.sound_trace h = Service.play_audio a :: rest) /\
  (Service.duration data = None -> Service.duration_or_default data = 5000) /\
  (forall d, Service.duration data = Some d -> d <> 0 ->
             Service.duration_or_default data = d) /\
  Hook.hook (Task.state_of (Hook.lift (Service.showNotification h now data) w)) =
    Hook.hook w.
Proof.
  cbn zeta. rewrite showNotification_decompose. cbn zeta.
  match goal with
  | |- context [Service.visual_channels h data ?i ?was ?s1] =>
      pose proof (visual_channels_cases h data i was s1) as Hv;
      destruct (Service.visual_channels h data i was s1) as [[r s'] visual]
  end.
  cbn in Hv. destruct Hv as (Hr & Hns & Hbridge & Hos & Hnone).
  split; [exact Hr|]. split.
  { exists visual. split; [reflexivity|]. split; [exact Hns|].
    split; [exact Hbridge|]. split; [exact Hos|]. split.
    - intros Hb Hp. specialize (Hnone Hb Hp).
      injection Hnone as _ -> ->. now split.
    - intros Hb Hp.
      assert (Hb' : Service.bridge h <> Some (Task.Returns tt))
        by (rewrite Hb; discriminate).
      specialize (Hnone Hb' (or_intror (or_introl Hp))).
      injection Hnone as _ _ ->.
      unfold Service.channel_probes. rewrite Hb, Hp.
      destruct (Service.notification_api h); reflexivity. }
  split; [apply sound_trace_shape|].
  split; [|split].
  - unfold Service.duration_or_default. now intros ->.
  - unfold Service.duration_or_default. intros d -> Hd.
    destruct (Z.eqb_spec d 0); congruence.
  - apply lift_keeps_hook.
Qed.

Lemma deliver_channel_order_witness :
  Service.bridge Samples.host_denied = None /\
  Service.current_permission Samples.host_denied = Service.denied /\
  Task.result_of
    (Service.showNotification Samples.host_denied 7 Samples.data_TM
       Samples.service_idle) = Task.Returns tt /\
  Task.trace_of
    (Service.showNotification Samples.host_denied 7 Samples.data_TM
       Samples.service_idle) = [Service.play_audio Service.preloaded_clone].
Proof.
  destruct (deliver_channel_order Samples.host_denied 7 Samples.data_TM
              Samples.service_idle Samples.fresh_world)
    as (Hr & (visual & Ht & _ & _ & _ & _ & Hd) & _).
  split; [reflexivity|]. split; [reflexivity|]. split; [exact Hr|].
  rewrite Ht, (Hd eq_refl eq_refl). reflexivity.
Defined.

(** C6: in every call of [showNotification] the sound is attempted
    before any visual channel, whatever the visual channels then do; the
    sound path always completes; without the preloaded element it plays
    a one-shot MP3 and, when that is rejected, the WAV; and what the
    audio does changes nothing in the visual part, the result or the
    state of the call. *)
Theorem sound_attempted_first (h : Service.host) (now : N)
  (data : Service.NotificationData) (s : Service.state) :
  let notificationId := Service.generateNotificationId data now in
  let started :=
    {| Service.activeNotifications := Service.activeNotifications s ++ [data];
       Service.failedNotifications := Service.failedNotifications s |} in
  let was := Service.set_has notificationId (Service.failedNotifications s) in
  let visual := Service.visual_channels h data notificationId was started in
  (exists played,
     Service.playNotificationSound h started =
       (Task.Returns played, started, Service.sound_trace h)) /\
  Service.showNotification h now data s =
    (Task.result_of visual, Task.state_of visual,
     Service.sound_trace h ++ Task.trace_of visual) /\
  (exists a rest, Service.sound_trace h = Service.play_audio a :: rest) /\
  Forall (fun e => Service.is_sound_effect e = true) (Service.sound_trace h) /\
  Forall (fun e => Service.is_sound_effect e = false) (Task.trace_of visual) /\
  (forall h', Service.same_channels h h' ->
     Service.visual_channels h' data notificationId was started = visual) /\
  (Service.sound_ready h 0 = false ->
   (exists rest,
      Service.sound_trace h = Service.play_audio Service.fallback_mp3 :: rest) /\
   (Service.play h 0 Service.fallback_mp3 = Task.Returns false ->
    exists rest,
      Service.sound_trace h =
        Service.play_audio Service.fallback_mp3 ::
        Service.play_audio Service.fallback_wav :: rest)).
Proof.
  cbn zeta. split; [apply playNotificationSound_total|].
  split.
  { rewrite showNotification_decompose. cbn zeta.
    destruct (Service.visual_channels _ _ _ _ _) as [[r s'] visual].
    reflexivity. }
  split; [apply sound_trace_shape|].
  split; [apply sound_trace_shape|].
  split; [apply visual_channels_cases|].
  split; [intros h' Hh'; symmetry; now apply same_channels_visual|].
  apply sound_trace_fallback.
Qed.

Lemma sound_attempted_first_witness :
  Service.sound_ready Samples.host_ask_granted 0 = false /\
  Service.play Samples.host_ask_granted 0 Service.fallback_mp3 =
    Task.Returns false /\
  exists rest,
    Service.sound_trace Samples.host_ask_granted =
      Service.play_audio Service.fallback_mp3 ::
      Service.play_audio Service.fallback_wav :: rest.
Proof.
  split; [reflexivity|]. split; [reflexivity|].
  destruct (sound_attempted_first Samples.host_ask_granted 7 Samples.data_TM
              Samples.service_idle)
    as (_ & _ & _ & _ & _ & _ & Hfallback).
  exact (proj2 (Hfallback eq_refl) eq_refl).
Defined.

(** ** The automatic retry *)

Lemma generateNotificationId_time_inj (data : Service.NotificationData) (t t' : N) :
  Service.generateNotificationId data t = Service.generateNotificationId data t' ->
  t = t'.
Proof.
  unfold Service.generateNotificationId. intros H.
  do 4 apply (inj (String.append _)) in H.
  now apply of_N_inj.
Qed.

Lemma set_has_true (x : string) (l : list string) :
  Service.set_has x l = true <-> In x l.
Proof.
  unfold Service.set_has. rewrite existsb_exists. split.
  - intros (y & Hy & E). apply String.eqb_eq in E. now subst.
  - intros Hx. exists x. split; [assumption|apply String.eqb_refl].
Qed.

Lemma set_has_false (x : string) (l : list string) :
  Service.set_has x l = false <-> ~ In x l.
Proof.
  rewrite <- set_has_true. destruct (Service.set_has x l); split; congruence.
Qed.

(** A delivery on a host whose permission prompt rejects. *)
Lemma showNotification_prompt_rejects (now : N)
  (data : Service.NotificationData) (s : Service.state) :
  let notificationId := Service.generateNotificationId data now in
  Service.set_has notificationId (Service.failedNotifications s) = false ->
  Service.showNotification Samples.host_prompt_rejects now data s =
  (Task.Returns tt,
   {| Service.activeNotifications := Service.activeNotifications s ++ [data];
      Service.failedNotifications :=
        Service.failedNotifications s ++ [notificationId] |},
   [Service.play_audio Service.preloaded_clone; Service.ask_permission;
    Service.set_timeout 1000 (Service.auto_retry notificationId data)]).
Proof.
  cbn zeta. intros Hfresh. rewrite showNotification_decompose. cbn zeta.
  rewrite Hfresh. cbn. unfold Service.set_add. rewrite Hfresh. reflexivity.
Qed.

Lemma auto_retries_prompt_rejects (data : Service.NotificationData)
  (budget : nat) :
  forall (now : N) (s : Service.state),
    Service.failed_before data now s ->
    Service.auto_retries Samples.host_prompt_rejects budget now data s = budget.
Proof.
  induction budget as [|budget IH]; intros now s Hold.
  - cbn [Service.auto_retries].
    destruct (Service.showNotification _ _ _ _) as [[r s'] t]. reflexivity.
  - assert (Hfresh : Service.set_has (Service.generateNotificationId data now)
                       (Service.failedNotifications s) = false).
    { apply set_has_false. intros Hin. destruct (Hold _ Hin) as (t & Hlt & E).
      apply generateNotificationId_time_inj in E. lia. }
    cbn [Service.auto_retries].
    rewrite (showNotification_prompt_rejects now data s Hfresh).
    cbn [Service.pending_auto_retries flat_map app Service.failedNotifications].
    replace (Service.set_has _ _) with true.
    + f_equal. apply IH. intros i Hi. cbn in Hi. apply in_app_or in Hi as [Hi|Hi].
      * destruct (Hold _ Hi) as (t & Hlt & E). exists t. split; [lia|assumption].
      * destruct Hi as [<-|[]]. exists now. split; [lia|reflexivity].
    + symmetry. apply set_has_true. apply in_or_app. right. now left.
Qed.

(** C2, the code at a failing input: on a host whose permission prompt
    rejects, a delivery adds its id to the failed set and sets one
    retry timer of 1000 ms; the retry makes a new id from the new clock
    reading, so it is not recognised as a retry, fails the same way and
    sets the next timer: with a budget of [budget] timers, [budget]
    automatic retries run. *)
Theorem auto_retry_chain_unbounded (budget : nat) (now : N) :
  Service.showNotification Samples.host_prompt_rejects now Samples.data_TM
    Samples.service_idle =
  (Task.Returns tt,
   {| Service.activeNotifications := [Samples.data_TM];
      Service.failedNotifications :=
        [Service.generateNotificationId Samples.data_TM now] |},
   [Service.play_audio Service.preloaded_clone; Service.ask_permission;
    Service.set_timeout 1000
      (Service.auto_retry (Service.generateNotificationId Samples.data_TM now)
         Samples.data_TM)]) /\
  Service.auto_retries Samples.host_prompt_rejects budget now Samples.data_TM
    Samples.service_idle = budget.
Proof.
  split.
  - now rewrite showNotification_prompt_rejects.
  - apply auto_retries_prompt_rejects. intros i [].
Qed.

(** ** The hook: what each handler does to the hook state *)

Lemma showNotification_returns (h : Service.host) (now : N)
  (data : Service.NotificationData) (s : Service.state) :
  Task.result_of (Service.showNotification h now data s) = Task.Returns tt.
Proof.
  rewrite showNotification_decompose. cbn zeta.
  match goal with
  | |- context [Service.visual_channels h data ?i ?was ?s1] =>
      pose proof (proj1 (visual_channels_cases h data i was s1)) as Hv;
      destruct (Service.visual_channels h data i was s1) as [[r s'] visual]
  end.
  exact Hv.
Qed.

Lemma make_as_input (now : N) (rnd : string) (m : MessageInfo.t) :
  Hook.make_notification now rnd
    (Hook.as_input (Hook.notification_of_message now rnd m)) =
  Hook.notification_of_message now rnd m.
Proof.
  unfold Hook.make_notification, Hook.as_input, Hook.notification_of_message.
  cbn. destruct (Z.of_N now =? 0); reflexivity.
Qed.

Lemma addNotification_of_spec (sound : bool) (h : Service.host) (now : N)
  (rnd : string) (n : Hook.NotificationInput) (w : Hook.world) :
  let newNotification := Hook.make_notification now rnd n in
  let data :=
    {| Service.title := Js.or_else (Hook.in_title n) "Notification";
       Service.message := Hook.in_message n;
       Service.icon := None; Service.duration := None |} in
  let stored :=
    Hook.set_notifications
      (Hook.add_updater newNotification (Hook.notifications (Hook.hook w)))
      (Hook.hook w) in
  Hook.addNotification_of sound h now rnd n w =
  if sound then
    (Task.Returns (Hook.id newNotification),
     {| Hook.hook := stored;
        Hook.service :=
          Task.state_of (Service.showNotification h now data (Hook.service w)) |},
     map Hook.dispatcher
       (Task.trace_of (Service.showNotification h now data (Hook.service w))))
  else
    (Task.Returns (Hook.id newNotification),
     {| Hook.hook := stored; Hook.service := Hook.service w |}, []).
Proof.
  cbn zeta.
  pose proof (showNotification_returns h now
    {| Service.title := Js.or_else (Hook.in_title n) "Notification";
       Service.message := Hook.in_message n;
       Service.icon := None; Service.duration := None |} (Hook.service w)) as Hr.
  unfold Hook.addNotification_of, Hook.setNotifications, Hook.modify,
    Hook.get_hook, Hook.put_hook, Hook.lift,
    Task.bind, Task.try_catch, Task.get, Task.put, Task.ret.
  cbn [Hook.hook Hook.service Hook.set_notifications].
  destruct sound; [|reflexivity].
  destruct (Service.showNotification _ _ _ _) as [[r s'] t].
  cbn in Hr. subst r. cbn. rewrite !app_nil_r. reflexivity.
Qed.

Lemma addNotification_spec (h : Service.host) (now : N) (rnd : string)
  (n : Hook.NotificationInput) (w : Hook.world) :
  let newNotification := Hook.make_notification now rnd n in
  let data :=
    {| Service.title := Js.or_else (Hook.in_title n) "Notification";
       Service.message := Hook.in_message n;
       Service.icon := None; Service.duration := None |} in
  let stored :=
    Hook.set_notifications
      (Hook.add_updater newNotification (Hook.notifications (Hook.hook w)))
      (Hook.hook w) in
  Hook.addNotification h now rnd n w =
  if Hook.playSound (Hook.hook w) then
    (Task.Returns (Hook.id newNotification),
     {| Hook.hook := stored;
        Hook.service :=
          Task.state_of (Service.showNotification h now data (Hook.service w)) |},
     map Hook.dispatcher
       (Task.trace_of (Service.showNotification h now data (Hook.service w))))
  else
    (Task.Returns (Hook.id newNotification),
     {| Hook.hook := stored; Hook.service := Hook.service w |}, []).
Proof.
  cbn zeta. unfold Hook.addNotification.
  unfold Task.bind at 1. unfold Hook.get_hook at 1.
  unfold Task.bind at 1, Task.get at 1, Task.ret at 1.
  rewrite addNotification_of_spec. cbn zeta.
  destruct (Hook.playSound (Hook.hook w)); cbn; reflexivity.
Qed.

Lemma on_message_spec (h : Service.host) (now : N) (rnd : string)
  (m : MessageInfo.t) (w : Hook.world) :
  let uniqueId := Hook.generateMessageId m now in
  let newNotification := Hook.notification_of_message now rnd m in
  let marked :=
    Hook.set_processedMessageIds
      ({[uniqueId]} ∪ Hook.processedMessageIds (Hook.hook w)) (Hook.hook w) in
  Hook.on_message h now rnd m w =
  if bool_decide (uniqueId ∈ Hook.processedMessageIds (Hook.hook w)) then
    (Task.Returns tt, w, [])
  else if Hook.isAppVisible (Hook.hook w) then
    match Hook.addNotification_of (Hook.playSoundAtMount (Hook.hook w)) h now
            rnd (Hook.as_input newNotification)
            {| Hook.hook := marked; Hook.service := Hook.service w |} with
    | (_, w', t) =>
        (Task.Returns tt,
         {| Hook.hook := Hook.set_reconnectCount 0 (Hook.hook w');
            Hook.service := Hook.service w' |}, t)
    end
  else
    (Task.Returns tt,
     {| Hook.hook :=
          Hook.set_reconnectCount 0
            (Hook.set_pendingNotifications
               (Hook.pendingNotifications (Hook.hook w) ++ [newNotification])
               marked);
        Hook.service := Hook.service w |}, []).
Proof.
  cbn zeta. unfold Hook.on_message.
  unfold Task.bind at 1. unfold Hook.get_hook at 1.
  unfold Task.bind at 1, Task.get at 1, Task.ret at 1.
  destruct (bool_decide _); [reflexivity|].
  unfold Hook.modify, Hook.get_hook, Hook.put_hook,
    Task.bind, Task.get, Task.put, Task.ret.
  cbn [Hook.hook Hook.service Hook.isAppVisible Hook.playSoundAtMount
       Hook.set_processedMessageIds].
  destruct (Hook.isAppVisible (Hook.hook w)); [|reflexivity].
  rewrite addNotification_of_spec. cbn zeta.
  cbn [Hook.hook Hook.service Hook.set_processedMessageIds].
  destruct (Hook.playSoundAtMount (Hook.hook w));
    [destruct (Service.showNotification _ _ _ _) as [[r s'] t]|];
    cbn; rewrite ?app_nil_r; reflexivity.
Qed.

Lemma handleVisibilityChange_spec (h : Service.host) (now : N)
  (react : Hook.updater_run) (isVisible : bool) (w : Hook.world) :
  let s := Hook.hook w in
  let flushed :=
    if isVisible && negb (Hook.isAppVisible s)
       && (0 <? length (Hook.pendingNotifications s))%nat
    then Hook.set_pendingNotifications []
           (Hook.set_notifications
              (match react with
               | Hook.at_call => Hook.pendingNotifications s ++ Hook.notifications s
               | Hook.at_render => Hook.notifications s
               end) s)
    else s in
  exists svc t,
    Hook.handleVisibilityChange h now react isVisible w =
    (Task.Returns tt,
     {| Hook.hook := Hook.set_isAppVisible isVisible flushed;
        Hook.service := svc |}, t).
Proof.
  cbn zeta.
  unfold Hook.handleVisibilityChange, Hook.flush_updater,
    Hook.setNotifications, Hook.modify,
    Hook.get_hook, Hook.put_hook, Hook.lift, Task.detached,
    Task.bind, Task.try_catch, Task.get, Task.put, Task.ret.
  cbn [Hook.hook Hook.service].
  destruct (isVisible && negb (Hook.isAppVisible (Hook.hook w))); cbn [andb].
  - destruct (Service.ensureNotificationsReady _ _ _) as [[[[]|] s'] t];
      cbn [Hook.hook Hook.service Hook.pendingNotifications];
      destruct (0 <? length _)%nat; [destruct react| |destruct react|];
      cbn; eexists _, _; reflexivity.
  - cbn. eexists _, _. reflexivity.
Qed.

Lemma setupListener_spec (sub : Hook.subscription) (w : Hook.world) :
  let s := Hook.hook w in
  let count := Hook.reconnectCount s in
  let delay := if count <? 5 then Z.min 30000 (2 ^ count * 1000) else 60000 in
  exists s' t,
    Hook.setupListener sub w =
      (Task.Returns tt, {| Hook.hook := s'; Hook.service := Hook.service w |}, t) /\
    Hook.notifications s' = Hook.notifications s /\
    Hook.pendingNotifications s' = Hook.pendingNotifications s /\
    Hook.isAppVisible s' = Hook.isAppVisible s /\
    (Task.result_of (Hook.setupMessageListener sub w) = Task.Returns None ->
     Hook.reconnectCount s' = (if count <? 5 then count + 1 else 0) /\
     Hook.scheduled_delays t = [delay] /\
     Hook.retryTimeoutRef s' = Some delay) /\
    (Hook.no_handle sub = true ->
     Task.result_of (Hook.setupMessageListener sub w) = Task.Returns None) /\
    (Hook.no_handle sub = false ->
     Hook.unsubscribe sub = Task.Returns tt \/ Hook.unsubscribeRef s = None ->
     Hook.reconnectCount s' = 0 /\ Hook.scheduled_delays t = []) /\
    (0 <= count <= 5 -> 0 <= Hook.reconnectCount s' <= 5).
Proof.
  cbn zeta. destruct sub as [om us]. unfold Hook.no_handle.
  unfold Hook.setupListener, Hook.setupMessageListener, Hook.modify,
    Hook.get_hook, Hook.put_hook,
    Task.bind, Task.try_catch, Task.call, Task.emit, Task.throw,
    Task.get, Task.put, Task.ret.
  cbn [Hook.hook Hook.service Hook.onMessage Hook.unsubscribe].
  destruct (Hook.unsubscribeRef (Hook.hook w)) as [held|],
    us as [[]|], om as [[handle|]|];
    cbn [Hook.hook Hook.service Hook.reconnectCount Hook.set_unsubscribeRef];
    destruct (Hook.reconnectCount (Hook.hook w) <? 5) eqn:E;
    cbn; eexists _, _; (split; [reflexivity|]);
    cbn; repeat split; intros; try discriminate; try reflexivity;
    try (apply Z.ltb_lt in E); try (apply Z.ltb_ge in E); try lia;
    repeat match goal with H : _ \/ _ |- _ => destruct H end; discriminate.
Qed.

(** ** Runs of events *)

Lemma run_cons (e : Hook.event) (es : list Hook.event) (w : Hook.world) :
  Hook.run (e :: es) w =
  match Hook.handle_event e w with
  | (_, w1, t1) =>
      match Hook.run es w1 with
      | (r, w2, t2) => (r, w2, t1 ++ t2)
      end
  end.
Proof.
  cbn [Hook.run]. unfold Task.bind, Task.detached, Task.try_catch, Task.ret.
  destruct (Hook.handle_event e w) as [[[[]|] w1] t1];
    destruct (Hook.run es w1) as [[r w2] t2]; rewrite ?app_nil_r; reflexivity.
Qed.

Lemma run_cons_state (e : Hook.event) (es : list Hook.event) (w : Hook.world) :
  Task.state_of (Hook.run (e :: es) w) =
  Task.state_of (Hook.run es (Task.state_of (Hook.handle_event e w))).
Proof.
  rewrite run_cons. destruct (Hook.handle_event e w) as [[r1 w1] t1].
  cbn. destruct (Hook.run es w1) as [[r w2] t2]. reflexivity.
Qed.

Lemma run_cons_trace (e : Hook.event) (es : list Hook.event) (w : Hook.world) :
  Task.trace_of (Hook.run (e :: es) w) =
  Task.trace_of (Hook.handle_event e w) ++
  Task.trace_of (Hook.run es (Task.state_of (Hook.handle_event e w))).
Proof.
  rewrite run_cons. destruct (Hook.handle_event e w) as [[r1 w1] t1].
  cbn. destruct (Hook.run es w1) as [[r w2] t2]. reflexivity.
Qed.

Lemma run_app_state (es es' : list Hook.event) (w : Hook.world) :
  Task.state_of (Hook.run (es ++ es') w) =
  Task.state_of (Hook.run es' (Task.state_of (Hook.run es w))).
Proof.
  revert w. induction es as [|e es IH]; intros w; [reflexivity|].
  cbn [app]. rewrite !run_cons_state. apply IH.
Qed.

Lemma scheduled_delays_app (t t' : list Hook.effect) :
  Hook.scheduled_delays (t ++ t') =
  Hook.scheduled_delays t ++ Hook.scheduled_delays t'.
Proof. apply flat_map_app. Qed.

(** ** The reconnect counter *)

Lemma setNotifications_spec (f : list Hook.Notification -> list Hook.Notification)
  (w : Hook.world) :
  Hook.setNotifications f w =
  (Task.Returns tt,
   {| Hook.hook := Hook.set_notifications (f (Hook.notifications (Hook.hook w)))
                     (Hook.hook w);
      Hook.service := Hook.service w |}, []).
Proof. reflexivity. Qed.

Lemma handle_event_count (e : Hook.event) (w : Hook.world) :
  0 <= Hook.reconnectCount (Hook.hook w) <= 5 ->
  0 <= Hook.reconnectCount (Hook.hook (Task.state_of (Hook.handle_event e w))) <= 5.
Proof.
  intros Hc. destruct e as [sub|h now rnd m|h now react v|h now rnd n|i| |i| |b];
    cbn [Hook.handle_event].
  - destruct (setupListener_spec sub w)
      as (s' & t & -> & _ & _ & _ & _ & _ & _ & Hb).
    exact (Hb Hc).
  - rewrite on_message_spec. cbn zeta.
    destruct (bool_decide _); [exact Hc|].
    destruct (Hook.isAppVisible (Hook.hook w)); [|cbn; lia].
    destruct (Hook.addNotification_of _ _ _ _ _ _) as [[r w'] t]. cbn. lia.
  - destruct (handleVisibilityChange_spec h now react v w) as (svc & t & ->).
    cbn. destruct (_ && _); [destruct react|]; exact Hc.
  - unfold Task.bind. rewrite addNotification_spec. cbn zeta.
    destruct (Hook.playSound (Hook.hook w)); exact Hc.
  - exact Hc.
  - exact Hc.
  - exact Hc.
  - exact Hc.
  - exact Hc.
Qed.

Lemma run_count (es : list Hook.event) (w : Hook.world) :
  0 <= Hook.reconnectCount (Hook.hook w) <= 5 ->
  0 <= Hook.reconnectCount (Hook.hook (Task.state_of (Hook.run es w))) <= 5.
Proof.
  revert w. induction es as [|e es IH]; intros w Hc; [exact Hc|].
  rewrite run_cons_state. apply IH. now apply handle_event_count.
Qed.

Lemma failed_setups (subs : list Hook.subscription) (w : Hook.world) :
  Forall (fun sub => Hook.no_handle sub = true) subs ->
  let r := Hook.run (map Hook.ev_setup subs) w in
  Hook.scheduled_delays (Task.trace_of r) =
    Hook.backoff_delays (Hook.reconnectCount (Hook.hook w)) (length subs) /\
  Hook.reconnectCount (Hook.hook (Task.state_of r)) =
    Hook.backoff_count (Hook.reconnectCount (Hook.hook w)) (length subs).
Proof.
  cbn zeta. intros Hsubs. revert w.
  induction Hsubs as [|sub subs Hsub _ IH]; intros w; [split; reflexivity|].
  cbn [map length Hook.backoff_delays Hook.backoff_count].
  rewrite run_cons_trace, run_cons_state, scheduled_delays_app.
  cbn [Hook.handle_event].
  destruct (setupListener_spec sub w)
    as (s' & t & -> & _ & _ & _ & Hfail & Hnone & _).
  destruct (Hfail (Hnone Hsub)) as (Hcount & Hdelay & _).
  cbn [Task.state_of Task.trace_of fst snd].
  destruct (IH {| Hook.hook := s'; Hook.service := Hook.service w |}) as [IHd IHc].
  cbn [Hook.hook] in IHd, IHc. rewrite Hcount in IHd, IHc.
  rewrite Hdelay, IHd, IHc. split; reflexivity.
Qed.

(** C1: the reconnect counter stays in [0,5] whatever happens to a
    mounted hook; a setup that fails ([setupMessageListener] returns
    [null]) while the counter is below 5 schedules a retry after
    [min(30000, 2^counter * 1000)] ms and increments the counter; at 5
    it resets the counter to 0 and schedules one retry after 60000 ms;
    six failed attempts in a row from a counter at 0 schedule retries
    after 1000, 2000, 4000, 8000, 16000 and 60000 ms. *)
Theorem reconnect_backoff (stored : list Hook.Notification) (sound : bool)
  (svc : Service.state) (es : list Hook.event)
  (w : Hook.world) (sub : Hook.subscription) (subs : list Hook.subscription) :
  0 <= Hook.reconnectCount
         (Hook.hook (Task.state_of
            (Hook.run es {| Hook.hook := Hook.mounted stored sound;
                            Hook.service := svc |}))) <= 5 /\
  (Task.result_of (Hook.setupMessageListener sub w) = Task.Returns None ->
   let count := Hook.reconnectCount (Hook.hook w) in
   let r := Hook.setupListener sub w in
   (0 <= count < 5 ->
    Hook.reconnectCount (Hook.hook (Task.state_of r)) = count + 1 /\
    Hook.scheduled_delays (Task.trace_of r) = [Z.min 30000 (2 ^ count * 1000)]) /\
   (count = 5 ->
    Hook.reconnectCount (Hook.hook (Task.state_of r)) = 0 /\
    Hook.scheduled_delays (Task.trace_of r) = [60000])) /\
  (length subs = 6%nat ->
   Forall (fun sub => Hook.no_handle sub = true) subs ->
   Hook.reconnectCount (Hook.hook w) = 0 ->
   let r := Hook.run (map Hook.ev_setup subs) w in
   Hook.scheduled_delays (Task.trace_of r) =
     [1000; 2000; 4000; 8000; 16000; 60000] /\
   Hook.reconnectCount (Hook.hook (Task.state_of r)) = 0).
Proof.
  split; [|split].
  - apply run_count. cbn. lia.
  - intros Hsub. cbn zeta.
    destruct (setupListener_spec sub w)
      as (s' & t & -> & _ & _ & _ & Hfail & _).
    destruct (Hfail Hsub) as (Hcount & Hdelay & _).
    cbn [Task.state_of Task.trace_of fst snd Hook.hook].
    rewrite Hcount, Hdelay. split.
    + intros [_ Hlt]. apply Z.ltb_lt in Hlt. rewrite Hlt. now split.
    + intros ->. now split.
  - intros Hlen Hsubs Hzero. cbn zeta.
    destruct (failed_setups subs w Hsubs) as [Hd Hc].
    rewrite Hd, Hc, Hlen, Hzero. split; reflexivity.
Qed.

Lemma reconnect_backoff_witness :
  Hook.no_handle Samples.dead_source = true /\
  Hook.reconnectCount (Hook.hook Samples.fresh_world) = 0 /\
  Hook.scheduled_delays
    (Task.trace_of
       (Hook.run (map Hook.ev_setup (repeat Samples.dead_source 6))
          Samples.fresh_world)) =
    [1000; 2000; 4000; 8000; 16000; 60000].
Proof.
  split; [reflexivity|]. split; [reflexivity|].
  refine (proj1 (proj2 (proj2
    (reconnect_backoff [] true Samples.service_idle [] Samples.fresh_world
       Samples.dead_source (repeat Samples.dead_source 6)))
    eq_refl _ eq_refl)).
  repeat constructor.
Defined.

(** ** The store *)

Lemma mark_read_idem (n : Hook.Notification) :
  Hook.mark_read (Hook.mark_read n) = Hook.mark_read n.
Proof. reflexivity. Qed.

Lemma mark_one_idem (i : string) (l : list Hook.Notification) :
  let f := fun n => if String.eqb (Hook.id n) i then Hook.mark_read n else n in
  map f (map f l) = map f l.
Proof.
  cbn zeta. rewrite map_map. apply map_ext. intros n.
  destruct (String.eqb (Hook.id n) i) eqn:E; cbn [Hook.mark_read Hook.id];
    rewrite E; reflexivity.
Qed.

Lemma mark_one_settled (i : string) (l : list Hook.Notification) :
  forallb (fun n => negb (String.eqb (Hook.id n) i) || Hook.read n) l = true ->
  map (fun n => if String.eqb (Hook.id n) i then Hook.mark_read n else n) l = l.
Proof.
  induction l as [|n l IH]; cbn [forallb map]; [reflexivity|].
  intros H. apply andb_true_iff in H as [Hn Hl]. rewrite (IH Hl). f_equal.
  destruct (String.eqb (Hook.id n) i); [|reflexivity].
  cbn in Hn. destruct n. cbn in *. now subst.
Qed.

Lemma mark_all_idem (l : list Hook.Notification) :
  map Hook.mark_read (map Hook.mark_read l) = map Hook.mark_read l.
Proof. rewrite map_map. apply map_ext. intros n. apply mark_read_idem. Qed.

Lemma remove_idem (i : string) (l : list Hook.Notification) :
  let keep := fun n => negb (String.eqb (Hook.id n) i) in
  List.filter keep (List.filter keep l) = List.filter keep l.
Proof.
  cbn zeta. induction l as [|n l IH]; [reflexivity|].
  cbn [List.filter]. destruct (negb (String.eqb (Hook.id n) i)) eqn:E;
    [cbn [List.filter]; rewrite E, IH; reflexivity | exact IH].
Qed.

Lemma remove_absent (i : string) (l : list Hook.Notification) :
  existsb (fun n => String.eqb (Hook.id n) i) l = false ->
  List.filter (fun n => negb (String.eqb (Hook.id n) i)) l = l.
Proof.
  induction l as [|n l IH]; cbn [existsb List.filter]; [reflexivity|].
  intros H. apply orb_false_iff in H as [Hn Hl]. rewrite Hn. cbn [negb].
  now rewrite (IH Hl).
Qed.

Lemma set_notifications_same (s : Hook.state) :
  Hook.set_notifications (Hook.notifications s) s = s.
Proof. destruct s. reflexivity. Qed.

Lemma set_notifications_twice (l l' : list Hook.Notification) (s : Hook.state) :
  Hook.set_notifications l (Hook.set_notifications l' s) =
  Hook.set_notifications l s.
Proof. reflexivity. Qed.

(** C8: [markAsRead], [markAllAsRead], [removeNotification] and
    [clearNotifications] return without raising, and doing one of them
    twice leaves the world as doing it once; marking an id whose records
    are all read (or which names no record) and removing an id that
    names no record change nothing; marking all in an empty store leaves
    it empty. *)
Theorem store_mutations_idempotent (w : Hook.world) (i : string) :
  let twice (op : Hook.M unit) := Task.state_of (op (Task.state_of (op w))) in
  let once (op : Hook.M unit) := Task.state_of (op w) in
  (twice (Hook.markAsRead i) = once (Hook.markAsRead i) /\
   twice Hook.markAllAsRead = once Hook.markAllAsRead /\
   twice (Hook.removeNotification i) = once (Hook.removeNotification i) /\
   twice Hook.clearNotifications = once Hook.clearNotifications) /\
  (Task.result_of (Hook.markAsRead i w) = Task.Returns tt /\
   Task.result_of (Hook.markAllAsRead w) = Task.Returns tt /\
   Task.result_of (Hook.removeNotification i w) = Task.Returns tt /\
   Task.result_of (Hook.clearNotifications w) = Task.Returns tt) /\
  (forallb (fun n => negb (String.eqb (Hook.id n) i) || Hook.read n)
     (Hook.notifications (Hook.hook w)) = true ->
   once (Hook.markAsRead i) = w) /\
  (existsb (fun n => String.eqb (Hook.id n) i)
     (Hook.notifications (Hook.hook w)) = false ->
   once (Hook.markAsRead i) = w /\ once (Hook.removeNotification i) = w) /\
  (Hook.notifications (Hook.hook w) = [] ->
   once Hook.markAllAsRead = w /\
   Hook.notifications (Hook.hook (once Hook.markAllAsRead)) = []).
Proof.
  cbn zeta.
  unfold Hook.markAsRead, Hook.markAllAsRead, Hook.removeNotification,
    Hook.clearNotifications.
  rewrite !setNotifications_spec.
  cbn [Task.state_of Task.result_of fst snd Hook.hook Hook.service].
  rewrite !set_notifications_twice.
  cbn [Hook.notifications Hook.set_notifications].
  split; [|split; [|split; [|split]]].
  - rewrite (mark_one_idem i), mark_all_idem, (remove_idem i). auto.
  - auto.
  - intros Hread. rewrite (mark_one_settled i _ Hread).
    rewrite set_notifications_same. now destruct w.
  - intros Habsent. rewrite (remove_absent i _ Habsent). split.
    + rewrite mark_one_settled.
      * rewrite set_notifications_same. now destruct w.
      * apply forallb_forall. intros n Hn.
        destruct (String.eqb (Hook.id n) i) eqn:E; [|reflexivity].
        assert (existsb (fun n => String.eqb (Hook.id n) i)
                  (Hook.notifications (Hook.hook w)) = true)
          by (apply existsb_exists; eauto).
        congruence.
    + rewrite set_notifications_same. now destruct w.
  - intros Hempty.
    replace (map Hook.mark_read (Hook.notifications (Hook.hook w)))
      with (Hook.notifications (Hook.hook w)) by (now rewrite Hempty).
    rewrite set_notifications_same. split; [now destruct w|exact Hempty].
Qed.

Lemma store_mutations_idempotent_witness :
  Hook.notifications (Hook.hook Samples.fresh_world) = [] /\
  existsb (fun n => String.eqb (Hook.id n) "x")
    (Hook.notifications (Hook.hook Samples.fresh_world)) = false /\
  Task.state_of (Hook.markAllAsRead Samples.fresh_world) = Samples.fresh_world /\
  Task.state_of (Hook.removeNotification "x" Samples.fresh_world) =
    Samples.fresh_world.
Proof.
  destruct (store_mutations_idempotent Samples.fresh_world "x")
    as (_ & _ & _ & Habsent & Hempty).
  split; [reflexivity|]. split; [reflexivity|].
  split; [exact (proj1 (Hempty eq_refl)) | exact (proj2 (Habsent eq_refl))].
Defined.

(** ** Rejected duplicates *)

(** C10 fails as stated: the id that [addNotification] returns for a
    rejected record is the id the caller passed, and here it names the
    record that is already in the store. *)
Lemma rejected_id_names_stored_record :
  let r := Hook.addNotification Samples.host_denied 10000 "k3x9qa"
             Samples.again_x Samples.world_with_x in
  Hook.notifications (Hook.hook (Task.state_of r)) = [Samples.stored_x] /\
  Task.result_of r = Task.Returns "x" /\
  Hook.names_record "x" (Hook.notifications (Hook.hook (Task.state_of r))) = true.
Proof. vm_compute. repeat split. Qed.

(** C10 (amended): when [addNotification] rejects the record as a
    duplicate, the hook state, and so the store, is as before; the call
    returns the id of the rejected record, which is the caller's id when
    one was passed and a generated [manual_] id otherwise, and which
    names a record of the store only if a record had that id before;
    with sound enabled the delivery through [showNotification] still
    runs, starting with a sound attempt. *)
Theorem duplicate_rejected (h : Service.host) (now : N) (rnd : string)
  (n : Hook.NotificationInput) (w : Hook.world) :
  let newNotification := Hook.make_notification now rnd n in
  let data :=
    {| Service.title := Js.or_else (Hook.in_title n) "Notification";
       Service.message := Hook.in_message n;
       Service.icon := None; Service.duration := None |} in
  let r := Hook.addNotification h now rnd n w in
  existsb (Hook.duplicates newNotification) (Hook.notifications (Hook.hook w)) = true ->
  Hook.hook (Task.state_of r) = Hook.hook w /\
  Task.result_of r = Task.Returns (Hook.id newNotification) /\
  Hook.id newNotification =
    match Hook.in_id n with
    | Some i => i
    | None => "manual_" +:+ Js.of_N now +:+ rnd
    end /\
  Hook.names_record (Hook.id newNotification)
    (Hook.notifications (Hook.hook (Task.state_of r))) =
  Hook.names_record (Hook.id newNotification) (Hook.notifications (Hook.hook w)) /\
  (Hook.playSound (Hook.hook w) = true ->
   Task.trace_of r =
     map Hook.dispatcher
       (Task.trace_of (Service.showNotification h now data (Hook.service w))) /\
   Hook.service (Task.state_of r) =
     Task.state_of (Service.showNotification h now data (Hook.service w)) /\
   exists a rest,
     Task.trace_of r = Hook.dispatcher (Service.play_audio a) :: rest) /\
  (Hook.playSound (Hook.hook w) = false ->
   Task.trace_of r = [] /\ Hook.service (Task.state_of r) = Hook.service w).
Proof.
  cbn zeta. intros Hdup.
  assert (Hhook :
    Hook.hook (Task.state_of (Hook.addNotification h now rnd n w)) = Hook.hook w).
  { rewrite addNotification_spec. cbn zeta. unfold Hook.add_updater.
    rewrite Hdup. destruct (Hook.playSound (Hook.hook w)); cbn;
      apply set_notifications_same. }
  split; [exact Hhook|]. rewrite Hhook.
  rewrite addNotification_spec. cbn zeta.
  split; [destruct (Hook.playSound (Hook.hook w)); reflexivity|].
  split; [reflexivity|]. split; [reflexivity|].
  split; intros ->; cbn [Task.trace_of Task.state_of fst snd Hook.service].
  - split; [reflexivity|]. split; [reflexivity|].
    rewrite showNotification_decompose. cbn zeta.
    destruct (Service.visual_channels _ _ _ _ _) as [[r s'] visual].
    destruct (sound_trace_shape h) as [_ (a & rest & ->)].
    cbn. eexists _, _. reflexivity.
  - split; reflexivity.
Qed.

Lemma duplicate_rejected_witness :
  existsb (Hook.duplicates
             (Hook.make_notification 10000 "k3x9qa" Samples.again_x))
    (Hook.notifications (Hook.hook Samples.world_with_x)) = true /\
  Hook.hook
    (Task.state_of
       (Hook.addNotification Samples.host_denied 10000 "k3x9qa"
          Samples.again_x Samples.world_with_x)) =
  Hook.hook Samples.world_with_x.
Proof.
  assert (Hdup : existsb (Hook.duplicates
             (Hook.make_notification 10000 "k3x9qa" Samples.again_x))
    (Hook.notifications (Hook.hook Samples.world_with_x)) = true)
    by reflexivity.
  split; [exact Hdup|].
  exact (proj1 (duplicate_rejected Samples.host_denied 10000 "k3x9qa"
                  Samples.again_x Samples.world_with_x Hdup)).
Defined.

(** ** The fingerprint of a stream message *)

Lemma generateMessageId_time_inj (m : MessageInfo.t) (t t' : N) :
  Hook.generateMessageId m t = Hook.generateMessageId m t' -> t = t'.
Proof.
  unfold Hook.generateMessageId. cbn zeta. intros H.
  do 4 apply (inj (String.append _)) in H.
  now apply of_N_inj.
Qed.

Lemma on_message_processed (h : Service.host) (now : N) (rnd : string)
  (m : MessageInfo.t) (w : Hook.world) :
  Hook.generateMessageId m now ∈
    Hook.processedMessageIds
      (Hook.hook (Task.state_of (Hook.on_message h now rnd m w))).
Proof.
  rewrite on_message_spec. cbn zeta.
  destruct (bool_decide _) eqn:E.
  - now apply bool_decide_eq_true in E.
  - destruct (Hook.isAppVisible (Hook.hook w)).
    + rewrite addNotification_of_spec. cbn zeta.
      destruct (Hook.playSoundAtMount _); cbn; set_solver.
    + cbn. set_solver.
Qed.

Lemma on_message_hook (h : Service.host) (now : N) (rnd : string)
  (m : MessageInfo.t) (w : Hook.world) :
  let s := Hook.hook w in
  let uniqueId := Hook.generateMessageId m now in
  let newNotification := Hook.notification_of_message now rnd m in
  let marked :=
    Hook.set_processedMessageIds ({[uniqueId]} ∪ Hook.processedMessageIds s) s in
  Hook.hook (Task.state_of (Hook.on_message h now rnd m w)) =
  if bool_decide (uniqueId ∈ Hook.processedMessageIds s) then s
  else if Hook.isAppVisible s then
    Hook.set_reconnectCount 0
      (Hook.set_notifications
         (Hook.add_updater newNotification (Hook.notifications s)) marked)
  else
    Hook.set_reconnectCount 0
      (Hook.set_pendingNotifications
         (Hook.pendingNotifications s ++ [newNotification]) marked).
Proof.
  cbn zeta. rewrite on_message_spec. cbn zeta.
  destruct (bool_decide _); [reflexivity|].
  destruct (Hook.isAppVisible (Hook.hook w)); [|reflexivity].
  rewrite addNotification_of_spec, make_as_input. cbn zeta.
  destruct (Hook.playSoundAtMount _); reflexivity.
Qed.

Lemma on_message_visible (h : Service.host) (now : N) (rnd : string)
  (m : MessageInfo.t) (w : Hook.world) :
  Hook.isAppVisible (Hook.hook (Task.state_of (Hook.on_message h now rnd m w))) =
  Hook.isAppVisible (Hook.hook w).
Proof.
  rewrite on_message_hook. cbn zeta.
  destruct (bool_decide _); [reflexivity|].
  destruct (Hook.isAppVisible (Hook.hook w)) eqn:E; cbn; exact E.
Qed.

(** C3 fails as stated: the same wire message delivered twice, 50 ms
    apart and so well inside the five minutes during which ids are kept,
    gets two different ids, and the second delivery passes the
    processed-id check. *)
Lemma redelivery_in_window_gets_new_id :
  let first := Task.state_of
                 (Hook.on_message Samples.host_denied 1000 "aaaaaa"
                    Samples.hello Samples.fresh_world) in
  (1050 - 1000 < 5 * 60 * 1000)%N /\
  Hook.generateMessageId Samples.hello 1000 <>
    Hook.generateMessageId Samples.hello 1050 /\
  bool_decide (Hook.generateMessageId Samples.hello 1050 ∈
                 Hook.processedMessageIds (Hook.hook first)) = false.
Proof.
  cbn zeta. split; [reflexivity|]. split; [discriminate|].
  vm_compute. reflexivity.
Qed.

(** C3 (amended): the id of a stream message is the conversation id,
    the sender, the text, the 32-bit character-code hash of the text
    (which depends on the order of the characters) and the clock reading
    of the arrival; two deliveries of the same message get the same id
    exactly when they arrive at the same clock reading. After a first
    delivery at [t], the processed-id check stops a delivery at [t']
    exactly when [t' = t] or the id of [t'] was among the processed ids
    before: at the same reading the callback returns at once and changes
    nothing; at any other reading with a new id the callback goes on,
    records the id, resets the reconnect counter and hands the record to
    the buffer (hidden) or to [addNotification] (visible). *)
Theorem message_fingerprint (m : MessageInfo.t) (t t' : N)
  (h h' : Service.host) (rnd rnd' : string) (w : Hook.world) :
  let first := Task.state_of (Hook.on_message h t rnd m w) in
  let second := Task.state_of (Hook.on_message h' t' rnd' m first) in
  let record := Hook.notification_of_message t' rnd' m in
  Hook.generateMessageId m t =
    (MessageInfo.chatId m +:+ "-" +:+ MessageInfo.sender m +:+ "-" +:+
     MessageInfo.text m) +:+ "-" +:+
    Js.of_Z (Hook.text_hash 0 (MessageInfo.text m)) +:+ "-time-" +:+ Js.of_N t /\
  Hook.text_hash 0 "ab" <> Hook.text_hash 0 "ba" /\
  (Hook.generateMessageId m t = Hook.generateMessageId m t' <-> t = t') /\
  Hook.on_message h' t rnd' m first = (Task.Returns tt, first, []) /\
  (Hook.generateMessageId m t' ∈ Hook.processedMessageIds (Hook.hook first) <->
   t' = t \/
   Hook.generateMessageId m t' ∈ Hook.processedMessageIds (Hook.hook w)) /\
  (t' <> t ->
   Hook.generateMessageId m t' ∉ Hook.processedMessageIds (Hook.hook w) ->
   Hook.processedMessageIds (Hook.hook second) =
     {[Hook.generateMessageId m t']} ∪
     Hook.processedMessageIds (Hook.hook first) /\
   Hook.reconnectCount (Hook.hook second) = 0 /\
   (Hook.isAppVisible (Hook.hook w) = false ->
    Hook.pendingNotifications (Hook.hook second) =
      Hook.pendingNotifications (Hook.hook first) ++ [record] /\
    Hook.notifications (Hook.hook second) =
      Hook.notifications (Hook.hook first)) /\
   (Hook.isAppVisible (Hook.hook w) = true ->
    Hook.notifications (Hook.hook second) =
      Hook.add_updater record (Hook.notifications (Hook.hook first)) /\
    Hook.pendingNotifications (Hook.hook second) =
      Hook.pendingNotifications (Hook.hook first))).
Proof.
  cbn zeta.
  assert (Hin : Hook.generateMessageId m t' ∈
                  Hook.processedMessageIds
                    (Hook.hook (Task.state_of (Hook.on_message h t rnd m w))) <->
                t' = t \/
                Hook.generateMessageId m t' ∈
                  Hook.processedMessageIds (Hook.hook w)).
  { rewrite on_message_hook. cbn zeta. case_bool_decide as Hold.
    - split; [now right|].
      intros [->|Hin]; [exact Hold|exact Hin].
    - destruct (Hook.isAppVisible (Hook.hook w));
        cbn [Hook.processedMessageIds Hook.set_reconnectCount
             Hook.set_notifications Hook.set_pendingNotifications
             Hook.set_processedMessageIds];
        rewrite elem_of_union, elem_of_singleton;
        (split; intros [E|Hin];
         [left; exact (generateMessageId_time_inj m t' t E) | now right
         | left; now rewrite E | now right]). }
  split; [reflexivity|]. split; [discriminate|]. split; [|split; [|split]].
  - split; [apply generateMessageId_time_inj | now intros ->].
  - rewrite (on_message_spec h' t rnd' m). cbn zeta.
    rewrite bool_decide_eq_true_2 by apply on_message_processed.
    reflexivity.
  - exact Hin.
  - intros Hne Hnew.
    assert (Hpass : Hook.generateMessageId m t' ∉
                      Hook.processedMessageIds
                        (Hook.hook (Task.state_of (Hook.on_message h t rnd m w)))).
    { rewrite Hin. intros [E|E]; [now apply Hne|now apply Hnew]. }
    rewrite (on_message_hook h' t' rnd' m). cbn zeta.
    rewrite (bool_decide_eq_false_2 _ Hpass), on_message_visible.
    destruct (Hook.isAppVisible (Hook.hook w));
      cbn [Hook.processedMessageIds Hook.reconnectCount Hook.notifications
           Hook.pendingNotifications Hook.set_reconnectCount
           Hook.set_notifications Hook.set_pendingNotifications
           Hook.set_processedMessageIds];
      (split; [reflexivity|]); (split; [reflexivity|]);
      split; intros ?; try discriminate; split; reflexivity.
Qed.

Lemma message_fingerprint_witness :
  1050%N <> 1000%N /\
  (Hook.generateMessageId Samples.hello 1050 ∉
     Hook.processedMessageIds (Hook.hook Samples.hidden_world)) /\
  Hook.isAppVisible (Hook.hook Samples.hidden_world) = false /\
  Hook.pendingNotifications
    (Hook.hook (Task.state_of
       (Hook.on_message Samples.host_denied 1050 "bbbbbb" Samples.hello
          (Task.state_of
             (Hook.on_message Samples.host_denied 1000 "aaaaaa" Samples.hello
                Samples.hidden_world))))) =
  Hook.pendingNotifications
    (Hook.hook (Task.state_of
       (Hook.on_message Samples.host_denied 1000 "aaaaaa" Samples.hello
          Samples.hidden_world))) ++
  [Hook.notification_of_message 1050 "bbbbbb" Samples.hello].
Proof.
  assert (Hne : 1050%N <> 1000%N) by discriminate.
  assert (Hnew : Hook.generateMessageId Samples.hello 1050 ∉
                   Hook.processedMessageIds (Hook.hook Samples.hidden_world))
    by (cbn; apply not_elem_of_empty).
  assert (Hhidden : Hook.isAppVisible (Hook.hook Samples.hidden_world) = false)
    by reflexivity.
  split; [exact Hne|]. split; [exact Hnew|]. split; [exact Hhidden|].
  destruct (message_fingerprint Samples.hello 1000 1050 Samples.host_denied
              Samples.host_denied "aaaaaa" "bbbbbb" Samples.hidden_world)
    as (_ & _ & _ & _ & _ & Hpast).
  destruct (Hpast Hne Hnew) as (_ & _ & Hbuffer & _).
  exact (proj1 (Hbuffer Hhidden)).
Defined.

(** ** Stream messages and the store *)

Lemma on_message_store_cases (h : Service.host) (now : N) (rnd : string)
  (m : MessageInfo.t) (w : Hook.world) :
  Hook.isAppVisible (Hook.hook w) = true ->
  let w' := Task.state_of (Hook.on_message h now rnd m w) in
  Hook.notifications (Hook.hook w') = Hook.notifications (Hook.hook w) \/
  Hook.notifications (Hook.hook w') =
    Hook.notification_of_message now rnd m :: Hook.notifications (Hook.hook w).
Proof.
  intros Hvisible. cbn zeta. rewrite on_message_hook. cbn zeta.
  rewrite Hvisible. case_bool_decide; [now left|].
  cbn [Hook.notifications Hook.set_reconnectCount Hook.set_notifications].
  unfold Hook.add_updater.
  match goal with
  | |- context [existsb ?f ?l] => destruct (existsb f l)
  end; [now left | now right].
Qed.

Lemma duplicates_recent (t1 t2 : N) (rnd1 rnd2 : string) (m : MessageInfo.t) :
  (t2 < t1 + 5000)%N ->
  Hook.duplicates (Hook.notification_of_message t2 rnd2 m)
    (Hook.notification_of_message t1 rnd1 m) = true.
Proof.
  intros Hlt. unfold Hook.duplicates, Hook.notification_of_message.
  cbn [Hook.message Hook.type Hook.timestamp Hook.id].
  rewrite String.eqb_refl.
  replace (Z.of_N t2 - 5000 <? Z.of_N t1) with true
    by (symmetry; apply Z.ltb_lt; lia).
  destruct (MessageInfo.isGroup m); reflexivity.
Qed.

(** C4 fails as stated: while the surface is hidden the two deliveries
    are buffered without any store-level check, and the flush, its
    updater run at the call, puts both records into the store. *)
Lemma hidden_duplicates_both_stored :
  let w := Task.state_of
             (Hook.run [Hook.ev_message Samples.host_denied 1000 "aaaaaa" Samples.hello;
                        Hook.ev_message Samples.host_denied 1050 "bbbbbb" Samples.hello;
                        Hook.ev_visibility Samples.host_denied 2000
                          Hook.at_call true]
                Samples.hidden_world) in
  (1050 - 1000 <= 100)%N /\
  map Hook.id (Hook.notifications (Hook.hook w)) =
    ["msg_1000aaaaaa"; "msg_1050bbbbbb"] /\
  map Hook.message (Hook.notifications (Hook.hook w)) = ["hi"; "hi"].
Proof. vm_compute. repeat split; discriminate. Qed.

(** C4 (amended): when the same message arrives twice within 100 ms
    while the surface is visible, at most one record is added to the
    store: if the first delivery stored its record, the second leaves
    the store as it is. *)
Theorem visible_duplicate_stored_once (h1 h2 : Service.host) (t1 t2 : N)
  (rnd1 rnd2 : string) (m : MessageInfo.t) (w : Hook.world) :
  Hook.isAppVisible (Hook.hook w) = true ->
  (t1 <= t2 <= t1 + 100)%N ->
  let w1 := Task.state_of (Hook.on_message h1 t1 rnd1 m w) in
  let w2 := Task.state_of (Hook.on_message h2 t2 rnd2 m w1) in
  (exists created,
     Hook.notifications (Hook.hook w2) =
       created ++ Hook.notifications (Hook.hook w) /\
     (length created <= 1)%nat) /\
  (Hook.notifications (Hook.hook w1) =
     Hook.notification_of_message t1 rnd1 m :: Hook.notifications (Hook.hook w) ->
   Hook.notifications (Hook.hook w2) = Hook.notifications (Hook.hook w1)).
Proof.
  intros Hvisible Ht. cbn zeta.
  assert (Hsecond :
    Hook.notifications (Hook.hook (Task.state_of (Hook.on_message h1 t1 rnd1 m w))) =
      Hook.notification_of_message t1 rnd1 m :: Hook.notifications (Hook.hook w) ->
    Hook.notifications
      (Hook.hook (Task.state_of
         (Hook.on_message h2 t2 rnd2 m
            (Task.state_of (Hook.on_message h1 t1 rnd1 m w))))) =
    Hook.notifications (Hook.hook (Task.state_of (Hook.on_message h1 t1 rnd1 m w)))).
  { intros Hstored. rewrite (on_message_hook h2). cbn zeta.
    rewrite on_message_visible, Hvisible.
    case_bool_decide; [reflexivity|].
    cbn [Hook.notifications Hook.set_reconnectCount Hook.set_notifications
         Hook.set_processedMessageIds].
    unfold Hook.add_updater. rewrite Hstored. cbn [existsb].
    rewrite duplicates_recent by lia. reflexivity. }
  split; [|exact Hsecond].
  destruct (on_message_store_cases h1 t1 rnd1 m w Hvisible) as [Hfirst|Hfirst].
  - (* the first delivery adds nothing *)
    destruct (on_message_store_cases h2 t2 rnd2 m
                (Task.state_of (Hook.on_message h1 t1 rnd1 m w)))
      as [Hnone|Hnew].
    + now rewrite on_message_visible.
    + exists []. rewrite Hnone, Hfirst. split; [reflexivity|cbn; lia].
    + eexists [_]. rewrite Hnew, Hfirst. split; [reflexivity|cbn; lia].
  - (* the first delivery is stored *)
    rewrite (Hsecond Hfirst), Hfirst.
    eexists [_]. split; [reflexivity|cbn; lia].
Qed.

Lemma visible_duplicate_stored_once_witness :
  Hook.isAppVisible (Hook.hook Samples.fresh_world) = true /\
  (1000 <= 1050 <= 1000 + 100)%N /\
  Hook.notifications
    (Hook.hook (Task.state_of
       (Hook.on_message Samples.host_denied 1050 "bbbbbb" Samples.hello
          (Task.state_of
             (Hook.on_message Samples.host_denied 1000 "aaaaaa" Samples.hello
                Samples.fresh_world))))) =
  Hook.notifications
    (Hook.hook (Task.state_of
       (Hook.on_message Samples.host_denied 1000 "aaaaaa" Samples.hello
          Samples.fresh_world))).
Proof.
  assert (Ht : (1000 <= 1050 <= 1000 + 100)%N) by (split; discriminate).
  split; [reflexivity|]. split; [exact Ht|].
  refine (proj2 (visible_duplicate_stored_once Samples.host_denied
    Samples.host_denied 1000 1050 "aaaaaa" "bbbbbb" Samples.hello
    Samples.fresh_world eq_refl Ht) _).
  vm_compute. reflexivity.
Defined.

(** ** The background queue *)

Lemma handleVisibilityChange_hook (h : Service.host) (now : N)
  (react : Hook.updater_run) (isVisible : bool) (w : Hook.world) :
  let s := Hook.hook w in
  Hook.hook (Task.state_of (Hook.handleVisibilityChange h now react isVisible w)) =
  Hook.set_isAppVisible isVisible
    (if isVisible && negb (Hook.isAppVisible s)
        && (0 <? length (Hook.pendingNotifications s))%nat
     then Hook.set_pendingNotifications []
            (Hook.set_notifications
               (match react with
                | Hook.at_call =>
                    Hook.pendingNotifications s ++ Hook.notifications s
                | Hook.at_render => Hook.notifications s
                end) s)
     else s).
Proof.
  cbn zeta.
  destruct (handleVisibilityChange_spec h now react isVisible w)
    as (svc & t & ->).
  reflexivity.
Qed.

Lemma hidden_arrivals (arrivals : list Hook.arrival) :
  forall w : Hook.world,
    Hook.isAppVisible (Hook.hook w) = false ->
    let w' := Task.state_of (Hook.run (map Hook.arrival_event arrivals) w) in
    Hook.notifications (Hook.hook w') = Hook.notifications (Hook.hook w) /\
    Hook.pendingNotifications (Hook.hook w') =
      Hook.pendingNotifications (Hook.hook w) ++
      Hook.buffered_records (Hook.processedMessageIds (Hook.hook w)) arrivals /\
    Hook.isAppVisible (Hook.hook w') = false.
Proof.
  induction arrivals as [|a arrivals IH]; intros w Hhidden; cbn zeta.
  - cbn. rewrite app_nil_r. auto.
  - cbn [map Hook.buffered_records]. rewrite run_cons_state.
    destruct a as [[[h now] rnd] m].
    cbn [Hook.arrival_event Hook.arrival_id Hook.arrival_record
         Hook.handle_event].
    set (w1 := Task.state_of (Hook.on_message h now rnd m w)).
    pose proof (on_message_hook h now rnd m w) as H1. cbn zeta in H1.
    fold w1 in H1. rewrite Hhidden in H1.
    destruct (bool_decide
                (Hook.generateMessageId m now ∈
                   Hook.processedMessageIds (Hook.hook w))).
    + destruct (IH w1) as (Hstore & Hpending & Hvis);
        [now rewrite H1|]. now rewrite Hstore, Hpending, Hvis, H1.
    + destruct (IH w1) as (Hstore & Hpending & Hvis);
        [now rewrite H1|].
      rewrite Hstore, Hpending, Hvis, H1. cbn. rewrite <- app_assoc. auto.
Qed.

Lemma buffered_all (arrivals : list Hook.arrival) :
  forall processed : gset string,
    NoDup (map Hook.arrival_id arrivals) ->
    Forall (fun a => Hook.arrival_id a ∉ processed) arrivals ->
    Hook.buffered_records processed arrivals = map Hook.arrival_record arrivals.
Proof.
  induction arrivals as [|a arrivals IH]; intros processed Hnodup Hfresh;
    [reflexivity|].
  cbn [map Hook.buffered_records] in *.
  apply NoDup_cons in Hnodup as [Hnotin Hnodup].
  apply Forall_cons in Hfresh as [Ha Hfresh].
  rewrite bool_decide_eq_false_2 by exact Ha. f_equal.
  apply IH; [exact Hnodup|].
  rewrite Forall_forall in Hfresh |- *. intros a' Ha'.
  apply not_elem_of_union. split; [|now apply Hfresh].
  apply not_elem_of_singleton. intros E. apply Hnotin. rewrite <- E.
  now apply list_elem_of_fmap_2.
Qed.

(** C7: messages that arrive while the hook holds the surface to be
    hidden ([isAppVisibleRef]) leave the store alone and are appended to
    the buffer in arrival order (all of them when their ids are new and
    distinct; a repeated id is dropped by the processed-id check); the
    change from hidden to visible always
    empties the buffer, and a further change to visible, after another
    hidden spell without arrivals, changes neither the store nor the
    buffer. But the claim fails where it says that the buffer is flushed
    into the store: the updater of the flush reads the buffer when React
    runs it, and the handler has emptied the buffer by the time of the
    render. Only when React runs the updater at the call does the store
    receive the buffer, oldest first, in front of its records; otherwise
    the store stays as it was and the buffered records are in neither. *)
Theorem flush_reads_emptied_buffer (arrivals : list Hook.arrival)
  (h h' h'' : Service.host) (now now' now'' : N) (react react'' : Hook.updater_run)
  (w : Hook.world) :
  Hook.isAppVisible (Hook.hook w) = false ->
  let buffered := Task.state_of (Hook.run (map Hook.arrival_event arrivals) w) in
  let shown :=
    Task.state_of (Hook.handleVisibilityChange h now react true buffered) in
  let hidden :=
    Task.state_of (Hook.handleVisibilityChange h' now' Hook.at_render false shown) in
  let shown_again :=
    Task.state_of (Hook.handleVisibilityChange h'' now'' react'' true hidden) in
  (Hook.notifications (Hook.hook buffered) = Hook.notifications (Hook.hook w) /\
   Hook.pendingNotifications (Hook.hook buffered) =
     Hook.pendingNotifications (Hook.hook w) ++
     Hook.buffered_records (Hook.processedMessageIds (Hook.hook w)) arrivals) /\
  (NoDup (map Hook.arrival_id arrivals) ->
   Forall (fun a => Hook.arrival_id a ∉ Hook.processedMessageIds (Hook.hook w))
     arrivals ->
   Hook.buffered_records (Hook.processedMessageIds (Hook.hook w)) arrivals =
     map Hook.arrival_record arrivals) /\
  (Hook.notifications (Hook.hook shown) =
     match react with
     | Hook.at_call =>
         Hook.pendingNotifications (Hook.hook buffered) ++
         Hook.notifications (Hook.hook w)
     | Hook.at_render => Hook.notifications (Hook.hook w)
     end /\
   Hook.pendingNotifications (Hook.hook shown) = [] /\
   Hook.isAppVisible (Hook.hook shown) = true) /\
  (Hook.notifications (Hook.hook shown_again) = Hook.notifications (Hook.hook shown) /\
   Hook.pendingNotifications (Hook.hook shown_again) = []).
Proof.
  intros Hhidden. cbn zeta.
  destruct (hidden_arrivals arrivals w Hhidden) as (Hstore & Hpending & Hvis).
  set (buffered := Task.state_of (Hook.run (map Hook.arrival_event arrivals) w)) in *.
  assert (Hshown :
    Hook.hook (Task.state_of (Hook.handleVisibilityChange h now react true buffered)) =
    Hook.set_isAppVisible true
      (Hook.set_pendingNotifications []
         (Hook.set_notifications
            (match react with
             | Hook.at_call =>
                 Hook.pendingNotifications (Hook.hook buffered) ++
                 Hook.notifications (Hook.hook buffered)
             | Hook.at_render => Hook.notifications (Hook.hook buffered)
             end) (Hook.hook buffered)))).
  { rewrite handleVisibilityChange_hook. cbn zeta. rewrite Hvis. cbn [andb negb].
    destruct (Hook.pendingNotifications (Hook.hook buffered)) as [|p ps] eqn:E;
      [|reflexivity].
    cbn. destruct (Hook.hook buffered). cbn in *. subst.
    destruct react; reflexivity. }
  split; [split; assumption|].
  split; [apply buffered_all|]. split.
  - rewrite Hshown. cbn. rewrite Hstore. destruct react; auto.
  - rewrite (handleVisibilityChange_hook h'' now'' react'' true). cbn zeta.
    rewrite (handleVisibilityChange_hook h' now' Hook.at_render false). cbn zeta.
    rewrite Hshown. cbn. auto.
Qed.

Lemma flush_reads_emptied_buffer_witness :
  let arrivals :=
    [(Samples.host_denied, 1000%N, "aaaaaa", Samples.hello);
     (Samples.host_denied, 1050%N, "bbbbbb", Samples.hello)] in
  let buffered :=
    Task.state_of (Hook.run (map Hook.arrival_event arrivals)
                     Samples.hidden_world) in
  let shown :=
    Task.state_of (Hook.handleVisibilityChange Samples.host_denied 2000
                     Hook.at_render true buffered) in
  Hook.isAppVisible (Hook.hook Samples.hidden_world) = false /\
  map Hook.id (Hook.pendingNotifications (Hook.hook buffered)) =
    ["msg_1000aaaaaa"; "msg_1050bbbbbb"] /\
  Hook.notifications (Hook.hook shown) = [] /\
  Hook.pendingNotifications (Hook.hook shown) = [].
Proof.
  cbn zeta. split; [reflexivity|].
  destruct (flush_reads_emptied_buffer
              [(Samples.host_denied, 1000%N, "aaaaaa", Samples.hello);
               (Samples.host_denied, 1050%N, "bbbbbb", Samples.hello)]
              Samples.host_denied Samples.host_denied
              Samples.host_denied 2000 3000 4000 Hook.at_render Hook.at_render
              Samples.hidden_world eq_refl)
    as ((_ & Hbuffered) & _ & (Hshown & Hempty & _) & _).
  split; [rewrite Hbuffered; vm_compute; reflexivity|].
  split; [exact Hshown|exact Hempty].
Defined.

(** * Further properties of the dispatcher *)

(** ** The list of active notifications *)

Lemma splice_one_lookup {A} (i j : nat) (l : list A) :
  (i < length l)%nat ->
  Service.splice_one i l !! j =
    if (j <? i)%nat then l !! j else l !! S j.
Proof.
  intros Hi. unfold Service.splice_one.
  destruct (Nat.ltb_spec j i) as [Hlt|Hge].
  - rewrite lookup_app_l by (rewrite length_take; lia).
    now apply lookup_take_lt.
  - rewrite lookup_app_r by (rewrite length_take; lia).
    rewrite length_take, lookup_drop. f_equal. lia.
Qed.

Lemma splice_one_length {A} (i : nat) (l : list A) :
  (i < length l)%nat -> S (length (Service.splice_one i l)) = length l.
Proof.
  intros Hi. unfold Service.splice_one.
  rewrite length_app, length_take, length_drop. lia.
Qed.

(** X1: [clearNotification(index)] never raises and leaves the failed
    set alone; for an index of the list it removes exactly that entry,
    every later entry moving down by one; for any other index, a
    negative one included, nothing changes. *)
Theorem clearNotification_removes_one (index : Z) (s : Service.state) :
  let r := Service.clearNotification index s in
  let before := Service.activeNotifications s in
  let after := Service.activeNotifications (Task.state_of r) in
  Task.result_of r = Task.Returns tt /\
  Service.failedNotifications (Task.state_of r) = Service.failedNotifications s /\
  (0 <= index < Z.of_nat (length before) ->
   S (length after) = length before /\
   forall j : nat,
     after !! j = if (j <? Z.to_nat index)%nat then before !! j
                  else before !! S j) /\
  (index < 0 \/ Z.of_nat (length before) <= index -> Task.state_of r = s).
Proof.
  cbn zeta. unfold Service.clearNotification, Task.bind, Task.get, Task.put,
    Task.ret.
  destruct (Z.leb_spec 0 index) as [H0|H0];
    destruct (Z.ltb_spec index
                (Z.of_nat (length (Service.activeNotifications s)))) as [H1|H1];
    cbn; (split; [reflexivity|]); (split; [reflexivity|]); split;
    try (intros; lia); try (intros; reflexivity).
  intros _. split.
  - apply splice_one_length. lia.
  - intros j. apply splice_one_lookup. lia.
Qed.

Lemma clearNotification_removes_one_witness :
  0 <= 1 < Z.of_nat (length [Samples.data_TM; Samples.data_untitled;
                             Samples.data_dashed]) /\
  Service.activeNotifications
    (Task.state_of
       (Service.clearNotification 1
          {| Service.activeNotifications :=
               [Samples.data_TM; Samples.data_untitled; Samples.data_dashed];
             Service.failedNotifications := [] |})) !! 1%nat =
  Some Samples.data_dashed.
Proof.
  assert (H : 0 <= 1 < Z.of_nat (length [Samples.data_TM; Samples.data_untitled;
                                         Samples.data_dashed])) by (cbn; lia).
  split; [exact H|].
  destruct (clearNotification_removes_one 1
              {| Service.activeNotifications :=
                   [Samples.data_TM; Samples.data_untitled; Samples.data_dashed];
                 Service.failedNotifications := [] |})
    as (_ & _ & Hin & _).
  rewrite (proj2 (Hin H) 1%nat). reflexivity.
Defined.

(** ** The state a delivery leaves *)

Lemma visual_channels_state (h : Service.host) (data : Service.NotificationData)
  (notificationId : string) (was : bool) (s : Service.state) :
  Task.state_of (Service.visual_channels h data notificationId was s) =
  {| Service.activeNotifications := Service.activeNotifications s;
     Service.failedNotifications :=
       if Service.ends_in_failure h then
         if was then Service.failedNotifications s
         else Service.set_add notificationId (Service.failedNotifications s)
       else Service.set_delete notificationId (Service.failedNotifications s) |}.
Proof.
  destruct h as [br api perm req cons sr pl wav], s as [active failed].
  unfold Service.ends_in_failure.
  cbn [Service.bridge Service.notification_api Service.current_permission
       Service.requestPermission].
  destruct br as [[[]|]|], api, perm, req as [[]|], cons as [[]|], was;
    reflexivity.
Qed.

Lemma showNotification_state (h : Service.host) (now : N)
  (data : Service.NotificationData) (s : Service.state) :
  let notificationId := Service.generateNotificationId data now in
  Task.state_of (Service.showNotification h now data s) =
  {| Service.activeNotifications := Service.activeNotifications s ++ [data];
     Service.failedNotifications :=
       if Service.ends_in_failure h then
         if Service.set_has notificationId (Service.failedNotifications s)
         then Service.failedNotifications s
         else Service.set_add notificationId (Service.failedNotifications s)
       else Service.set_delete notificationId (Service.failedNotifications s) |}.
Proof.
  cbn zeta. rewrite showNotification_decompose. cbn zeta.
  match goal with
  | |- context [Service.visual_channels h data ?i ?was ?s1] =>
      pose proof (visual_channels_state h data i was s1) as Hv;
      destruct (Service.visual_channels h data i was s1) as [[r s'] visual]
  end.
  exact Hv.
Qed.

Lemma set_has_add (x y : string) (l : list string) :
  Service.set_has x (Service.set_add y l) = String.eqb x y || Service.set_has x l.
Proof.
  unfold Service.set_add. destruct (Service.set_has y l) eqn:Hy.
  - destruct (String.eqb_spec x y) as [->|]; [now rewrite Hy|reflexivity].
  - unfold Service.set_has. rewrite existsb_app. cbn.
    rewrite orb_false_r. apply orb_comm.
Qed.

Lemma set_has_delete (x y : string) (l : list string) :
  Service.set_has x (Service.set_delete y l) =
  negb (String.eqb x y) && Service.set_has x l.
Proof.
  unfold Service.set_has, Service.set_delete.
  induction l as [|z l IH]; cbn; [now rewrite andb_false_r|].
  destruct (String.eqb_spec y z) as [->|Hyz]; cbn.
  - rewrite IH. destruct (String.eqb_spec x z); cbn; [reflexivity|].
    reflexivity.
  - rewrite IH. destruct (String.eqb_spec x z) as [->|]; cbn.
    + destruct (String.eqb_spec z y); [congruence|reflexivity].
    + reflexivity.
Qed.

(** X2: whatever the host does, a call of [showNotification] appends
    its data to the list of active notifications, after the entries that
    were there. *)
Theorem showNotification_registers (h : Service.host) (now : N)
  (data : Service.NotificationData) (s : Service.state) :
  Service.activeNotifications
    (Task.state_of (Service.showNotification h now data s)) =
  Service.activeNotifications s ++ [data].
Proof. now rewrite showNotification_state. Qed.

(** X3: after a call of [showNotification] its id is in the failed set
    exactly when the call ended in the failure branch (the bridge did
    not deliver and the permission prompt rejected), and every other id
    is in the set exactly when it was before. *)
Theorem failed_set_after_delivery (h : Service.host) (now : N)
  (data : Service.NotificationData) (s : Service.state) (other : string) :
  let notificationId := Service.generateNotificationId data now in
  let after :=
    Service.failedNotifications
      (Task.state_of (Service.showNotification h now data s)) in
  Service.set_has notificationId after = Service.ends_in_failure h /\
  (other <> notificationId ->
   Service.set_has other after =
   Service.set_has other (Service.failedNotifications s)).
Proof.
  cbn zeta. rewrite showNotification_state. cbn zeta.
  cbn [Service.failedNotifications].
  destruct (Service.ends_in_failure h).
  - destruct (Service.set_has (Service.generateNotificationId data now)
                (Service.failedNotifications s)) eqn:Hwas.
    + split; [exact Hwas|reflexivity].
    + rewrite !set_has_add, String.eqb_refl. split; [reflexivity|].
      intros Hne. apply String.eqb_neq in Hne. now rewrite Hne.
  - rewrite !set_has_delete, String.eqb_refl. split; [reflexivity|].
    intros Hne. apply String.eqb_neq in Hne. now rewrite Hne.
Qed.

Lemma failed_set_after_delivery_witness :
  "other" <> Service.generateNotificationId Samples.data_TM 7 /\
  Service.set_has "other"
    (Service.failedNotifications
       (Task.state_of
          (Service.showNotification Samples.host_prompt_rejects 7
             Samples.data_TM
             {| Service.activeNotifications := [];
                Service.failedNotifications := ["other"] |}))) = true.
Proof.
  assert (Hne : "other" <> Service.generateNotificationId Samples.data_TM 7)
    by discriminate.
  split; [exact Hne|].
  exact (proj2 (failed_set_after_delivery Samples.host_prompt_rejects 7
                  Samples.data_TM
                  {| Service.activeNotifications := [];
                     Service.failedNotifications := ["other"] |} "other") Hne).
Defined.

(** ** Bounds on the sound path *)

Lemma attemptPlay_bounds (h : Service.host) (fuel : nat) :
  forall (retryCount : nat) (played : bool) (t : list Service.effect),
    (retryCount <= Service.MAX_RETRIES)%nat ->
    Service.attemptPlay h fuel retryCount = Some (played, t) ->
    (Service.sound_timers t <= Service.MAX_RETRIES - retryCount)%nat /\
    (Service.play_attempts t <=
       S (Service.MAX_RETRIES - retryCount) +
       (if (retryCount =? 0)%nat then 1 else 0))%nat /\
    (played = false ->
     Service.sound_timers t = (Service.MAX_RETRIES - retryCount)%nat).
Proof.
  induction fuel as [|fuel IH]; intros retryCount played t Hle; [discriminate|].
  cbn [Service.attemptPlay].
  destruct (Nat.ltb_spec retryCount Service.MAX_RETRIES) as [Hlt|Hge].
  - destruct (Service.attemptPlay h fuel (S retryCount)) as [[b' t']|] eqn:E.
    + specialize (IH (S retryCount) b' t' ltac:(lia) E).
      destruct IH as (IHt & IHp & IHf). cbn [Nat.eqb] in IHp.
      unfold Service.MAX_RETRIES in *.
      destruct (retryCount =? 0)%nat;
        repeat case_match; intros ?; simplify_eq;
        unfold Service.sound_timers, Service.play_attempts in *; cbn in *;
        (split; [lia|split; [lia|]]); intros ?; simplify_eq;
        try (specialize (IHf eq_refl)); lia.
    + repeat case_match; intros ?; simplify_eq;
        unfold Service.sound_timers, Service.play_attempts; cbn;
        (split; [lia|split; [lia|]]); intros ?; simplify_eq.
  - assert (retryCount = Service.MAX_RETRIES) as -> by lia.
    unfold Service.MAX_RETRIES.
    repeat case_match; intros ?; simplify_eq;
      unfold Service.sound_timers, Service.play_attempts; cbn;
      (split; [lia|split; [lia|]]); intros ?; simplify_eq; reflexivity.
Qed.

(** X4: the sound path of a delivery sets at most three retry timers
    of 500 ms and starts at most five [play()] calls; it resolves to
    [false] only after all three timers; and when the preloaded element
    plays at once the path is that single call. *)
Theorem sound_path_bounded (h : Service.host) (s : Service.state) :
  (Service.sound_timers (Service.sound_trace h) <= 3)%nat /\
  (Service.play_attempts (Service.sound_trace h) <= 5)%nat /\
  (Task.result_of (Service.playNotificationSound h s) = Task.Returns false ->
   Service.sound_timers (Service.sound_trace h) = 3%nat) /\
  (Service.sound_ready h 0 = true ->
   Service.play h 0 Service.preloaded_clone = Task.Returns true ->
   Service.playNotificationSound h s =
     (Task.Returns true, s, [Service.play_audio Service.preloaded_clone])).
Proof.
  unfold Service.playNotificationSound, Service.sound_trace,
    Service.playNotificationSound_fuel.
  destruct (attemptPlay_runs h (S (S Service.MAX_RETRIES)) 0)
    as (b & t & E & _); [unfold Service.MAX_RETRIES; lia | lia |].
  rewrite E.
  destruct (attemptPlay_bounds h _ 0 b t ltac:(unfold Service.MAX_RETRIES; lia) E)
    as (Ht & Hp & Hf).
  cbn in Ht, Hp, Hf.
  split; [exact Ht|]. split; [exact Hp|]. split.
  - cbn. intros [= ->]. now apply Hf.
  - intros Hready Hplay. revert E.
    change (S (S Service.MAX_RETRIES)) with (S 4).
    cbn [Service.attemptPlay]. rewrite Hready, Hplay. now intros [= <- <-].
Qed.

Lemma sound_path_bounded_witness :
  Task.result_of
    (Service.playNotificationSound Samples.host_bridge_mute
       Samples.service_idle) = Task.Returns false /\
  Service.sound_timers (Service.sound_trace Samples.host_bridge_mute) = 3%nat.
Proof.
  assert (H : Task.result_of
    (Service.playNotificationSound Samples.host_bridge_mute
       Samples.service_idle) = Task.Returns false) by reflexivity.
  split; [exact H|].
  exact (proj1 (proj2 (proj2
    (sound_path_bounded Samples.host_bridge_mute Samples.service_idle))) H).
Defined.

(** ** testNotification *)

(** X5: on every host and in every state [testNotification] resolves
    to [true], and it has registered its fixed test notification as an
    active one. *)
Theorem testNotification_always_true (h : Service.host) (now : N)
  (s : Service.state) :
  let r := Service.testNotification h now s in
  Task.result_of r = Task.Returns true /\
  Service.activeNotifications (Task.state_of r) =
    Service.activeNotifications s ++ [Service.test_data].
Proof.
  cbn zeta.
  pose proof (showNotification_returns h now Service.test_data s) as Hr.
  pose proof (showNotification_state h now Service.test_data s) as Hs.
  cbn zeta in Hs.
  unfold Service.testNotification, Task.try_catch, Task.bind, Task.ret.
  change {| Service.title := "Test Notification";
            Service.message := "Notification system is working";
            Service.icon := None; Service.duration := Some 3000 |}
    with Service.test_data.
  destruct (Service.showNotification h now Service.test_data s) as [[r s'] t].
  cbn in Hr, Hs. subst r s'. split; reflexivity.
Qed.

(** ** retryFailedNotifications *)

Lemma bind_apply {S E A B} (m : Task.M S E A) (k : A -> Task.M S E B) (s : S) :
  Task.bind m k s =
  match m s with
  | (Task.Returns a, s1, t1) =>
      match k a s1 with (r, s2, t2) => (r, s2, t1 ++ t2) end
  | (Task.Throws, s1, t1) => (Task.Throws, s1, t1)
  end.
Proof. reflexivity. Qed.

Lemma try_catch_apply {S E A} (m handler : Task.M S E A) (s : S) :
  Task.try_catch m handler s =
  match m s with
  | (Task.Returns a, s1, t1) => (Task.Returns a, s1, t1)
  | (Task.Throws, s1, t1) =>
      match handler s1 with (r, s2, t2) => (r, s2, t1 ++ t2) end
  end.
Proof. reflexivity. Qed.

Lemma retry_each_cons (h : Service.host) (now : N) (i : string)
  (rest : list string) :
  Service.retry_each h now (i :: rest) =
  Task.bind
    (if Service.retryable i
     then Task.try_catch
            (Service.showNotification h now (Service.redelivered i))
            (Task.ret tt)
     else Task.ret tt)
    (fun _ => Service.retry_each h now rest).
Proof.
  cbn [Service.retry_each]. unfold Service.retryable, Service.redelivered.
  destruct (Service.parse_notification_id i) as [t m]. reflexivity.
Qed.

Lemma retry_each_spec (h : Service.host) (now : N) (failed : list string) :
  forall s : Service.state,
    let r := Service.retry_each h now failed s in
    Task.result_of r = Task.Returns tt /\
    Service.activeNotifications (Task.state_of r) =
      Service.activeNotifications s ++
      map Service.redelivered (List.filter Service.retryable failed) /\
    (Service.ends_in_failure h = false ->
     Service.failedNotifications s = [] ->
     Service.failedNotifications (Task.state_of r) = []).
Proof.
  induction failed as [|i failed IH]; intros s; cbn zeta.
  - cbn. rewrite app_nil_r. auto.
  - rewrite retry_each_cons, bind_apply. cbn [List.filter].
    destruct (Service.retryable i).
    + rewrite try_catch_apply.
      pose proof (showNotification_returns h now (Service.redelivered i) s) as Hr.
      pose proof (showNotification_state h now (Service.redelivered i) s) as Hs.
      cbn zeta in Hs.
      destruct (Service.showNotification h now (Service.redelivered i) s)
        as [[r1 s1] t1].
      cbn in Hr, Hs. subst r1.
      specialize (IH s1). cbn zeta in IH.
      destruct (Service.retry_each h now failed s1) as [[r2 s2] t2].
      cbn in IH |- *. destruct IH as (IHr & IHa & IHf).
      split; [exact IHr|]. split.
      * rewrite IHa, Hs. cbn. now rewrite <- app_assoc.
      * intros Hok Hempty. apply IHf; [exact Hok|].
        rewrite Hs. cbn. now rewrite Hok, Hempty.
    + specialize (IH s). cbn zeta in IH. cbn [Task.ret].
      destruct (Service.retry_each h now failed s) as [[r2 s2] t2].
      exact IH.
Qed.

(** ** The round trip of the retry id *)

Lemma contains_cut (s : string) :
  Js.contains dash s = true ->
  exists a b, s = a +:+ String dash b /\ Js.contains dash a = false.
Proof.
  induction s as [|c s IH]; simpl; [discriminate|].
  destruct (Ascii.eqb c dash) eqn:Hc.
  - intros _. apply Ascii.eqb_eq in Hc. subst c.
    exists EmptyString, s. split; reflexivity.
  - intros Hs. destruct (IH Hs) as (a & b & -> & Ha).
    exists (String c a), b. split; [reflexivity|].
    simpl. now rewrite Hc, Ha.
Qed.

Lemma generateNotificationId_dashed (a b m : string)
  (i : option string) (d : option Z) (now : N) :
  Service.generateNotificationId
    {| Service.title := a +:+ String dash b; Service.message := m;
       Service.icon := i; Service.duration := d |} now =
  Service.generateNotificationId
    {| Service.title := a; Service.message := b +:+ String dash m;
       Service.icon := None; Service.duration := None |} now.
Proof.
  rewrite !generateNotificationId_shape.
  cbn [Service.title Service.message].
  rewrite !string_app_assoc. reflexivity.
Qed.

Lemma append_longer (a b : string) : a <> a +:+ String dash b.
Proof.
  intros E. apply (f_equal String.length) in E.
  rewrite string_app_length in E. cbn [String.length] in E. lia.
Qed.

(** C9 (amended): for a non-empty title without ['-'] and a non-empty
    message, the id made by [generateNotificationId] parses back to
    exactly that title and message, and [retryFailedNotifications]
    delivers them again through [showNotification]: a failed set that
    holds just this id gives that one delivery, from the emptied set,
    and wherever the id stands in a larger failed set its delivery takes
    that place among the deliveries. For every title with a ['-'] the
    reconstruction is wrong: the title is cut at its first dash and the
    rest goes in front of the message. *)
Theorem retry_id_roundtrip (h : Service.host) (data : Service.NotificationData)
  (now now' : N) (s : Service.state) (before rest : list string) :
  Service.title data <> EmptyString ->
  Service.message data <> EmptyString ->
  Js.contains dash (Service.title data) = false ->
  let notificationId := Service.generateNotificationId data now in
  let again :=
    {| Service.title := Service.title data;
       Service.message := Service.message data;
       Service.icon := None; Service.duration := None |} in
  Service.parse_notification_id notificationId =
    (Service.title data, Service.message data) /\
  Service.retry_each h now' (notificationId :: rest) =
    Task.bind
      (Task.try_catch (Service.showNotification h now' again) (Task.ret tt))
      (fun _ => Service.retry_each h now' rest) /\
  (Service.failedNotifications s = [notificationId] ->
   Service.retryFailedNotifications h now' s =
   Service.showNotification h now' again
     {| Service.activeNotifications := Service.activeNotifications s;
        Service.failedNotifications := [] |}) /\
  (Service.failedNotifications s = before ++ notificationId :: rest ->
   Service.activeNotifications
     (Task.state_of (Service.retryFailedNotifications h now' s)) =
   Service.activeNotifications s ++
   map Service.redelivered (List.filter Service.retryable before) ++
   again :: map Service.redelivered (List.filter Service.retryable rest)) /\
  (forall dashed : Service.NotificationData,
     Js.contains dash (Service.title dashed) = true ->
     exists a b,
       Service.title dashed = a +:+ String dash b /\
       Js.contains dash a = false /\
       Service.parse_notification_id
         (Service.generateNotificationId dashed now) =
         (a, b +:+ String dash (Service.message dashed)) /\
       fst (Service.parse_notification_id
              (Service.generateNotificationId dashed now)) <>
         Service.title dashed).
Proof.
  intros Ht Hm Hdash. cbn zeta.
  assert (Hparse := parse_generated data now Hdash).
  assert (Hretryable :
            Service.retryable (Service.generateNotificationId data now) = true).
  { unfold Service.retryable. rewrite Hparse. cbn [fst snd].
    now rewrite (truthy_nonempty _ Ht), (truthy_nonempty _ Hm). }
  assert (Hagain :
            Service.redelivered (Service.generateNotificationId data now) =
            {| Service.title := Service.title data;
               Service.message := Service.message data;
               Service.icon := None; Service.duration := None |}).
  { unfold Service.redelivered. now rewrite Hparse. }
  split; [exact Hparse|]. split; [|split; [|split]].
  - rewrite retry_each_cons, Hretryable, Hagain. reflexivity.
  - intros Hfailed.
    assert (Hsingle : forall s0,
              Service.retry_each h now' [Service.generateNotificationId data now] s0 =
              Service.showNotification h now'
                {| Service.title := Service.title data;
                   Service.message := Service.message data;
                   Service.icon := None; Service.duration := None |} s0).
    { intros s0.
      rewrite retry_each_cons, Hretryable, Hagain, bind_apply, try_catch_apply.
      match goal with
      | |- context [Service.showNotification h now' ?d s0] =>
          pose proof (showNotification_returns h now' d s0) as Hr;
          destruct (Service.showNotification h now' d s0) as [[r s1] t1]
      end.
      cbn in Hr |- *. subst r. now rewrite app_nil_r. }
    unfold Service.retryFailedNotifications, Service.failed_clear,
      Task.bind, Task.get, Task.put.
    rewrite Hfailed, Hsingle.
    destruct (Service.showNotification _ _ _ _) as [[[[]|] s1] t1]; reflexivity.
  - intros Hfailed.
    unfold Service.retryFailedNotifications, Service.failed_clear,
      Task.bind, Task.get, Task.put.
    rewrite Hfailed.
    match goal with
    | |- context [Service.retry_each h now' ?l ?s0] =>
        destruct (retry_each_spec h now' l s0) as (_ & Ha & _);
        cbn zeta in Ha;
        rewrite List.filter_app, map_app in Ha;
        cbn [List.filter] in Ha; rewrite Hretryable in Ha;
        cbn [map] in Ha; rewrite Hagain in Ha;
        destruct (Service.retry_each h now' l s0) as [[r s1] t1]
    end.
    cbn [Task.state_of fst snd Service.activeNotifications] in Ha |- *.
    destruct r; exact Ha.
  - intros dashed Hcut.
    destruct (contains_cut _ Hcut) as (a & b & Etitle & Ha).
    exists a, b. split; [exact Etitle|]. split; [exact Ha|].
    assert (E : Service.parse_notification_id
                  (Service.generateNotificationId dashed now) =
                (a, b +:+ String dash (Service.message dashed))).
    { destruct dashed as [title message icon duration].
      cbn [Service.title Service.message] in Etitle |- *. subst title.
      rewrite generateNotificationId_dashed.
      now rewrite parse_generated by exact Ha. }
    split; [exact E|]. rewrite E, Etitle. apply append_longer.
Qed.

Lemma retry_id_roundtrip_witness :
  Service.title Samples.data_TM <> EmptyString /\
  Service.message Samples.data_TM <> EmptyString /\
  Js.contains dash (Service.title Samples.data_TM) = false /\
  Service.parse_notification_id
    (Service.generateNotificationId Samples.data_TM 5) = ("T", "M").
Proof.
  assert (Ht : Service.title Samples.data_TM <> EmptyString) by discriminate.
  assert (Hm : Service.message Samples.data_TM <> EmptyString) by discriminate.
  assert (Hd : Js.contains dash (Service.title Samples.data_TM) = false)
    by reflexivity.
  split; [exact Ht | split; [exact Hm | split; [exact Hd |]]].
  exact (proj1 (retry_id_roundtrip Samples.host_denied Samples.data_TM
                  5 1005 Samples.service_idle [] [] Ht Hm Hd)).
Defined.

(** X7: [retryFailedNotifications] never raises; it delivers again, in
    the order of the failed set, exactly the ids that parse to a
    non-empty title and message, each with the parsed title and message
    and no icon or duration; and on a host where deliveries do not end
    in the failure branch the failed set is empty afterwards, the ids
    that were skipped included. *)
Theorem retryFailedNotifications_drains (h : Service.host) (now : N)
  (s : Service.state) :
  let r := Service.retryFailedNotifications h now s in
  Task.result_of r = Task.Returns tt /\
  Service.activeNotifications (Task.state_of r) =
    Service.activeNotifications s ++
    map Service.redelivered
      (List.filter Service.retryable (Service.failedNotifications s)) /\
  (Service.ends_in_failure h = false ->
   Service.failedNotifications (Task.state_of r) = []).
Proof.
  cbn zeta.
  unfold Service.retryFailedNotifications, Service.failed_clear,
    Task.bind, Task.get, Task.put.
  pose proof (retry_each_spec h now (Service.failedNotifications s)
                {| Service.activeNotifications := Service.activeNotifications s;
                   Service.failedNotifications := [] |}) as H.
  cbn zeta in H.
  destruct (Service.retry_each h now (Service.failedNotifications s) _)
    as [[r s'] t].
  cbn in H |- *. destruct H as (Hr & Ha & Hf).
  split; [exact Hr|]. split; [exact Ha|]. intros Hok. now apply Hf.
Qed.

Lemma retryFailedNotifications_drains_witness :
  Service.ends_in_failure Samples.host_denied = false /\
  Service.failedNotifications
    (Task.state_of
       (Service.retryFailedNotifications Samples.host_denied 9
          {| Service.activeNotifications := [];
             Service.failedNotifications := ["T-M-5"; "-M-6"; "plain"] |})) = [].
Proof.
  split; [reflexivity|].
  exact (proj2 (proj2 (retryFailedNotifications_drains Samples.host_denied 9
    {| Service.activeNotifications := [];
       Service.failedNotifications := ["T-M-5"; "-M-6"; "plain"] |})) eq_refl).
Defined.

(** ** Preloading the sound *)

(** X8: the chain of load attempts always ends; it sets at most three
    timers, with delays 1000, 2000 and 4000 ms in that order; when
    every attempt ends in an error or a throw the sound is left
    unavailable after all three; when the first element can play
    through, the sound is loaded and no timer is set. *)
Theorem loadSound_bounded (outcome : nat -> Service.load_outcome)
  (v : Service.sound_vars) :
  exists v' delays,
    Service.preloadNotificationAssets outcome v = Some (v', delays) /\
    (exists rest, delays ++ rest = [1000; 2000; 4000]) /\
    ((forall k, (k <= 3)%nat ->
        outcome k = Service.load_error \/ outcome k = Service.load_throws) ->
     v' = {| Service.notificationSoundLoaded := false;
             Service.notificationSound := None |} /\
     delays = [1000; 2000; 4000]) /\
    (outcome 0%nat = Service.can_play_through ->
     v' = {| Service.notificationSoundLoaded := true;
             Service.notificationSound := Some 0%nat |} /\
     delays = []).
Proof.
  unfold Service.preloadNotificationAssets. cbn.
  destruct (outcome 0%nat) eqn:E0; [| | |];
    destruct (outcome 1%nat) eqn:E1;
    destruct (outcome 2%nat) eqn:E2;
    destruct (outcome 3%nat) eqn:E3;
    eexists _, _; (split; [reflexivity|]);
    (split; [eexists; cbn; reflexivity|]);
    (split; [intros Hall|intros ?; simplify_eq; split; reflexivity]);
    try (split; reflexivity);
    first [ destruct (Hall 0%nat ltac:(lia)); congruence
          | destruct (Hall 1%nat ltac:(lia)); congruence
          | destruct (Hall 2%nat ltac:(lia)); congruence
          | destruct (Hall 3%nat ltac:(lia)); congruence ].
Qed.

Lemma loadSound_bounded_witness :
  (forall k, (k <= 3)%nat ->
     (fun _ : nat => Service.load_error) k = Service.load_error \/
     (fun _ : nat => Service.load_error) k = Service.load_throws) /\
  Service.preloadNotificationAssets (fun _ => Service.load_error)
    {| Service.notificationSoundLoaded := false;
       Service.notificationSound := None |} =
  Some ({| Service.notificationSoundLoaded := false;
           Service.notificationSound := None |}, [1000; 2000; 4000]).
Proof.
  assert (Hall : forall k, (k <= 3)%nat ->
     (fun _ : nat => Service.load_error) k = Service.load_error \/
     (fun _ : nat => Service.load_error) k = Service.load_throws)
    by (intros; now left).
  split; [exact Hall|].
  destruct (loadSound_bounded (fun _ => Service.load_error)
              {| Service.notificationSoundLoaded := false;
                 Service.notificationSound := None |})
    as (v' & delays & E & _ & Hfail & _).
  destruct (Hfail Hall) as [-> ->]. exact E.
Defined.

(** * The notification context *)

Lemma filter_index_splice {A} (index : Z) (l : list A) :
  forall i : Z,
    Context.filter_index (fun k => negb (k =? index)) i l =
    if (i <=? index) && (index <? i + Z.of_nat (length l))
    then Service.splice_one (Z.to_nat (index - i)) l
    else l.
Proof.
  induction l as [|x l IH]; intros i.
  - cbn [Context.filter_index]. destruct (_ && _); [|reflexivity].
    unfold Service.splice_one. now rewrite take_nil, drop_nil.
  - cbn [Context.filter_index length]. rewrite IH.
    destruct (Z.eqb_spec i index) as [->|Hne]; cbn [negb].
    + replace (index + 1 <=? index) with false by (symmetry; apply Z.leb_gt; lia).
      cbn [andb]. rewrite Z.leb_refl.
      replace (index <? index + Z.of_nat (S (length l))) with true
        by (symmetry; apply Z.ltb_lt; lia).
      cbn [andb]. rewrite Z.sub_diag. reflexivity.
    + destruct (Z.leb_spec (i + 1) index) as [H1|H1];
        destruct (Z.ltb_spec index (i + 1 + Z.of_nat (length l))) as [H2|H2];
        destruct (Z.leb_spec i index) as [H3|H3];
        destruct (Z.ltb_spec index (i + Z.of_nat (S (length l)))) as [H4|H4];
        cbn [andb]; try lia; try reflexivity.
      unfold Service.splice_one.
      replace (Z.to_nat (index - i)) with (S (Z.to_nat (index - (i + 1))))
        by lia.
      reflexivity.
Qed.

Lemma without_index_spec {A} (index : Z) (l : list A) :
  Context.without_index index l =
  if (0 <=? index) && (index <? Z.of_nat (length l))
  then Service.splice_one (Z.to_nat index) l
  else l.
Proof.
  unfold Context.without_index. rewrite filter_index_splice.
  cbn [Z.add]. now rewrite Z.sub_0_r.
Qed.

Lemma dismissNotification_spec (rendered : list Service.NotificationData)
  (index : Z) (w : Context.world) :
  Context.dismissNotification rendered index w =
  (Task.Returns tt,
   {| Context.notifications := Context.without_index index rendered;
      Context.service :=
        Task.state_of (Service.clearNotification index (Context.service w)) |},
   []).
Proof.
  unfold Context.dismissNotification, Context.setNotifications, Context.lift,
    Service.clearNotification, Task.bind, Task.get, Task.put, Task.ret.
  destruct (_ && _); reflexivity.
Qed.

Lemma clearNotification_state (index : Z) (s : Service.state) :
  Task.state_of (Service.clearNotification index s) =
  {| Service.activeNotifications :=
       Context.without_index index (Service.activeNotifications s);
     Service.failedNotifications := Service.failedNotifications s |}.
Proof.
  rewrite without_index_spec.
  unfold Service.clearNotification, Task.bind, Task.get, Task.put, Task.ret.
  destruct (_ && _); [reflexivity|]. now destruct s.
Qed.

(** X9: when the context list is the dispatcher's list, as it is after
    a poll, [dismissNotification(index)] keeps the two equal: both lose
    the entry at [index], or both stay as they are when [index] is not
    an index of the list. *)
Theorem dismissNotification_keeps_sync (index : Z) (w : Context.world) :
  Context.notifications w = Service.activeNotifications (Context.service w) ->
  let w' := Task.state_of
              (Context.dismissNotification (Context.notifications w) index w) in
  Context.notifications w' = Service.activeNotifications (Context.service w') /\
  Context.notifications w' =
    (if (0 <=? index) && (index <? Z.of_nat (length (Context.notifications w)))
     then Service.splice_one (Z.to_nat index) (Context.notifications w)
     else Context.notifications w) /\
  Service.failedNotifications (Context.service w') =
    Service.failedNotifications (Context.service w).
Proof.
  intros Hsync. cbn zeta. rewrite dismissNotification_spec.
  cbn [Task.state_of fst snd Context.notifications Context.service].
  rewrite clearNotification_state. cbn [Service.activeNotifications
    Service.failedNotifications].
  rewrite <- Hsync, without_index_spec. auto.
Qed.

Lemma dismissNotification_keeps_sync_witness :
  let w := {| Context.notifications := [Samples.data_TM; Samples.data_dashed];
              Context.service :=
                {| Service.activeNotifications :=
                     [Samples.data_TM; Samples.data_dashed];
                   Service.failedNotifications := [] |} |} in
  Context.notifications w = Service.activeNotifications (Context.service w) /\
  Context.notifications
    (Task.state_of
       (Context.dismissNotification (Context.notifications w) 0 w)) =
  [Samples.data_dashed].
Proof.
  cbn zeta. split; [reflexivity|].
  exact (proj1 (proj2 (dismissNotification_keeps_sync 0
    {| Context.notifications := [Samples.data_TM; Samples.data_dashed];
       Context.service :=
         {| Service.activeNotifications :=
              [Samples.data_TM; Samples.data_dashed];
            Service.failedNotifications := [] |} |} eq_refl))).
Defined.

Lemma poll_spec (w : Context.world) :
  Context.poll w =
  (Task.Returns tt,
   {| Context.notifications := Service.activeNotifications (Context.service w);
      Context.service := Context.service w |}, []).
Proof.
  unfold Context.poll, Context.setNotifications, Context.lift,
    Service.getActiveNotifications, Task.bind, Task.get, Task.put, Task.ret.
  cbn. case_bool_decide as E; cbn; [|reflexivity].
  rewrite E. now destruct w.
Qed.

(** X10: a poll makes the context list equal to the dispatcher's list
    and changes nothing else; [dismissAllNotifications] empties the
    context list only, so the next poll brings every notification
    back. *)
Theorem dismissAll_undone_by_poll (w : Context.world) :
  let cleared := Task.state_of (Context.dismissAllNotifications w) in
  let polled := Task.state_of (Context.poll cleared) in
  Context.notifications cleared = [] /\
  Context.service cleared = Context.service w /\
  Context.notifications polled =
    Service.activeNotifications (Context.service w) /\
  Context.service polled = Context.service w.
Proof. cbn zeta. rewrite poll_spec. repeat split. Qed.

(** ** The bell *)

Lemma forEach_dismiss_out_of_range (rendered rem : list Service.NotificationData) :
  forall (i : Z) (w : Context.world),
    Z.of_nat (length (Service.activeNotifications (Context.service w))) <= i ->
    Context.service
      (Task.state_of
         (Context.forEach_from
            (fun _ index => Context.dismissNotification rendered index) i rem w)) =
    Context.service w.
Proof.
  induction rem as [|x rem IH]; intros i w Hi; [reflexivity|].
  cbn [Context.forEach_from]. rewrite bind_apply, dismissNotification_spec.
  set (w1 := {| Context.notifications := _; Context.service := _ |}).
  assert (Hsvc : Context.service w1 = Context.service w).
  { subst w1. cbn [Context.service]. rewrite clearNotification_state, without_index_spec.
    replace (i <? _) with false by (symmetry; apply Z.ltb_ge; lia).
    rewrite andb_false_r. now destruct (Context.service w). }
  specialize (IH (i + 1) w1). rewrite Hsvc in IH.
  destruct (Context.forEach_from _ (i + 1) rem w1) as [[r w2] t].
  cbn in IH |- *. apply IH. lia.
Qed.

Lemma forEach_dismiss_service (rendered rem : list Service.NotificationData) :
  forall (kept rest : list Service.NotificationData) (w : Context.world),
    Service.activeNotifications (Context.service w) = kept ++ rest ->
    (length rest <= length rem)%nat ->
    let w' := Task.state_of
                (Context.forEach_from
                   (fun _ index => Context.dismissNotification rendered index)
                   (Z.of_nat (length kept)) rem w) in
    Service.activeNotifications (Context.service w') =
      kept ++ Context.every_other rest /\
    Service.failedNotifications (Context.service w') =
      Service.failedNotifications (Context.service w).
Proof.
  induction rem as [|x rem IH]; intros kept rest w Hactive Hlen; cbn zeta.
  - destruct rest; [|cbn in Hlen; lia]. cbn. now rewrite Hactive.
  - destruct rest as [|a [|b rest]].
    + rewrite forEach_dismiss_out_of_range
        by (rewrite Hactive, app_nil_r; lia).
      now rewrite Hactive.
    + cbn [Context.forEach_from]. rewrite bind_apply, dismissNotification_spec.
      set (w1 := {| Context.notifications := _; Context.service := _ |}).
      assert (Hsvc : Context.service w1 =
                {| Service.activeNotifications := kept;
                   Service.failedNotifications :=
                     Service.failedNotifications (Context.service w) |}).
      { subst w1. cbn [Context.service]. rewrite clearNotification_state, without_index_spec.
        rewrite Hactive, length_app. cbn [length].
        replace (0 <=? _) with true by (symmetry; apply Z.leb_le; lia).
        replace (Z.of_nat (length kept) <? _) with true
          by (symmetry; apply Z.ltb_lt; lia).
        cbn [andb]. unfold Service.splice_one.
        rewrite Nat2Z.id, take_app_length.
        change (kept ++ [a]) with (kept ++ [a] ++ []).
        rewrite app_assoc.
        replace (S (length kept)) with (length (kept ++ [a]))
          by (rewrite length_app; cbn; lia).
        now rewrite drop_app_length, app_nil_r. }
      pose proof (forEach_dismiss_out_of_range rendered rem
                    (Z.of_nat (length kept) + 1) w1) as Hrest.
      rewrite Hsvc in Hrest. cbn in Hrest.
      destruct (Context.forEach_from _ _ rem w1) as [[r w2] t].
      cbn in Hrest |- *. rewrite Hrest by lia. cbn. now rewrite app_nil_r.
    + cbn [Context.forEach_from]. rewrite bind_apply, dismissNotification_spec.
      set (w1 := {| Context.notifications := _; Context.service := _ |}).
      assert (Hsvc : Context.service w1 =
                {| Service.activeNotifications := (kept ++ [b]) ++ rest;
                   Service.failedNotifications :=
                     Service.failedNotifications (Context.service w) |}).
      { subst w1. cbn [Context.service]. rewrite clearNotification_state, without_index_spec.
        rewrite Hactive, length_app. cbn [length].
        replace (0 <=? _) with true by (symmetry; apply Z.leb_le; lia).
        replace (Z.of_nat (length kept) <? _) with true
          by (symmetry; apply Z.ltb_lt; lia).
        cbn [andb]. unfold Service.splice_one.
        rewrite Nat2Z.id, take_app_length.
        change (kept ++ a :: b :: rest) with (kept ++ [a] ++ b :: rest).
        rewrite (app_assoc kept [a]).
        replace (S (length kept)) with (length (kept ++ [a]))
          by (rewrite length_app; cbn; lia).
        now rewrite drop_app_length, <- app_assoc. }
      specialize (IH (kept ++ [b]) rest w1).
      rewrite Hsvc in IH. cbn zeta in IH.
      replace (Z.of_nat (length (kept ++ [b])))
        with (Z.of_nat (length kept) + 1) in IH
        by (rewrite length_app; cbn; lia).
      destruct (Context.forEach_from _ _ rem w1) as [[r w2] t].
      cbn in IH |- *. destruct IH as [IHa IHf];
        [reflexivity | cbn in Hlen; lia |].
      rewrite IHa, IHf, <- app_assoc. auto.
Qed.

Lemma forEach_dismiss_context (rendered rem : list Service.NotificationData)
  (x : Service.NotificationData) :
  forall (i : Z) (w : Context.world),
    Context.notifications
      (Task.state_of
         (Context.forEach_from
            (fun _ index => Context.dismissNotification rendered index)
            i (x :: rem) w)) =
    Context.without_index (i + Z.of_nat (length rem)) rendered.
Proof.
  revert x. induction rem as [|y rem IH]; intros x i w.
  - cbn [Context.forEach_from]. rewrite bind_apply, dismissNotification_spec.
    cbn. now rewrite Z.add_0_r.
  - cbn [Context.forEach_from] in *. rewrite bind_apply, dismissNotification_spec.
    set (w1 := {| Context.notifications := _; Context.service := _ |}).
    specialize (IH y (i + 1) w1).
    destruct (Task.bind _ _ w1) as [[r w2] t].
    cbn in IH |- *. rewrite IH. f_equal. cbn [length]. lia.
Qed.

Lemma every_other_length {A} (l : list A) :
  length (Context.every_other l) = Nat.div2 (length l).
Proof.
  enough (H : length (Context.every_other l) = Nat.div2 (length l) /\
              forall a, length (Context.every_other (a :: l)) =
                        Nat.div2 (S (length l))) by apply H.
  induction l as [|b l [IH1 IH2]]; [split; reflexivity|].
  split; [apply IH2|].
  intros a. cbn [Context.every_other length Nat.div2]. now rewrite IH1.
Qed.

(** X11: [markAllAsRead] of the bell dismisses the indices 0, 1, 2, ...
    one after the other, while every removal moves the later entries of
    the dispatcher's list down: of a list that the context mirrors, the
    dispatcher keeps the entries at the odd positions, half of them;
    the context list is the rendered one without its last entry, and
    after the next poll it is the half that the dispatcher kept. *)
Theorem bell_markAllAsRead_keeps_half (w : Context.world) :
  Context.notifications w = Service.activeNotifications (Context.service w) ->
  let l := Context.notifications w in
  let w' := Task.state_of (Context.markAllAsRead l w) in
  Service.activeNotifications (Context.service w') = Context.every_other l /\
  length (Context.every_other l) = Nat.div2 (length l) /\
  Service.failedNotifications (Context.service w') =
    Service.failedNotifications (Context.service w) /\
  Context.notifications w' =
    Context.without_index (Z.of_nat (length l) - 1) l /\
  Context.notifications (Task.state_of (Context.poll w')) =
    Context.every_other l.
Proof.
  intros Hsync. cbn zeta. unfold Context.markAllAsRead.
  destruct (forEach_dismiss_service (Context.notifications w)
              (Context.notifications w) [] (Context.notifications w) w)
    as [Ha Hf]; [now rewrite <- Hsync | lia |].
  cbn [length Z.of_nat app] in Ha, Hf.
  split; [exact Ha|]. split; [apply every_other_length|].
  split; [exact Hf|]. split.
  - destruct (Context.notifications w) as [|x rem] eqn:El; [cbn; exact El|].
    rewrite forEach_dismiss_context. f_equal. cbn [length]. lia.
  - rewrite poll_spec. cbn. exact Ha.
Qed.

Lemma bell_markAllAsRead_keeps_half_witness :
  let l := [Samples.data_TM; Samples.data_untitled; Samples.data_dashed;
            Service.test_data] in
  let w := {| Context.notifications := l;
              Context.service :=
                {| Service.activeNotifications := l;
                   Service.failedNotifications := [] |} |} in
  Context.notifications w = Service.activeNotifications (Context.service w) /\
  Service.activeNotifications
    (Context.service (Task.state_of (Context.markAllAsRead l w))) =
  [Samples.data_untitled; Service.test_data].
Proof.
  cbn zeta. split; [reflexivity|].
  exact (proj1 (bell_markAllAsRead_keeps_half
    {| Context.notifications :=
         [Samples.data_TM; Samples.data_untitled; Samples.data_dashed;
          Service.test_data];
       Context.service :=
         {| Service.activeNotifications :=
              [Samples.data_TM; Samples.data_untitled; Samples.data_dashed;
               Service.test_data];
            Service.failedNotifications := [] |} |} eq_refl)).
Defined.

(** * Further properties of the hook *)

(** ** The health check *)

Lemma testNotification_spec (h : Service.host) (now : N) (s : Service.state) :
  Service.testNotification h now s =
  (Task.Returns true,
   Task.state_of (Service.showNotification h now Service.test_data s),
   Task.trace_of (Service.showNotification h now Service.test_data s)).
Proof.
  pose proof (showNotification_returns h now Service.test_data s) as Hr.
  unfold Service.testNotification.
  rewrite try_catch_apply, bind_apply.
  change {| Service.title := "Test Notification";
            Service.message := "Notification system is working";
            Service.icon := None; Service.duration := Some 3000 |}
    with Service.test_data.
  destruct (Service.showNotification h now Service.test_data s) as [[r s'] t].
  cbn in Hr. subst r. cbn. now rewrite app_nil_r.
Qed.

Lemma scheduled_delays_dispatcher (t : list Service.effect) :
  Hook.scheduled_delays (map Hook.dispatcher t) = [].
Proof. induction t as [|e t IH]; [reflexivity|exact IH]. Qed.

(** X6: the periodic health check never calls [setupListener]: it
    leaves the hook as it is, subscribes to nothing and schedules no
    reconnect, because the self-test it relies on always reports
    success; each tick does register the test notification with the
    dispatcher and starts its sound. *)
Theorem health_check_never_reconnects (h : Service.host) (now : N)
  (sub : Hook.subscription) (w : Hook.world) :
  let r := Hook.health_check h now sub w in
  Task.result_of r = Task.Returns tt /\
  Hook.hook (Task.state_of r) = Hook.hook w /\
  Service.activeNotifications (Hook.service (Task.state_of r)) =
    Service.activeNotifications (Hook.service w) ++ [Service.test_data] /\
  Forall (fun e => exists d, e = Hook.dispatcher d) (Task.trace_of r) /\
  Hook.scheduled_delays (Task.trace_of r) = [] /\
  exists a rest,
    Task.trace_of r = Hook.dispatcher (Service.play_audio a) :: rest.
Proof.
  cbn zeta. unfold Hook.health_check.
  rewrite try_catch_apply, bind_apply. unfold Hook.lift.
  rewrite testNotification_spec.
  pose proof (showNotification_state h now Service.test_data (Hook.service w))
    as Hs. cbn zeta in Hs.
  pose proof (showNotification_decompose h now Service.test_data
                (Hook.service w)) as Hd. cbn zeta in Hd.
  destruct (Service.showNotification h now Service.test_data (Hook.service w))
    as [[r s'] t].
  cbn in Hs |- *. rewrite app_nil_r.
  split; [reflexivity|]. split; [reflexivity|].
  split; [now rewrite Hs|].
  split; [apply List.Forall_forall; intros e He;
          apply in_map_iff in He as (d & <- & _); eauto|].
  split.
  - apply scheduled_delays_dispatcher.
  - destruct (Service.visual_channels _ _ _ _ _) as [[r0 s0] visual].
    injection Hd as _ _ ->.
    destruct (sound_trace_shape h) as [_ (a & rest & ->)].
    cbn. eauto.
Qed.

(** ** The buffer while the surface is visible *)




(** ** A held handle that throws *)

Lemma setupListener_unsubscribe_throws (sub : Hook.subscription)
  (held : nat) (w : Hook.world) :
  Hook.unsubscribe sub = Task.Throws ->
  Hook.unsubscribeRef (Hook.hook w) = Some held ->
  let count := Hook.reconnectCount (Hook.hook w) in
  Hook.setupListener sub w =
  (Task.Returns tt,
   {| Hook.hook :=
        Hook.set_retryTimeoutRef (Some (Hook.next_delay count))
          (Hook.set_reconnectCount (Hook.next_count count) (Hook.hook w));
      Hook.service := Hook.service w |},
   [Hook.unsubscribe_call held; Hook.schedule_reconnect (Hook.next_delay count)]).
Proof.
  intros Hthrows Hheld. cbn zeta. destruct sub as [om us]. cbn in Hthrows. subst us.
  unfold Hook.setupListener, Hook.setupMessageListener, Hook.modify,
    Hook.get_hook, Hook.put_hook, Hook.next_delay, Hook.next_count,
    Task.bind, Task.try_catch, Task.call, Task.emit, Task.throw,
    Task.get, Task.put, Task.ret.
  cbn [Hook.hook Hook.service Hook.onMessage Hook.unsubscribe].
  rewrite Hheld. cbn [Hook.hook Hook.service Hook.reconnectCount].
  destruct (Hook.reconnectCount (Hook.hook w) <? 5); reflexivity.
Qed.

(** X15: while the handle held in [unsubscribeRef] throws when it is
    called, no setup subscribes again: each attempt calls the handle,
    fails, keeps the handle and only schedules the next retry, with the
    delays of the backoff. *)
Theorem throwing_handle_blocks_resubscription (subs : list Hook.subscription)
  (held : nat) (w : Hook.world) :
  Forall (fun sub => Hook.unsubscribe sub = Task.Throws) subs ->
  Hook.unsubscribeRef (Hook.hook w) = Some held ->
  let r := Hook.run (map Hook.ev_setup subs) w in
  Hook.unsubscribeRef (Hook.hook (Task.state_of r)) = Some held /\
  Forall (fun e => e <> Hook.subscribe_call) (Task.trace_of r) /\
  Hook.scheduled_delays (Task.trace_of r) =
    Hook.backoff_delays (Hook.reconnectCount (Hook.hook w)) (length subs).
Proof.
  intros Hsubs. revert w. cbn zeta.
  induction Hsubs as [|sub subs Hsub _ IH]; intros w Hheld.
  - cbn. auto.
  - cbn [map length Hook.backoff_delays].
    rewrite run_cons_state, run_cons_trace, scheduled_delays_app.
    cbn [Hook.handle_event].
    rewrite (setupListener_unsubscribe_throws sub held w Hsub Hheld).
    cbn [Task.state_of Task.trace_of fst snd].
    destruct (IH {| Hook.hook :=
                      Hook.set_retryTimeoutRef
                        (Some (Hook.next_delay (Hook.reconnectCount (Hook.hook w))))
                        (Hook.set_reconnectCount
                           (Hook.next_count (Hook.reconnectCount (Hook.hook w)))
                           (Hook.hook w));
                    Hook.service := Hook.service w |})
      as (IHref & IHtrace & IHdelays); [exact Hheld|].
    cbn [Hook.hook Hook.reconnectCount Hook.set_retryTimeoutRef
         Hook.set_reconnectCount] in IHdelays.
    split; [exact IHref|]. split.
    + apply Forall_app. split; [|exact IHtrace].
      repeat constructor; discriminate.
    + rewrite IHdelays. reflexivity.
Qed.

Lemma throwing_handle_blocks_resubscription_witness :
  let sub := {| Hook.onMessage := Task.Returns (Some 8%nat);
                Hook.unsubscribe := Task.Throws |} in
  let w := {| Hook.hook := Hook.set_unsubscribeRef (Some 7%nat)
                             (Hook.mounted [] true);
              Hook.service := Samples.service_idle |} in
  Hook.unsubscribe sub = Task.Throws /\
  Hook.unsubscribeRef (Hook.hook w) = Some 7%nat /\
  Hook.scheduled_delays
    (Task.trace_of (Hook.run (map Hook.ev_setup [sub; sub]) w)) = [1000; 2000].
Proof.
  cbn zeta. split; [reflexivity|]. split; [reflexivity|].
  refine (proj2 (proj2 (throwing_handle_blocks_resubscription
    [{| Hook.onMessage := Task.Returns (Some 8%nat);
        Hook.unsubscribe := Task.Throws |};
     {| Hook.onMessage := Task.Returns (Some 8%nat);
        Hook.unsubscribe := Task.Throws |}] 7%nat
    {| Hook.hook := Hook.set_unsubscribeRef (Some 7%nat) (Hook.mounted [] true);
       Hook.service := Samples.service_idle |} _ eq_refl))).
  repeat constructor.
Defined.

(** ** The store without duplicates *)

Lemma kind_eqb_eq (a b : option Hook.kind) : Hook.kind_eqb a b = true <-> a = b.
Proof. destruct a as [[]|], b as [[]|]; cbn; split; congruence. Qed.

Lemma add_updater_no_duplicate (n : Hook.Notification)
  (l : list Hook.Notification) :
  Hook.no_duplicate_behind l = true ->
  Hook.no_duplicate_behind (Hook.add_updater n l) = true.
Proof.
  intros Hl. unfold Hook.add_updater.
  destruct (existsb (Hook.duplicates n) l) eqn:E; [exact Hl|].
  cbn [Hook.no_duplicate_behind]. now rewrite E, Hl.
Qed.

Lemma no_duplicate_map (f : Hook.Notification -> Hook.Notification)
  (l : list Hook.Notification) :
  (forall a b, Hook.duplicates (f a) (f b) = Hook.duplicates a b) ->
  Hook.no_duplicate_behind (map f l) = Hook.no_duplicate_behind l.
Proof.
  intros Hf. induction l as [|n l IH]; [reflexivity|].
  cbn [map Hook.no_duplicate_behind]. rewrite IH. f_equal. f_equal.
  clear IH. induction l as [|o l IH]; [reflexivity|].
  cbn [map existsb]. now rewrite Hf, IH.
Qed.

Lemma existsb_filter_false {A} (p q : A -> bool) (l : list A) :
  existsb p l = false -> existsb p (List.filter q l) = false.
Proof.
  induction l as [|x l IH]; [reflexivity|]. cbn [existsb List.filter].
  intros H. apply orb_false_iff in H as [Hx Hl].
  destruct (q x); cbn [existsb]; [rewrite Hx|]; now apply IH.
Qed.

Lemma no_duplicate_filter (q : Hook.Notification -> bool)
  (l : list Hook.Notification) :
  Hook.no_duplicate_behind l = true ->
  Hook.no_duplicate_behind (List.filter q l) = true.
Proof.
  induction l as [|n l IH]; [reflexivity|].
  cbn [Hook.no_duplicate_behind List.filter].
  intros H. apply andb_true_iff in H as [Hn Hl].
  destruct (q n); [|now apply IH].
  cbn [Hook.no_duplicate_behind]. rewrite (IH Hl), andb_true_r.
  apply negb_true_iff in Hn. now rewrite existsb_filter_false.
Qed.

Lemma handle_event_no_duplicate (e : Hook.event) (w : Hook.world) :
  Hook.never_hidden [e] = true ->
  Hook.isAppVisible (Hook.hook w) = true ->
  Hook.no_duplicate_behind (Hook.notifications (Hook.hook w)) = true ->
  let w' := Task.state_of (Hook.handle_event e w) in
  Hook.isAppVisible (Hook.hook w') = true /\
  Hook.no_duplicate_behind (Hook.notifications (Hook.hook w')) = true.
Proof.
  intros Hshown Hvis Hok. cbn zeta.
  destruct e as [sub|h now rnd m|h now react v|h now rnd n|i| |i| |b];
    cbn [Hook.handle_event].
  - destruct (setupListener_spec sub w)
      as (s' & t & -> & Hn & _ & Hv & _).
    cbn. now rewrite Hn, Hv.
  - rewrite on_message_hook. cbn zeta. rewrite Hvis.
    case_bool_decide; [now split|]. cbn. split; [exact Hvis|].
    now apply add_updater_no_duplicate.
  - destruct v; [|discriminate Hshown].
    rewrite handleVisibilityChange_hook. cbn zeta. rewrite Hvis. cbn. now split.
  - rewrite bind_apply, addNotification_spec. cbn zeta.
    destruct (Hook.playSound (Hook.hook w)); cbn;
      (split; [exact Hvis|now apply add_updater_no_duplicate]).
  - cbn. split; [exact Hvis|].
    rewrite no_duplicate_map; [exact Hok|].
    intros a b. unfold Hook.duplicates.
    destruct (String.eqb (Hook.id a) i), (String.eqb (Hook.id b) i); reflexivity.
  - cbn. split; [exact Hvis|].
    rewrite no_duplicate_map; [exact Hok|]. reflexivity.
  - cbn. split; [exact Hvis|]. now apply no_duplicate_filter.
  - cbn. now split.
  - cbn. now split.
Qed.

Lemma no_duplicate_lookup (l : list Hook.Notification) :
  Hook.no_duplicate_behind l = true ->
  forall (i j : nat) (a b : Hook.Notification),
    (i < j)%nat -> l !! i = Some a -> l !! j = Some b ->
    Hook.duplicates a b = false.
Proof.
  induction l as [|n l IH]; intros Hok i j a b Hij Ha Hb; [discriminate|].
  cbn [Hook.no_duplicate_behind] in Hok.
  apply andb_true_iff in Hok as [Hn Hl]. apply negb_true_iff in Hn.
  destruct j as [|j]; [lia|]. cbn in Hb.
  destruct i as [|i]; cbn in Ha.
  - injection Ha as ->.
    destruct (Hook.duplicates a b) eqn:E; [|reflexivity].
    assert (existsb (Hook.duplicates a) l = true); [|congruence].
    apply existsb_exists. exists b. split; [|exact E].
    apply list_elem_of_In. now apply list_elem_of_lookup_2 in Hb.
  - apply (IH Hl i j); [lia|assumption|assumption].
Qed.

(** X12: as long as the surface is never reported hidden, the store of
    a mounted hook never holds a record that [addNotification] would
    count as a duplicate of a record behind it: of two records with the
    same message and kind, the one nearer the front has another id and
    a timestamp at least 5000 ms after the other's. This holds for every
    run of events, given that it holds of the store read at mount. *)
Theorem store_without_duplicates (stored : list Hook.Notification)
  (sound : bool) (svc : Service.state) (es : list Hook.event) :
  Hook.never_hidden es = true ->
  Hook.no_duplicate_behind stored = true ->
  let store :=
    Hook.notifications
      (Hook.hook (Task.state_of
         (Hook.run es {| Hook.hook := Hook.mounted stored sound;
                         Hook.service := svc |}))) in
  Hook.no_duplicate_behind store = true /\
  forall (i j : nat) (a b : Hook.Notification),
    (i < j)%nat -> store !! i = Some a -> store !! j = Some b ->
    Hook.message a = Hook.message b -> Hook.type a = Hook.type b ->
    Hook.id a <> Hook.id b /\ Hook.timestamp b <= Hook.timestamp a - 5000.
Proof.
  intros Hshown Hstored. cbn zeta.
  assert (Hrun : forall es w,
    Hook.never_hidden es = true ->
    Hook.isAppVisible (Hook.hook w) = true ->
    Hook.no_duplicate_behind (Hook.notifications (Hook.hook w)) = true ->
    Hook.no_duplicate_behind
      (Hook.notifications (Hook.hook (Task.state_of (Hook.run es w)))) = true).
  { clear. induction es as [|e es IH]; intros w Hshown Hvis Hok; [exact Hok|].
    rewrite run_cons_state.
    cbn [Hook.never_hidden forallb] in Hshown.
    apply andb_true_iff in Hshown as [He Hes].
    destruct (handle_event_no_duplicate e w) as [Hvis' Hok'];
      [cbn [Hook.never_hidden forallb]; now rewrite He | exact Hvis | exact Hok |].
    now apply IH. }
  assert (Hok := Hrun es {| Hook.hook := Hook.mounted stored sound;
                            Hook.service := svc |} Hshown eq_refl Hstored).
  split; [exact Hok|].
  intros i j a b Hij Ha Hb Hm Ht.
  pose proof (no_duplicate_lookup _ Hok i j a b Hij Ha Hb) as Hdup.
  unfold Hook.duplicates in Hdup.
  rewrite Hm, String.eqb_refl, Ht in Hdup.
  rewrite (proj2 (kind_eqb_eq _ _) eq_refl) in Hdup. cbn [andb] in Hdup.
  apply orb_false_iff in Hdup as [Hts Hid].
  apply Z.ltb_ge in Hts. apply String.eqb_neq in Hid. split; [congruence|lia].
Qed.

Lemma store_without_duplicates_witness :
  let es := [Hook.ev_message Samples.host_denied 1000 "aaaaaa" Samples.hello;
             Hook.ev_message Samples.host_denied 1050 "bbbbbb" Samples.hello;
             Hook.ev_message Samples.host_denied 7000 "cccccc" Samples.hello] in
  Hook.never_hidden es = true /\
  Hook.no_duplicate_behind [] = true /\
  Hook.no_duplicate_behind
    (Hook.notifications
       (Hook.hook (Task.state_of
          (Hook.run es {| Hook.hook := Hook.mounted [] true;
                          Hook.service := Samples.service_idle |})))) = true.
Proof.
  cbn zeta. split; [reflexivity|]. split; [reflexivity|].
  exact (proj1 (store_without_duplicates [] true Samples.service_idle
    [Hook.ev_message Samples.host_denied 1000 "aaaaaa" Samples.hello;
     Hook.ev_message Samples.host_denied 1050 "bbbbbb" Samples.hello;
     Hook.ev_message Samples.host_denied 7000 "cccccc" Samples.hello]
    eq_refl eq_refl)).
Defined.

(** ** The manual test of the hook *)

(** X16: [testNotificationSystem] returns the id [test_] followed by
    the clock reading, whether or not its record is stored; when a first
    test has stored its record, a second test less than 5000 ms later
    adds nothing to the store and still returns its own id. *)
Theorem manual_test_repeated (h1 h2 : Service.host) (t1 t2 : N)
  (rnd1 rnd2 : string) (w : Hook.world) :
  let first := Hook.testNotificationSystem h1 t1 rnd1 w in
  let second := Hook.testNotificationSystem h2 t2 rnd2 (Task.state_of first) in
  Task.result_of first = Task.Returns ("test_" +:+ Js.of_N t1) /\
  Task.result_of second = Task.Returns ("test_" +:+ Js.of_N t2) /\
  ((t2 < t1 + 5000)%N ->
   Hook.notifications (Hook.hook (Task.state_of first)) =
     Hook.make_notification t1 rnd1 (Hook.test_input t1) ::
     Hook.notifications (Hook.hook w) ->
   Hook.notifications (Hook.hook (Task.state_of second)) =
     Hook.notifications (Hook.hook (Task.state_of first))).
Proof.
  cbn zeta.
  assert (Hres : forall h t rnd w0,
            Task.result_of (Hook.testNotificationSystem h t rnd w0) =
            Task.Returns ("test_" +:+ Js.of_N t)).
  { intros h t rnd w0. unfold Hook.testNotificationSystem.
    rewrite bind_apply, addNotification_spec. cbn zeta.
    destruct (Hook.playSound (Hook.hook w0)); reflexivity. }
  assert (Hstate : forall h t rnd w0,
            Hook.notifications
              (Hook.hook (Task.state_of (Hook.testNotificationSystem h t rnd w0))) =
            Hook.add_updater (Hook.make_notification t rnd (Hook.test_input t))
              (Hook.notifications (Hook.hook w0))).
  { intros h t rnd w0. unfold Hook.testNotificationSystem.
    rewrite bind_apply, addNotification_spec. cbn zeta.
    destruct (Hook.playSound (Hook.hook w0)); reflexivity. }
  split; [apply Hres|]. split; [apply Hres|].
  intros Hlt Hstored. rewrite (Hstate h2). unfold Hook.add_updater at 1.
  rewrite Hstored at 1. cbn [existsb].
  replace (Hook.duplicates
             (Hook.make_notification t2 rnd2 (Hook.test_input t2))
             (Hook.make_notification t1 rnd1 (Hook.test_input t1))) with true;
    [reflexivity|].
  symmetry.
  unfold Hook.duplicates, Hook.make_notification, Hook.test_input.
  cbn [Hook.message Hook.type Hook.timestamp Hook.id Hook.in_message
       Hook.in_type Hook.in_timestamp Hook.in_id Hook.kind_eqb].
  rewrite String.eqb_refl. cbn [andb].
  apply orb_true_iff. left.
  destruct (Z.of_N t1 =? 0), (Z.of_N t2 =? 0); apply Z.ltb_lt; lia.
Qed.

Lemma manual_test_repeated_witness :
  (1200 < 1000 + 5000)%N /\
  Hook.notifications
    (Hook.hook (Task.state_of
       (Hook.testNotificationSystem Samples.host_denied 1200 "bbbbbb"
          (Task.state_of
             (Hook.testNotificationSystem Samples.host_denied 1000 "aaaaaa"
                Samples.fresh_world))))) =
  Hook.notifications
    (Hook.hook (Task.state_of
       (Hook.testNotificationSystem Samples.host_denied 1000 "aaaaaa"
          Samples.fresh_world))).
Proof.
  assert (Hlt : (1200 < 1000 + 5000)%N) by reflexivity.
  split; [exact Hlt|].
  refine (proj2 (proj2 (manual_test_repeated Samples.host_denied
    Samples.host_denied 1000 1200 "aaaaaa" "bbbbbb" Samples.fresh_world))
    Hlt _).
  vm_compute. reflexivity.
Defined.

(** ** The sweep of the processed ids *)

Lemma prefix_empty (s : string) : String.prefix EmptyString s = true.
Proof. now destruct s. Qed.

Lemma prefix_app_self (s d : string) : String.prefix s (s +:+ d) = true.
Proof.
  induction s as [|c s IH]; simpl; [apply prefix_empty|].
  destruct (ascii_dec c c); [exact IH|congruence].
Qed.

Lemma prefix_of_long (sep : string) :
  forall a b : string,
    (String.length sep <= String.length a)%nat ->
    String.prefix sep (a +:+ b) = String.prefix sep a.
Proof.
  induction sep as [|c sep IH]; intros a b Hlen.
  - now rewrite !prefix_empty.
  - destruct a as [|x a]; [simpl in Hlen; lia|]. simpl.
    destruct (ascii_dec c x); [|reflexivity]. apply IH. simpl in Hlen. lia.
Qed.

Lemma split_from_digits (u : Decimal.uint) :
  Js.split_from Hook.time_marker 0 (NilEmpty.string_of_uint u) =
  [NilEmpty.string_of_uint u].
Proof. induction u; cbn in *; [reflexivity|now rewrite IHu..]. Qed.

Lemma of_N_digits (n : N) : Js.of_N n = NilEmpty.string_of_uint (N.to_uint n).
Proof.
  unfold Js.of_N, NilZero.string_of_uint.
  pose proof (to_uint_not_nil n). now destruct (N.to_uint n).
Qed.

Lemma prefix_before_marker (c : ascii) (stem d : string) :
  String.prefix Hook.time_marker (String c (stem +:+ Hook.time_marker +:+ d)) =
  String.prefix Hook.time_marker (String c (stem +:+ "-time")).
Proof.
  assert (E : String c (stem +:+ Hook.time_marker +:+ d) =
              String c (stem +:+ "-time") +:+ ("-" +:+ d)).
  { change (String c (stem +:+ Hook.time_marker +:+ d) =
            String c ((stem +:+ "-time") +:+ ("-" +:+ d))).
    now rewrite (string_app_assoc stem "-time" ("-" +:+ d)). }
  rewrite E. apply prefix_of_long.
  simpl. rewrite string_app_length. simpl. lia.
Qed.

Lemma split_at_marker (stem : string) (n : N) :
  Js.includes Hook.time_marker (stem +:+ "-time") = false ->
  Js.split_by Hook.time_marker (stem +:+ Hook.time_marker +:+ Js.of_N n) =
  [stem; Js.of_N n].
Proof.
  unfold Js.split_by. rewrite of_N_digits.
  induction stem as [|c stem IH]; intros Hfirst.
  - change (EmptyString +:+ Hook.time_marker +:+ ?d)
      with (String "-" ("time-" +:+ d)).
    cbn [Js.split_from].
    change (String "-" ("time-" +:+ ?d)) with (Hook.time_marker +:+ d).
    rewrite prefix_app_self. simpl. f_equal. apply split_from_digits.
  - change (String c stem +:+ ?x) with (String c (stem +:+ x)) in *.
    cbn [Js.includes] in Hfirst. apply orb_false_iff in Hfirst as [Hhere Hlater].
    cbn [Js.split_from].
    rewrite prefix_before_marker, Hhere. now rewrite (IH Hlater).
Qed.

Lemma split_without_marker (i : string) :
  Js.includes Hook.time_marker i = false ->
  Js.split_by Hook.time_marker i = [i].
Proof.
  unfold Js.split_by. induction i as [|c i IH]; [reflexivity|].
  cbn [Js.includes Js.split_from]. intros H.
  apply orb_false_iff in H as [Hhere Hlater]. now rewrite Hhere, (IH Hlater).
Qed.

Lemma parse_digits_acc (u : Decimal.uint) :
  forall acc : positive,
    Js.parse_digits 10 (Some (Z.pos acc)) (NilEmpty.string_of_uint u) =
    Some (Z.pos (Pos.of_uint_acc u acc)).
Proof.
  induction u; intros acc; cbn [NilEmpty.string_of_uint Pos.of_uint_acc];
    [reflexivity|..];
    (etransitivity; [|apply IHu]); cbn; f_equal; f_equal;
    match goal with
    | |- context [N_of_ascii ?c] =>
        let v := eval vm_compute in (N_of_ascii c) in
        change (N_of_ascii c) with v
    end; lia.
Qed.

Lemma parse_digits_zero (u : Decimal.uint) :
  Js.parse_digits 10 (Some 0) (NilEmpty.string_of_uint u) =
  Some (Z.of_N (N.of_uint u)).
Proof.
  induction u; cbn [NilEmpty.string_of_uint]; [reflexivity|exact IHu|..];
    (etransitivity; [|apply parse_digits_acc]); reflexivity.
Qed.

Lemma parseInt_digits (u : Decimal.uint) :
  u <> Decimal.Nil ->
  Js.parseInt (NilEmpty.string_of_uint u) = Some (Z.of_N (N.of_uint u)).
Proof.
  intros Hu. destruct u as [|u|u|u|u|u|u|u|u|u|u]; [congruence|..];
    [destruct u|..]; unfold Js.parseInt; simpl;
    try match goal with
        | |- context [Js.parse_digits 10 (Some ?a) _] =>
            let v := eval vm_compute in a in change a with v
        end;
    rewrite ?parse_digits_zero, ?parse_digits_acc; reflexivity.
Qed.

Lemma parseInt_of_N (n : N) : Js.parseInt (Js.of_N n) = Some (Z.of_N n).
Proof.
  rewrite of_N_digits, parseInt_digits by apply to_uint_not_nil.
  now rewrite DecimalN.Unsigned.of_to.
Qed.

Lemma generateMessageId_stem (m : MessageInfo.t) (t : N) :
  Hook.generateMessageId m t =
  Hook.id_stem m +:+ Hook.time_marker +:+ Js.of_N t.
Proof.
  unfold Hook.generateMessageId, Hook.id_stem. cbn zeta.
  now rewrite !string_app_assoc.
Qed.

Lemma is_old_generated (m : MessageInfo.t) (t now : N) :
  Js.includes Hook.time_marker (Hook.id_stem m +:+ "-time") = false ->
  Hook.is_old now (Hook.generateMessageId m t) =
  (Z.of_N t <? Z.of_N now - 5 * 60 * 1000).
Proof.
  intros Hfirst. unfold Hook.is_old. cbn zeta.
  rewrite generateMessageId_stem, (split_at_marker _ _ Hfirst).
  now rewrite parseInt_of_N.
Qed.

Lemma cleanup_spec (now : N) (w : Hook.world) :
  Hook.cleanup now w =
  (Task.Returns tt,
   {| Hook.hook :=
        Hook.set_processedMessageIds
          (filter (fun i => Hook.is_old now i = false)
             (Hook.processedMessageIds (Hook.hook w))) (Hook.hook w);
      Hook.service := Hook.service w |}, []).
Proof. reflexivity. Qed.

(** X14: the sweep reads the time of an id back from the text after
    [-time-]. For an id made by [generateMessageId] in which [-time-]
    does not occur before that marker, the id is still among the
    processed ids after a sweep exactly when its arrival is not more
    than five minutes before the sweep; an id without the marker is
    never removed; and the sweep touches nothing but the processed
    ids. *)
Theorem sweep_keeps_recent_ids (h : Service.host) (t now : N) (rnd : string)
  (m : MessageInfo.t) (w : Hook.world) (other : string) :
  Js.includes Hook.time_marker (Hook.id_stem m +:+ "-time") = false ->
  let arrived := Task.state_of (Hook.on_message h t rnd m w) in
  let swept := Task.state_of (Hook.cleanup now arrived) in
  (Hook.generateMessageId m t ∈ Hook.processedMessageIds (Hook.hook swept) <->
   Z.of_N now - 5 * 60 * 1000 <= Z.of_N t) /\
  (Js.includes Hook.time_marker other = false ->
   other ∈ Hook.processedMessageIds (Hook.hook arrived) ->
   other ∈ Hook.processedMessageIds (Hook.hook swept)) /\
  Hook.processedMessageIds (Hook.hook swept) ⊆
    Hook.processedMessageIds (Hook.hook arrived) /\
  Hook.notifications (Hook.hook swept) = Hook.notifications (Hook.hook arrived) /\
  Hook.pendingNotifications (Hook.hook swept) =
    Hook.pendingNotifications (Hook.hook arrived) /\
  Hook.reconnectCount (Hook.hook swept) = Hook.reconnectCount (Hook.hook arrived) /\
  Hook.hook swept =
    Hook.set_processedMessageIds
      (Hook.processedMessageIds (Hook.hook swept)) (Hook.hook arrived) /\
  Hook.service swept = Hook.service arrived /\
  Task.trace_of (Hook.cleanup now arrived) = [].
Proof.
  intros Hfirst. cbn zeta. rewrite cleanup_spec.
  cbn [Task.state_of Task.trace_of fst snd Hook.hook Hook.service
       Hook.processedMessageIds
       Hook.set_processedMessageIds Hook.notifications
       Hook.pendingNotifications Hook.reconnectCount].
  split; [|split; [|split; [|repeat split]]].
  - rewrite elem_of_filter, (is_old_generated m t now Hfirst). split.
    + intros [Hrecent _]. now apply Z.ltb_ge in Hrecent.
    + intros Hrecent. split; [now apply Z.ltb_ge|apply on_message_processed].
  - intros Hplain Hin. apply elem_of_filter. split; [|exact Hin].
    unfold Hook.is_old. cbn zeta. now rewrite (split_without_marker _ Hplain).
  - intros i Hi. now apply elem_of_filter in Hi as [_ Hi].
Qed.

Lemma sweep_keeps_recent_ids_witness :
  Js.includes Hook.time_marker (Hook.id_stem Samples.hello +:+ "-time") = false /\
  ~ Hook.generateMessageId Samples.hello 1000 ∈
      Hook.processedMessageIds
        (Hook.hook (Task.state_of
           (Hook.cleanup 400000
              (Task.state_of
                 (Hook.on_message Samples.host_denied 1000 "aaaaaa"
                    Samples.hello Samples.fresh_world))))).
Proof.
  assert (Hfirst : Js.includes Hook.time_marker
                     (Hook.id_stem Samples.hello +:+ "-time") = false)
    by (vm_compute; reflexivity).
  split; [exact Hfirst|].
  intros Hin.
  apply (proj1 (sweep_keeps_recent_ids Samples.host_denied 1000 400000
                  "aaaaaa" Samples.hello Samples.fresh_world "" Hfirst)) in Hin.
  cbn in Hin. lia.
Defined.

(** ** The quick test of the context *)

(** X17: [testNotificationSystem] of the context resolves to [true] on
    every host: its [catch] is never entered. The test notification is
    registered with the dispatcher while the context list stays as it
    was; the next poll brings the two together. *)
Theorem context_test_always_true (h : Service.host) (now : N)
  (w : Context.world) :
  let r := Context.testNotificationSystem h now w in
  let shown :=
    {| Service.title := "Test Notification";
       Service.message := "Testing the notification system";
       Service.icon := None; Service.duration := Some 3000 |} in
  Task.result_of r = Task.Returns true /\
  Context.notifications (Task.state_of r) = Context.notifications w /\
  Service.activeNotifications (Context.service (Task.state_of r)) =
    Service.activeNotifications (Context.service w) ++ [shown] /\
  Context.notifications (Task.state_of (Context.poll (Task.state_of r))) =
    Service.activeNotifications (Context.service w) ++ [shown].
Proof.
  cbn zeta. unfold Context.testNotificationSystem, Context.showNotification.
  rewrite try_catch_apply, bind_apply. unfold Context.lift.
  set (shown := {| Service.title := "Test Notification";
                   Service.message := "Testing the notification system";
                   Service.icon := None; Service.duration := Some 3000 |}).
  pose proof (showNotification_returns h now shown (Context.service w)) as Hr.
  pose proof (showNotification_state h now shown (Context.service w)) as Hs.
  cbn zeta in Hs.
  destruct (Service.showNotification h now shown (Context.service w))
    as [[r s'] t].
  cbn in Hr, Hs. subst r. cbn -[Context.poll].
  rewrite poll_spec. cbn. rewrite Hs. cbn. auto.
Qed.
